(** * GPT Deadline: the cycle-time engine of [src/App.jsx]

    A shallow embedding of the time engine of the component
    [GPTDeadlineApp]: the window resolver [rollCycleToNow], the milestone
    calculator [milestoneTimes], the progress arithmetic of the component
    body, the persisted-settings reader [loadState] and the reminder effect
    of [useReminders]; then the handlers of the settings, [saveState], the
    duration breakdowns, the list of toasts, the rotating tip, the clock of
    [useNowTick] and the days of [CalendarStrip].

    Instants are epoch milliseconds in [Z].  The one instant that can fall
    between two milliseconds, the halfway milestone, is a rational.  Luxon's
    date arithmetic is written out for a zone given by its UTC offsets.
    Rendering and the calendar export are left out; of a timeout the model
    keeps when it was set, with which delay, and for which reminder. *)

From Stdlib Require Import ZArith QArith Qround Qminmax Lia Lqa Bool List.
From stdpp Require Import base option gmap strings pretty list fin_maps.

Local Open Scope Z_scope.

(* ================================================================== *)
(** ** Constants of the utilities section *)

Definition MS_PER_MIN : Z := 60 * 1000.
Definition MS_PER_HOUR : Z := 60 * MS_PER_MIN.
Definition MS_PER_DAY : Z := 24 * MS_PER_HOUR.

(** [clamp = (n, min, max) => Math.max(min, Math.min(max, n))] *)
Definition clamp (n min max : Z) : Z := Z.max min (Z.min max n).

(* ================================================================== *)
(** ** The calendar of the JavaScript [Date] object

    Luxon converts between a local timestamp and calendar fields through
    [Date.UTC] and the [getUTC*] accessors.  Their proleptic Gregorian
    day arithmetic is written out here (ECMA-262, "Day Number and Time
    within Day", "Year Number", "Month Number", [MakeDay]). *)

Module Calendar.

(** Luxon [isLeapYear]: [year % 4 === 0 && (year % 100 !== 0 || year % 400 === 0)]. *)
Definition isLeapYear (year : Z) : bool :=
  (Z.rem year 4 =? 0) && (negb (Z.rem year 100 =? 0) || (Z.rem year 400 =? 0)).

(** Number of the first day of [y], counted from 1970-01-01. *)
Definition dayFromYear (y : Z) : Z :=
  365 * (y - 1970) + (y - 1969) / 4 - (y - 1901) / 100 + (y - 1601) / 400.

Definition daysInYear (y : Z) : Z := if isLeapYear y then 366 else 365.

(** The year that contains day [day]: the largest [y] with
    [dayFromYear y <= day].  A first guess from the mean year length is
    off by at most one. *)
Definition yearFromDay (day : Z) : Z :=
  let y0 := 1970 + (400 * day) / 146097 in
  if day <? dayFromYear y0 then y0 - 1
  else if dayFromYear (y0 + 1) <=? day then y0 + 1
  else y0.

(** Days of the year before month [m0] (0 = January). *)
Definition daysBeforeMonth (leap : bool) (m0 : Z) : Z :=
  let l := if leap then 1 else 0 in
  if m0 <=? 0 then 0
  else if m0 =? 1 then 31
  else if m0 =? 2 then 59 + l
  else if m0 =? 3 then 90 + l
  else if m0 =? 4 then 120 + l
  else if m0 =? 5 then 151 + l
  else if m0 =? 6 then 181 + l
  else if m0 =? 7 then 212 + l
  else if m0 =? 8 then 243 + l
  else if m0 =? 9 then 273 + l
  else if m0 =? 10 then 304 + l
  else 334 + l.

(** Month (0 = January) of the day numbered [d] within its year. *)
Definition monthFromDayInYear (leap : bool) (d : Z) : Z :=
  let l := if leap then 1 else 0 in
  if d <? 31 then 0
  else if d <? 59 + l then 1
  else if d <? 90 + l then 2
  else if d <? 120 + l then 3
  else if d <? 151 + l then 4
  else if d <? 181 + l then 5
  else if d <? 212 + l then 6
  else if d <? 243 + l then 7
  else if d <? 273 + l then 8
  else if d <? 304 + l then 9
  else if d <? 334 + l then 10
  else 11.

(** [MakeDay(year, month, date)]: months outside 0..11 carry into the
    year, days outside the month carry linearly. *)
Definition makeDay (year month0 date : Z) : Z :=
  let ym := year + month0 / 12 in
  let mn := month0 mod 12 in
  dayFromYear ym + daysBeforeMonth (isLeapYear ym) mn + date - 1.

(** Luxon [daysInMonth(year, month)], month counted from 1 and allowed to
    overflow into the neighbouring years. *)
Definition daysInMonth (year month : Z) : Z :=
  let modMonth := (month - 1) mod 12 + 1 in
  let modYear := year + (month - modMonth) / 12 in
  if modMonth =? 2 then (if isLeapYear modYear then 29 else 28)
  else if (modMonth =? 4) || (modMonth =? 6) || (modMonth =? 9) || (modMonth =? 11)
       then 30 else 31.

(** Calendar fields of a local timestamp; the four time-of-day fields
    (hour, minute, second, millisecond) are kept as one number of
    milliseconds since local midnight. *)
Record Fields : Set := mkFields
  { year : Z; month : Z; day : Z; timeOfDay : Z }.

(** Luxon [objToLocalTS]: [Date.UTC(year, month - 1, day, h, m, s, ms)]. *)
Definition objToLocalTS (c : Fields) : Z :=
  makeDay (year c) (month c - 1) (day c) * MS_PER_DAY + timeOfDay c.

(** The fields [new Date(localTS)] reports through [getUTCFullYear],
    [getUTCMonth() + 1], [getUTCDate] and the time accessors. *)
Definition localTSToObj (localTS : Z) : Fields :=
  let dayNo := localTS / MS_PER_DAY in
  let y := yearFromDay dayNo in
  let inYear := dayNo - dayFromYear y in
  let m0 := monthFromDayInYear (isLeapYear y) inYear in
  {| year := y;
     month := m0 + 1;
     day := inYear - daysBeforeMonth (isLeapYear y) m0 + 1;
     timeOfDay := localTS mod MS_PER_DAY |}.

End Calendar.

(* ================================================================== *)
(** ** Luxon date-times in a zone *)

Module Luxon.
Import Calendar.

(** A zone gives the UTC offset, in minutes, in force at an instant. *)
Record Zone : Type := mkZone { offset : Z -> Z }.

(** A [DateTime] of a zone is given by its instant [ts].  Luxon keeps next
    to it the offset [o] and the calendar fields [c] the instant is shown
    with; its constructor computes them from the instant, [o] as
    [zone.offset(ts)] and [c] as [tsToObj(ts, o)], so they are derived here. *)
Record DateTime : Set := mkDateTime { ts : Z }.

Definition toMillis (dt : DateTime) : Z := ts dt.

(** The offset [o] of a date-time of zone [z]. *)
Definition offsetOf (z : Zone) (dt : DateTime) : Z := offset z (ts dt).

(** [DateTime.fromMillis(t, { zone })], also the result of [setZone]. *)
Definition atInstant (z : Zone) (t : Z) : DateTime := {| ts := t |}.

(** Luxon [tsToObj(ts, offset)]. *)
Definition tsToObj (t off : Z) : Fields := localTSToObj (t + off * 60 * 1000).

(** Luxon [fixOffset(localTS, o, tz)]: find the instant whose local
    reading in [tz] is [localTS], starting from the guess that the offset
    is still [o]. *)
Definition fixOffset (z : Zone) (localTS off : Z) : Z * Z :=
  let utcGuess := localTS - off * 60 * 1000 in
  let o2 := offset z utcGuess in
  if off =? o2 then (utcGuess, off)
  else
    let utcGuess' := utcGuess - (o2 - off) * 60 * 1000 in
    let o3 := offset z utcGuess' in
    if o2 =? o3 then (utcGuess', o2)
    else (localTS - Z.min o2 o3 * 60 * 1000, Z.max o2 o3).

(** Luxon [adjustTime(inst, dur)] for a duration of whole [months] and
    [days] and of [millis] milliseconds of clock time: months and days
    move the calendar fields and keep the local time of day; clock time
    is added to the instant. *)
Definition adjustTime (z : Zone) (inst : DateTime) (months days millis : Z)
  : DateTime :=
  let oPre := offsetOf z inst in
  let c := tsToObj (ts inst) oPre in
  let year' := year c in
  let month' := month c + months in
  let c' := {| year := year';
               month := month';
               day := Z.min (day c) (daysInMonth year' month') + days;
               timeOfDay := timeOfDay c |} in
  let '(t, _) := fixOffset z (objToLocalTS c') oPre in
  if millis =? 0 then {| ts := t |} else {| ts := t + millis |}.

(** [dt.plus({ months })] *)
Definition plus_months (z : Zone) (dt : DateTime) (months : Z) : DateTime :=
  adjustTime z dt months 0 0.

(** [dt.minus({ days })] *)
Definition minus_days (z : Zone) (dt : DateTime) (days : Z) : DateTime :=
  adjustTime z dt 0 (- days) 0.

(** [dt.minus({ hours })] *)
Definition minus_hours (z : Zone) (dt : DateTime) (hours : Z) : DateTime :=
  adjustTime z dt 0 0 (- (hours * MS_PER_HOUR)).

(** [dt.minus({ minutes })] *)
Definition minus_minutes (z : Zone) (dt : DateTime) (minutes : Z) : DateTime :=
  adjustTime z dt 0 0 (- (minutes * MS_PER_MIN)).

(** A zone whose offset never changes, such as the default
    [Asia/Kathmandu] (+05:45) over the years the component is used in. *)
Definition fixedZone (minutes : Z) : Zone := {| offset := fun _ => minutes |}.

(** A zone with one change of offset: [before] up to the instant
    [change], [after] from it. *)
Definition switchZone (change before after : Z) : Zone :=
  {| offset := fun t => if t <? change then before else after |}.

End Luxon.

Import Calendar Luxon.

Definition DEFAULT_ZONE : Zone := fixedZone 345.

(* ================================================================== *)
(** ** The window resolver *)

(** The part of the cycle record the resolver reads.  An ISO string is
    represented by the instant it denotes; [timezone] by the zone it names. *)
Record Cycle : Type := mkCycle
  { timezone : Zone; startISO : Z; endISO : Z }.

(** [inZone(iso, zone) = DateTime.fromISO(iso, { zone })] *)
Definition inZone (iso : Z) (zone : Zone) : DateTime := atInstant zone iso.

(** [monthAddCalendar(dt, months = 1) = dt.plus({ months })] *)
Definition monthAddCalendar (z : Zone) (dt : DateTime) (months : Z) : DateTime :=
  plus_months z dt months.

Record Window : Set := mkWindow
  { start : DateTime; end_ : DateTime; rolled : bool }.

(** The loop [while (now >= end) { start = end; end = monthAddCalendar(end, 1);
    rolled = true; }].  [fuel] bounds the number of iterations; [None] means
    the bound was reached with the loop still running. *)
Fixpoint roll_loop (fuel : nat) (z : Zone) (now : Z)
  (start0 end0 : DateTime) (rolled0 : bool) : option Window :=
  if now <? toMillis end0
  then Some {| start := start0; end_ := end0; rolled := rolled0 |}
  else match fuel with
       | O => None
       | S fuel' => roll_loop fuel' z now end0 (monthAddCalendar z end0 1) true
       end.

(** [rollCycleToNow(cycle, now)]; date-times compare by their instants. *)
Definition rollCycleToNow (fuel : nat) (cycle : Cycle) (now : DateTime)
  : option Window :=
  let start0 := inZone (startISO cycle) (timezone cycle) in
  let end0 := inZone (endISO cycle) (timezone cycle) in
  let rolled0 := false in
  if toMillis now <? toMillis start0
  then Some {| start := start0; end_ := end0; rolled := rolled0 |}
  else roll_loop fuel (timezone cycle) (toMillis now) start0 end0 rolled0.

(* ================================================================== *)
(** ** Milestones *)

(** [toMillis()] of a date-time that need not sit on a whole millisecond. *)
Definition Instant : Set := Q.

Definition instantOf (dt : DateTime) : Instant := inject_Z (toMillis dt).

(** The result of [milestoneTimes].  [halfway] is kept by its instant:
    [totalMs / 2] is a half millisecond off a whole one when [totalMs] is
    odd.  The other three are date-times at whole milliseconds. *)
Record Milestones : Set := mkMilestones
  { halfway : Instant; threeDays : DateTime; lastDay : DateTime; renewal : DateTime }.

(** [start.plus({ milliseconds: ms })] for a possibly fractional [ms],
    following [adjustTime]: the calendar fields do not move, the
    milliseconds are added to the instant (nothing is added when [ms] is 0). *)
Definition plus_milliseconds (z : Zone) (dt : DateTime) (ms : Q) : Instant :=
  (inject_Z (toMillis (adjustTime z dt 0 0 0)) + ms)%Q.

(** [milestoneTimes(start, end)] *)
Definition milestoneTimes (z : Zone) (start0 end0 : DateTime) : Milestones :=
  let totalMs := toMillis end0 - toMillis start0 in
  {| halfway := plus_milliseconds z start0 (inject_Z totalMs / 2)%Q;
     threeDays := minus_days z end0 3;
     lastDay := minus_hours z end0 24;
     renewal := end0 |}.

(* ================================================================== *)
(** ** Progress arithmetic of the component body *)

(** What JavaScript's [/] yields on two integers. *)
Inductive JSNumber : Set :=
| JSFinite (q : Q)
| JSPosInfinity
| JSNegInfinity
| JSNaN.

Definition js_div (a b : Z) : JSNumber :=
  if b =? 0 then
    (if a =? 0 then JSNaN else if 0 <? a then JSPosInfinity else JSNegInfinity)
  else JSFinite (inject_Z a / inject_Z b)%Q.

Record Progress : Set := mkProgress
  { totalMs : Z; elapsedMs : Z; remainingMs : Z; progress : JSNumber }.

(** Lines [const totalMs = ...] to [const progress = elapsedMs / totalMs]
    of [GPTDeadlineApp]. *)
Definition computeProgress (start0 end0 now : DateTime) : Progress :=
  let totalMs := toMillis end0 - toMillis start0 in
  let elapsedMs := clamp (toMillis now - toMillis start0) 0 totalMs in
  let remainingMs := clamp (toMillis end0 - toMillis now) 0 totalMs in
  {| totalMs := totalMs; elapsedMs := elapsedMs; remainingMs := remainingMs;
     progress := js_div elapsedMs totalMs |}.

(* ================================================================== *)
(** ** Persisted settings *)

(** JSON values as [JSON.parse] builds them. *)
#[warnings="-register-all"] Inductive JSON : Type :=
| JNull
| JBool (b : bool)
| JNumber (q : Q)
| JString (s : string)
| JArray (l : list JSON)
| JObject (m : gmap string JSON).

(** JavaScript truthiness; a missing property ([undefined]) is [None]. *)
Definition truthy (v : option JSON) : bool :=
  match v with
  | None | Some JNull => false
  | Some (JBool b) => b
  | Some (JNumber q) => negb (Qeq_bool q 0)
  | Some (JString s) => negb (String.eqb s "")
  | Some (JArray _) | Some (JObject _) => true
  end.

(** Own enumerable properties copied by object spread [{ ...v }]: the
    entries of an object, the indices of an array or of a string, nothing
    for [null], booleans and numbers. *)
Definition spreadProps (v : JSON) : gmap string JSON :=
  match v with
  | JObject m => m
  | JArray l =>
      list_to_map (imap (fun i x => (pretty.pretty (N.of_nat i), x)) l)
  | JString s =>
      list_to_map (imap (fun i c => (pretty.pretty (N.of_nat i),
                                     JString (String c EmptyString)))
                        (String.list_ascii_of_string s))
  | JNull | JBool _ | JNumber _ => ∅
  end.

(** The outcome of a JavaScript expression: a value, or an exception. *)
Inductive Completion (A : Type) : Type :=
| Normal (a : A)
| Throw.
Arguments Normal {A} a.
Arguments Throw {A}.

Definition cbind {A B : Type} (c : Completion A) (k : A -> Completion B)
  : Completion B :=
  match c with Normal a => k a | Throw => Throw end.

(** [localStorage]: unavailable (every access throws), or a table of
    strings. *)
Definition Storage : Type := option (gmap string string).

(** [localStorage.getItem(key)]; [None] is [null]. *)
Definition getItem (st : Storage) (key : string) : Completion (option string) :=
  match st with
  | None => Throw
  | Some table => Normal (table !! key)
  end.

Section PersistedSettings.

(** [JSON.parse] is the platform's: [None] when it throws a SyntaxError. *)
Variable parse : string -> option JSON.

Definition JSON_parse (raw : string) : Completion JSON :=
  match parse raw with Some v => Normal v | None => Throw end.

(** The [try] block of [loadState]. *)
Definition loadState_try (st : Storage) (key : string)
  (fallback : gmap string JSON) : Completion (gmap string JSON) :=
  cbind (getItem st key) (fun raw =>
    match raw with
    | None => Normal fallback
    | Some text =>
        if String.eqb text "" then Normal fallback
        else cbind (JSON_parse text) (fun parsed =>
               Normal (spreadProps parsed ∪ fallback))
    end).

(** [loadState(key, fallback)]: [try { ... } catch { return fallback; }] *)
Definition loadState (st : Storage) (key : string)
  (fallback : gmap string JSON) : gmap string JSON :=
  match loadState_try st key fallback with
  | Normal v => v
  | Throw => fallback
  end.

End PersistedSettings.

(** [DEFAULT_CYCLE.reminders] *)
Definition DEFAULT_REMINDERS : gmap string JSON :=
  <["halfway" := JBool true]>
  (<["threeDays" := JBool true]>
  (<["lastDay" := JBool true]>
  (<["renewal" := JBool true]> ∅))).

(** [DEFAULT_CYCLE] *)
Definition DEFAULT_CYCLE : gmap string JSON :=
  <["plan" := JString "ChatGPT Plus"]>
  (<["timezone" := JString "Asia/Kathmandu"]>
  (<["startISO" := JString "2025-08-20T07:18:00+05:45"]>
  (<["endISO" := JString "2025-09-20T07:18:00+05:45"]>
  (<["reminders" := JObject DEFAULT_REMINDERS]>
  (<["theme" := JString "system"]>
  (<["hourFormat" := JString "12h"]> ∅)))))).

(** The flags [useReminders] finds in the property [reminders] of a loaded
    cycle. *)
Definition remindersOf (cycle : gmap string JSON) : gmap string JSON :=
  match cycle !! "reminders" with
  | Some (JObject m) => m
  | _ => ∅
  end.

(* ================================================================== *)
(** ** The clock of the component *)


(** The interval callback of [useNowTick]: in QA mode the synthetic clock
    advances by one second, otherwise the wall clock is read again. *)
Definition useNowTick_tick (qaMode : bool) (prev : DateTime) (wall : Z)
  : DateTime :=
  if qaMode then adjustTime DEFAULT_ZONE prev 0 0 1000
  else atInstant DEFAULT_ZONE wall.

(* ================================================================== *)
(** ** The reminder effect of [useReminders] *)

Inductive NotificationPermission : Set :=
| PermissionGranted
| PermissionDenied
| PermissionDefault.

(** What one call of [schedule] hands to [setTimeout]: the closure [notify]
    (its [title] and [body]), the [key] it is stored under, and the [delay]. *)
Record Reminder : Set := mkReminder
  { key : string; title : string; body : string; delay : Q }.

(** A pending timeout of the page: its id, the wall-clock instant at which
    [setTimeout] was called, and what it runs. *)
Record Timeout : Set := mkTimeout
  { timeoutId : Z; setAt : Z; reminder : Reminder }.

(** A number converted to the WebIDL type [long] of the [timeout] argument
    of [setTimeout]: the fraction is dropped and the integer wraps around
    into the range from [-2^31] to [2^31 - 1]. *)
Definition truncQ (q : Q) : Z := if Qle_bool 0 q then Qfloor q else Qceiling q.

Definition toInt32 (n : Z) : Z :=
  let m := n mod 4294967296 in
  if 2147483648 <=? m then m - 4294967296 else m.

(** The time the page waits before it runs a timeout (timer initialisation
    steps of the HTML standard): the converted argument, 0 when that is
    negative. *)
Definition timerDelay (delay0 : Q) : Z := Z.max 0 (toInt32 (truncQ delay0)).

(** The instant at which a timeout is due. *)
Definition dueAt (x : Timeout) : Z := setAt x + timerDelay (delay (reminder x)).

(** The state the effect works on.
    - [hasNotification] is ["Notification" in window];
    - [permission] is [Notification.permission];
    - [timeouts] are the pending timeouts set by [schedule];
    - [timers_current] is the object [timers.current];
    - [awaiting] are the calls of [schedule] suspended at
      [await Notification.requestPermission()], oldest first. *)
Record World : Type := mkWorld
  { hasNotification : bool;
    permission : NotificationPermission;
    nextTimeoutId : Z;
    timeouts : list Timeout;
    timers_current : gmap string Z;
    awaiting : list Reminder }.

Definition permission_is_default (w : World) : bool :=
  match permission w with PermissionDefault => true | _ => false end.

(** [window.setTimeout(notify, delay)] called at wall-clock instant [t]. *)
Definition setTimeout (t : Z) (r : Reminder) (w : World) : Z * World :=
  (nextTimeoutId w,
   {| hasNotification := hasNotification w;
      permission := permission w;
      nextTimeoutId := nextTimeoutId w + 1;
      timeouts := timeouts w ++ [ {| timeoutId := nextTimeoutId w; setAt := t;
                                     reminder := r |} ];
      timers_current := timers_current w;
      awaiting := awaiting w |}).

(** [clearTimeout(id)] on the list of pending timeouts. *)
Definition clearTimeout (id : Z) (l : list Timeout) : list Timeout :=
  List.filter (fun x => negb (timeoutId x =? id)) l.

(** [Object.values(timers.current).forEach((id) => id && clearTimeout(id));
    timers.current = {};] *)
Definition clearPrevious (w : World) : World :=
  let ids := (map_to_list (timers_current w)).*2 in
  {| hasNotification := hasNotification w;
     permission := permission w;
     nextTimeoutId := nextTimeoutId w;
     timeouts := fold_right (fun id l => if id =? 0 then l else clearTimeout id l)
                            (timeouts w) ids;
     timers_current := ∅;
     awaiting := awaiting w |}.

(** The last statement of [schedule],
    [timers.current[key] = window.setTimeout(notify, delay)], run at
    wall-clock instant [t]. *)
Definition schedule_arm (t : Z) (r : Reminder) (w : World) : World :=
  let '(id, w') := setTimeout t r w in
  {| hasNotification := hasNotification w';
     permission := permission w';
     nextTimeoutId := nextTimeoutId w';
     timeouts := timeouts w';
     timers_current := <[key r := id]> (timers_current w');
     awaiting := awaiting w' |}.

(** One call [schedule(key, at, title, body)], reading the wall clock as
    [nowRef].  The function is [async]: when the permission is still
    ["default"] it stops at [await Notification.requestPermission()] and its
    last statement runs only once the request settles; otherwise it runs to
    its end at once. *)
Definition schedule (enabled : gmap string JSON) (nowRef : Z)
  (key0 : string) (at_ : Instant) (title0 body0 : string) (w : World) : World :=
  let delay0 := (at_ - inject_Z nowRef)%Q in
  if Qle_bool delay0 0 || negb (truthy (enabled !! key0)) then w
  else
    let r := {| key := key0; title := title0; body := body0; delay := delay0 |} in
    if hasNotification w && permission_is_default w
    then {| hasNotification := hasNotification w;
            permission := permission w;
            nextTimeoutId := nextTimeoutId w;
            timeouts := timeouts w;
            timers_current := timers_current w;
            awaiting := awaiting w ++ [r] |}
    else schedule_arm nowRef r w.

(** The permission request settles at wall-clock instant [t] with outcome
    [p]: every suspended call of [schedule] runs its last statement. *)
Definition permissionSettled (p : NotificationPermission) (t : Z) (w : World)
  : World :=
  fold_left (fun w0 r => schedule_arm t r w0) (awaiting w)
    {| hasNotification := hasNotification w;
       permission := p;
       nextTimeoutId := nextTimeoutId w;
       timeouts := timeouts w;
       timers_current := timers_current w;
       awaiting := [] |}.

(** The body of the effect of [useReminders(enabled, start, end)].  Each
    call of [schedule] reads the wall clock for itself: [clock k] is the
    reading in the call for [k]. *)
Definition useReminders_effect (z : Zone) (enabled : gmap string JSON)
  (start0 end0 : DateTime) (clock : string -> Z) (w : World) : World :=
  let w0 := clearPrevious w in
  let m := milestoneTimes z start0 end0 in
  let w1 := schedule enabled (clock "halfway") "halfway" (halfway m)
              "Halfway point"
              "You’re halfway through this cycle. Plan a high-value session." w0 in
  let w2 := schedule enabled (clock "threeDays") "threeDays"
              (instantOf (threeDays m))
              "3 days left" "Three days left—queue the tasks you want done." w1 in
  let w3 := schedule enabled (clock "lastDay") "lastDay" (instantOf (lastDay m))
              "24 hours left" "Last day of this cycle. Ship something today." w2 in
  schedule enabled (clock "renewal") "renewal"
    (instantOf (minus_minutes z (renewal m) 5))
    "Renewal soon" "Your plan renews in 5 minutes." w3.

(** The cleanup the effect returns. *)
Definition useReminders_cleanup (w : World) : World := clearPrevious w.

(** A change of [enabled], [start] or [end]: React runs the cleanup of the
    previous effect, then the effect. *)
Definition rearm (z : Zone) (enabled : gmap string JSON)
  (start0 end0 : DateTime) (clock : string -> Z) (w : World) : World :=
  useReminders_effect z enabled start0 end0 clock (useReminders_cleanup w).


(** The timeouts of a list that were set for [k]. *)
Definition timeoutsFor (k : string) (l : list Timeout) : list Timeout :=
  List.filter (fun x => String.eqb (key (reminder x)) k) l.

(** The suspended calls of [schedule] for [k]. *)
Definition awaitingFor (k : string) (l : list Reminder) : list Reminder :=
  List.filter (fun r => String.eqb (key r) k) l.

(** A page on which nothing was scheduled yet. *)
Definition freshWorld (api : bool) (p : NotificationPermission) : World :=
  {| hasNotification := api; permission := p; nextTimeoutId := 1;
     timeouts := []; timers_current := ∅; awaiting := [] |}.

(** A pending timeout runs: the page takes it off its list and calls
    [notify], which shows the reminder (a toast, and a notification when the
    permission is granted). *)
Definition fireTimeout (id : Z) (w : World) : option (Reminder * World) :=
  match List.find (fun x => timeoutId x =? id) (timeouts w) with
  | Some x =>
      Some (reminder x,
            {| hasNotification := hasNotification w;
               permission := permission w;
               nextTimeoutId := nextTimeoutId w;
               timeouts := clearTimeout id (timeouts w);
               timers_current := timers_current w;
               awaiting := awaiting w |})
  | None => None
  end.

(** What the page does on its own between two runs of the effect, with the
    reminders it shows: a timeout runs, or the permission request settles. *)
Inductive pageStep : World -> list Reminder -> World -> Prop :=
| step_fire : forall id r w w',
    fireTimeout id w = Some (r, w') -> pageStep w [r] w'
| step_settle : forall p t w,
    pageStep w [] (permissionSettled p t w).

Inductive pageRun : World -> list Reminder -> World -> Prop :=
| run_done : forall w, pageRun w [] w
| run_step : forall w1 w2 w3 shown1 shown2,
    pageStep w1 shown1 w2 -> pageRun w2 shown2 w3 ->
    pageRun w1 (shown1 ++ shown2) w3.

(* ================================================================== *)
(** ** Auxiliary notions used by the statements *)

(** Day of the year on which month [m0] (0 = January) ends. *)
Definition endOfMonth (leap : bool) (m0 : Z) : Z :=
  if m0 =? 11 then (if leap then 366 else 365)
  else daysBeforeMonth leap (m0 + 1).

(** UTC offsets stay within a day of UTC (real zones stay within 14 hours). *)
Definition MAX_OFFSET : Z := 24 * 60.

Definition zone_bounded (z : Zone) : Prop :=
  forall t, - MAX_OFFSET <= offset z t <= MAX_OFFSET.

(** A calendar month never advances the instant by less than this. *)
Definition MIN_STEP : Z := 26 * MS_PER_DAY.

(** Iterations after which the loop of [rollCycleToNow] has stopped. *)
Definition roll_fuel (now anchorEnd : Z) : nat :=
  Z.to_nat ((now - anchorEnd) / MIN_STEP + 1).

(** The dates of [DEFAULT_CYCLE] as the resolver reads them:
    2025-08-20T07:18:00+05:45 and 2025-09-20T07:18:00+05:45. *)
Definition DEFAULT_START : Z := 1755653580000.
Definition DEFAULT_END : Z := 1758331980000.

Definition defaultCycle : Cycle :=
  {| timezone := DEFAULT_ZONE; startISO := DEFAULT_START; endISO := DEFAULT_END |}.

(** A zone that goes from +01:00 to +02:00 at 2025-03-30T01:00:00Z, as
    Europe/Berlin does. *)
Definition dstZone : Zone := switchZone 1743296400000 60 120.

(** The outcomes the specification gives the progress calculator. *)
Inductive ProgressOutcome : Set :=
| InvalidWindow
| Fraction (f : JSNumber).

(** The progress calculator as the specification words it: a window of
    length zero is refused, any other is divided through. *)
Definition progress_as_specified (start0 end0 now : DateTime) : ProgressOutcome :=
  if toMillis end0 - toMillis start0 =? 0 then InvalidWindow
  else Fraction (progress (computeProgress start0 end0 now)).

(** The progress calculator as the component has it: always a number. *)
Definition progress_as_coded (start0 end0 now : DateTime) : ProgressOutcome :=
  Fraction (progress (computeProgress start0 end0 now)).

(** The key the cycle is stored under. *)
Definition CYCLE_KEY : string := "gpt-deadline:cycle".

(** A stored record that holds one property, [reminders], itself holding one
    flag: the text [{"reminders":{"halfway":false}}] and its value. *)
Definition quote : string := String (Ascii.ascii_of_nat 34) EmptyString.

Definition partialText : string :=
  "{" +:+ quote +:+ "reminders" +:+ quote +:+ ":{"
      +:+ quote +:+ "halfway" +:+ quote +:+ ":false}}".

Definition partialRecord : JSON :=
  JObject (<["reminders" := JObject (<["halfway" := JBool false]> ∅)]> ∅).

(** A [JSON.parse] that knows this one text and rejects every other. *)
Definition parsePartial (raw : string) : option JSON :=
  if String.eqb raw partialText then Some partialRecord else None.

(** No permission request is pending: every call of [schedule] runs to its
    end at once. *)
Definition settled (w : World) : Prop :=
  hasNotification w && permission_is_default w = false.

(** The largest delay [setTimeout] waits for, in milliseconds (about 24.8
    days); a longer one wraps around. *)
Definition MAX_TIMER_DELAY : Z := 2147483647.

(** [w] holds a timeout for [k], recorded in [timers.current], set at
    [nowRef] with the delay that reaches from [nowRef] to [at_]; it is due at
    the millisecond of [at_] when that delay is one [setTimeout] waits for. *)
Definition armedFor (w : World) (k : string) (at_ : Instant) (nowRef : Z) : Prop :=
  exists x,
    In x (timeouts w)
    /\ timers_current w !! k = Some (timeoutId x)
    /\ key (reminder x) = k
    /\ setAt x = nowRef
    /\ delay (reminder x) = (at_ - inject_Z nowRef)%Q
    /\ (Qfloor at_ - nowRef <= MAX_TIMER_DELAY -> dueAt x = Qfloor at_).

(** Between [w0] and [w'] nothing happened for [k]: no timeout set, no call
    suspended, no id recorded. *)
Definition untouchedFor (k : string) (w0 w' : World) : Prop :=
  timeoutsFor k (timeouts w') = timeoutsFor k (timeouts w0)
  /\ awaitingFor k (awaiting w') = awaitingFor k (awaiting w0)
  /\ timers_current w' !! k = timers_current w0 !! k.

(** Nothing is pending for [k]: no timeout, no suspended call. *)
Definition quietFor (k : string) (w : World) : Prop :=
  timeoutsFor k (timeouts w) = [] /\ awaitingFor k (awaiting w) = [].

(** Whatever the page does from [w] on, it shows no reminder for [k]. *)
Definition neverShown (k : string) (w : World) : Prop :=
  forall shown w', pageRun w shown w' -> forall r, In r shown -> key r <> k.

(** The run of the effect that leads from the cleared world [w0] to [w']
    skipped [k]: it set no timeout, suspended no call and recorded no id for
    [k], and, when nothing was left pending for [k] from before, no reminder
    for [k] is ever shown. *)
Definition skippedFor (k : string) (w0 w' : World) : Prop :=
  untouchedFor k w0 w'
  /\ timers_current w' !! k = None
  /\ (quietFor k w0 -> neverShown k w').

(** Every pending timeout is known to [timers.current]. *)
Definition tracked (w : World) : Prop :=
  forall x, In x (timeouts w) ->
            timeoutId x <> 0 /\ exists k, timers_current w !! k = Some (timeoutId x).

(** The test of [schedule]: the delay is positive and the flag is truthy. *)
Definition wanted (enabled : gmap string JSON) (nowRef : Z) (k : string)
  (at_ : Instant) : bool :=
  negb (Qle_bool (at_ - inject_Z nowRef) 0 || negb (truthy (enabled !! k))).

(** What a call of [schedule] hands on when its test passes. *)
Definition reminderFor (enabled : gmap string JSON) (nowRef : Z) (k : string)
  (at_ : Instant) (t b : string) : list Reminder :=
  if wanted enabled nowRef k at_
  then [ {| key := k; title := t; body := b;
            delay := (at_ - inject_Z nowRef)%Q |} ]
  else [].

(** The reminders one run of the effect hands on, in the order of its four
    calls of [schedule]. *)
Definition armedReminders (z : Zone) (enabled : gmap string JSON)
  (start0 end0 : DateTime) (clock : string -> Z) : list Reminder :=
  let m := milestoneTimes z start0 end0 in
  reminderFor enabled (clock "halfway") "halfway" (halfway m) "Halfway point"
    "You’re halfway through this cycle. Plan a high-value session."
  ++ reminderFor enabled (clock "threeDays") "threeDays" (instantOf (threeDays m))
       "3 days left" "Three days left—queue the tasks you want done."
  ++ reminderFor enabled (clock "lastDay") "lastDay" (instantOf (lastDay m))
       "24 hours left" "Last day of this cycle. Ship something today."
  ++ reminderFor enabled (clock "renewal") "renewal"
       (instantOf (minus_minutes z (renewal m) 5))
       "Renewal soon" "Your plan renews in 5 minutes.".

(** Arming a list of reminders one after the other, each at the reading of
    the clock for its key. *)
Definition armAll (clock : string -> Z) (rs : list Reminder) (w : World) : World :=
  fold_left (fun w0 r => schedule_arm (clock (key r)) r w0) rs w.

(** A clock that does not move between the four calls of [schedule]. *)
Definition still (t : Z) : string -> Z := fun _ => t.

(* ================================================================== *)
(** ** Other parts of the component *)

(** [const renewedState = now >= end;] in [GPTDeadlineApp], the condition of
    the banner "Cycle renewed. Showing current window." *)
Definition renewedState (now : DateTime) (w : Window) : bool :=
  toMillis (end_ w) <=? toMillis now.

(** The handler of the button "Recompute 1-month end":
    [const s = inZone(cycle.startISO, cycle.timezone);
     const e = monthAddCalendar(s, 1);
     setCycle((c) => ({ ...c, endISO: e.toISO() || c.endISO }));] *)
Definition recomputeEnd (c : Cycle) : Cycle :=
  let s := inZone (startISO c) (timezone c) in
  let e := monthAddCalendar (timezone c) s 1 in
  {| timezone := timezone c; startISO := startISO c; endISO := toMillis e |}.

(** [onEditDates(newStartLocal, newEndLocal)].  The two arguments are given
    as [fromLocalInputValue] reads them: [None] is a date-time that is not
    valid.  The second component tells whether the [alert] was shown. *)
Definition onEditDates (s e : option DateTime) (c : Cycle) : Cycle * bool :=
  match s, e with
  | Some s0, Some e0 =>
      if toMillis e0 <=? toMillis s0 then (c, true)
      else ({| timezone := timezone c; startISO := toMillis s0;
               endISO := toMillis e0 |}, false)
  | _, _ => (c, true)
  end.

(** The arithmetic of the first component of the file, [App]:
    [elapsed = Math.max(0, Math.min(total, now - start))],
    [remaining = total - elapsed], [progress = elapsed / total]. *)
Definition App_progress (start0 end0 now : DateTime) : Progress :=
  let total := toMillis end0 - toMillis start0 in
  let elapsed := Z.max 0 (Z.min total (toMillis now - toMillis start0)) in
  let remaining := total - elapsed in
  {| totalMs := total; elapsedMs := elapsed; remainingMs := remaining;
     progress := js_div elapsed total |}.

(** The result of [durationBreakdown] and of [msToParts]. *)
Record Breakdown : Set := mkBreakdown
  { days : Z; hours : Z; minutes : Z; seconds : Z }.

(** [durationBreakdown(ms)]; [Math.floor] of a quotient is [/]. *)
Definition durationBreakdown (ms : Z) : Breakdown :=
  let days := ms / MS_PER_DAY in
  let rem1 := ms - days * MS_PER_DAY in
  let hours := rem1 / MS_PER_HOUR in
  let rem2 := rem1 - hours * MS_PER_HOUR in
  let minutes := rem2 / MS_PER_MIN in
  let seconds := (rem2 - minutes * MS_PER_MIN) / 1000 in
  {| days := days; hours := hours; minutes := minutes; seconds := seconds |}.

(** [msToParts(ms)] of the first component; JavaScript's [%] is [Z.rem]. *)
Definition msToParts (ms : Z) : Breakdown :=
  let totalSec := ms / 1000 in
  let days := totalSec / 86400 in
  let hours := Z.rem totalSec 86400 / 3600 in
  let minutes := Z.rem totalSec 3600 / 60 in
  let seconds := Z.rem totalSec 60 in
  {| days := days; hours := hours; minutes := minutes; seconds := seconds |}.

(** The milliseconds a breakdown stands for. *)
Definition breakdownMs (b : Breakdown) : Z :=
  days b * MS_PER_DAY + hours b * MS_PER_HOUR + minutes b * MS_PER_MIN
  + seconds b * 1000.


(** [onResetDefaults = () => setCycle(DEFAULT_CYCLE)], as the resolver
    reads the result. *)
Definition onResetDefaults (c : Cycle) : Cycle := defaultCycle.

(** What the user can do to the dates of the cycle: save the two date
    inputs, press "Recompute 1-month end", reset to the defaults. *)
Inductive DateAction : Set :=
| EditDates (s e : option DateTime)
| RecomputeEnd
| ResetDefaults.

Definition applyDateAction (c : Cycle) (a : DateAction) : Cycle :=
  match a with
  | EditDates s e => fst (onEditDates s e c)
  | RecomputeEnd => recomputeEnd c
  | ResetDefaults => onResetDefaults c
  end.


(* ================================================================== *)
(** ** Saving the settings *)

(** [localStorage.setItem(key, value)]: it throws when the storage is
    unavailable, and when the storage refuses the table the write would
    give (the quota, [accepts]). *)
Definition setItem (accepts : gmap string string -> bool) (st : Storage)
  (key0 value : string) : Completion Storage :=
  match st with
  | None => Throw
  | Some table =>
      if accepts (<[key0 := value]> table)
      then Normal (Some (<[key0 := value]> table))
      else Throw
  end.

Section SavedSettings.

Variable accepts : gmap string string -> bool.

(** [JSON.stringify] is the platform's. *)
Variable stringify : JSON -> string.

(** [saveState(key, val)]:
    [try { localStorage.setItem(key, JSON.stringify(val)); } catch {}] *)
Definition saveState (st : Storage) (key0 : string) (val : gmap string JSON)
  : Storage :=
  match setItem accepts st key0 (stringify (JObject val)) with
  | Normal st' => st'
  | Throw => st
  end.

End SavedSettings.

(* ================================================================== *)
(** ** The handlers of the settings *)

(** The properties [{ ...v }] copies when [v] may be [undefined]. *)
Definition spreadOf (v : option JSON) : gmap string JSON :=
  match v with
  | Some x => spreadProps x
  | None => ∅
  end.

(** [updateReminder = (k, v) =>
      setCycle((c) => ({ ...c, reminders: { ...c.reminders, [k]: v } }))] *)
Definition updateReminder (k : string) (v : JSON) (c : gmap string JSON)
  : gmap string JSON :=
  <["reminders" := JObject (<[k := v]> (spreadOf (c !! "reminders")))]> c.

(** [toggleTheme = (t) => setCycle((c) => ({ ...c, theme: t }))] *)
Definition toggleTheme (t : JSON) (c : gmap string JSON) : gmap string JSON :=
  <["theme" := t]> c.

(** [toggleHourFmt = (f) => setCycle((c) => ({ ...c, hourFormat: f }))] *)
Definition toggleHourFmt (f : JSON) (c : gmap string JSON) : gmap string JSON :=
  <["hourFormat" := f]> c.

(* ================================================================== *)
(** ** Toasts *)

(** A toast of [useReminders]: [{ id, title, body }]. *)
Record Toast : Set := mkToast
  { toastId : string; toastTitle : string; toastBody : string }.

(** [setToasts((list) => [{ id, title, body }, ...list].slice(0, 4))], in
    [notify] and twice in [snooze]. *)
Definition pushToast (t : Toast) (l : list Toast) : list Toast :=
  firstn 4 (t :: l).

(** [dismissToast = (id) => setToasts((list) => list.filter((t) => t.id !== id))];
    the timeouts that take a toast away after 7 or 3 seconds run the same
    update. *)
Definition dismissToast (id : string) (l : list Toast) : list Toast :=
  List.filter (fun t => negb (String.eqb (toastId t) id)) l.

(** An update of the toasts. *)
Inductive ToastUpdate : Set :=
| Push (t : Toast)
| Dismiss (id : string).

Definition applyToastUpdate (l : list Toast) (u : ToastUpdate) : list Toast :=
  match u with
  | Push t => pushToast t l
  | Dismiss id => dismissToast id l
  end.

(* ================================================================== *)
(** ** The rotating tip *)

Definition TIPS : list string :=
  [ "Try Deep Research for a complex topic you’ve been postponing.";
    "Audit your best prompts; turn them into reusable templates.";
    "Use voice + screen share to troubleshoot a workflow quickly.";
    "Batch tasks: draft 5 emails, then refine in one go.";
    "Set up automations for weekly summaries and reminders.";
    "Keep a ‘Wins’ doc—log outputs you shipped thanks to Plus." ].

(** The interval callback of [useRotatingTip]:
    [setI((p) => (p + 1) % TIPS.length)]. *)
Definition useRotatingTip_tick (p : nat) : nat :=
  Nat.modulo (p + 1) (length TIPS).

(** [useRotatingTip] after [n] runs of the callback: [i] starts at 0, the
    hook returns [TIPS[i]] ([None] is [undefined]). *)
Definition useRotatingTip (n : nat) : option string :=
  nth_error TIPS (Nat.iter n useRotatingTip_tick 0%nat).

(** The clock of [useNowTick] after the interval ran once for each reading
    of the wall clock in [walls]. *)
Definition useNowTick_run (qaMode : bool) (init : DateTime) (walls : list Z)
  : DateTime :=
  fold_left (useNowTick_tick qaMode) walls init.

(* ================================================================== *)
(** ** The calendar strip *)

(** [dt.startOf("day")]: Luxon's [set] with hour, minute, second and
    millisecond 0; the fields are turned back into an instant as in
    [adjustTime]. *)
Definition startOf_day (z : Zone) (dt : DateTime) : DateTime :=
  let o := offsetOf z dt in
  let c := tsToObj (ts dt) o in
  let mixed := {| year := year c;
                  month := month c;
                  day := Z.min (daysInMonth (year c) (month c)) (day c);
                  timeOfDay := 0 |} in
  let '(t, _) := fixOffset z (objToLocalTS mixed) o in
  {| ts := t |}.

(** [dt.plus({ days })] *)
Definition plus_days (z : Zone) (dt : DateTime) (days : Z) : DateTime :=
  adjustTime z dt 0 days 0.

(** [DateTime.max(a, b)] and [DateTime.min(a, b)]: the first of the two
    when they are the same instant. *)
Definition DateTime_max (a b : DateTime) : DateTime :=
  if toMillis a <? toMillis b then b else a.

Definition DateTime_min (a b : DateTime) : DateTime :=
  if toMillis b <? toMillis a then b else a.

(** [clamp] on numbers that need not be whole. *)
Definition clampQ (n min max : Q) : Q := Qmax min (Qmin max n).

(** An entry of [days]: [{ date, fill }]. *)
Record StripDay : Set := mkStripDay { date : DateTime; fill : Q }.

(** The body of the loop of [CalendarStrip] up to [days.push]: the entry
    for the day that starts at [cursor]. *)
Definition stripDay (z : Zone) (start0 now end0 cursor : DateTime) : StripDay :=
  let dayStart := DateTime_max cursor start0 in
  let dayEnd := DateTime_min (plus_days z cursor 1) end0 in
  let denom := Z.max 1 (toMillis dayEnd - toMillis dayStart) in
  let upto := DateTime_min dayEnd now in
  let fill0 := clampQ (inject_Z (toMillis upto - toMillis dayStart)
                       / inject_Z denom) 0 1 in
  {| date := cursor; fill := fill0 |}.

(** The loop [while (cursor <= endDay) { ...; days.push({ date: cursor, fill });
    cursor = cursor.plus({ days: 1 }); }]; [None] when [fuel] iterations
    did not end it. *)
Fixpoint CalendarStrip_loop (fuel : nat) (z : Zone)
  (start0 now end0 endDay cursor : DateTime) (days : list StripDay)
  : option (list StripDay) :=
  if toMillis cursor <=? toMillis endDay
  then match fuel with
       | O => None
       | S fuel' =>
           CalendarStrip_loop fuel' z start0 now end0 endDay
             (plus_days z cursor 1)
             (days ++ [stripDay z start0 now end0 cursor])
       end
  else Some days.

(** The list [days] of [CalendarStrip({ start, now, end })]. *)
Definition CalendarStrip (fuel : nat) (z : Zone) (start0 now end0 : DateTime)
  : option (list StripDay) :=
  let cursor := startOf_day z start0 in
  let endDay := startOf_day z end0 in
  CalendarStrip_loop fuel z start0 now end0 endDay cursor [].

(** The number of the local calendar day of an instant, in a zone of
    offset [off]. *)
Definition localDay (off : Z) (dt : DateTime) : Z :=
  (toMillis dt + off * 60 * 1000) / MS_PER_DAY.

(* ================================================================== *)
(** * Properties *)

(** ** Calendar arithmetic *)

Ltac split_ifs :=
  repeat match goal with
  | |- context [if ?a <? ?b then _ else _] => destruct (Z.ltb_spec a b); try lia
  | |- context [if ?a <=? ?b then _ else _] => destruct (Z.leb_spec a b); try lia
  | |- context [if ?a =? ?b then _ else _] => destruct (Z.eqb_spec a b); try lia
  end.

Lemma isLeapYear_mod (y : Z) :
  isLeapYear y = (y mod 4 =? 0) && (negb (y mod 100 =? 0) || (y mod 400 =? 0)).
Proof.
  unfold isLeapYear.
  assert (H : forall k, 0 < k -> (Z.rem y k =? 0) = (y mod k =? 0)).
  { intros k Hk. destruct (Z.eqb_spec (Z.rem y k) 0) as [E|E];
      destruct (Z.eqb_spec (y mod k) 0) as [F|F]; try reflexivity; exfalso.
    - apply F. apply Z.rem_divide in E; [|lia]. apply Z.mod_divide; [lia|exact E].
    - apply E. apply Z.mod_divide in F; [|lia]. apply Z.rem_divide; [lia|exact F]. }
  rewrite !H by lia. reflexivity.
Qed.

Lemma dayFromYear_succ (y : Z) : dayFromYear (y + 1) = dayFromYear y + daysInYear y.
Proof.
  unfold daysInYear, dayFromYear. rewrite isLeapYear_mod.
  destruct (Z.eqb_spec (y mod 4) 0), (Z.eqb_spec (y mod 100) 0),
    (Z.eqb_spec (y mod 400) 0);
    cbn [andb orb negb]; Z.div_mod_to_equations; lia.
Qed.

(** [yearFromDay] picks the year whose days contain [d]. *)
Lemma yearFromDay_spec (d : Z) :
  dayFromYear (yearFromDay d) <= d < dayFromYear (yearFromDay d + 1).
Proof.
  unfold yearFromDay.
  set (y0 := 1970 + 400 * d / 146097).
  assert (Hlo : dayFromYear (y0 - 1) <= d).
  { unfold dayFromYear, y0. Z.div_mod_to_equations. lia. }
  assert (Hhi : d < dayFromYear (y0 + 2)).
  { unfold dayFromYear, y0. Z.div_mod_to_equations. lia. }
  destruct (Z.ltb_spec d (dayFromYear y0)).
  - replace (y0 - 1 + 1) with y0 by lia. lia.
  - destruct (Z.leb_spec (dayFromYear (y0 + 1)) d).
    + replace (y0 + 1 + 1) with (y0 + 2) by lia. lia.
    + lia.
Qed.

Lemma month_split (leap : bool) (d : Z) :
  0 <= d < (if leap then 366 else 365) ->
  0 <= monthFromDayInYear leap d <= 11 /\
  daysBeforeMonth leap (monthFromDayInYear leap d) <= d
    < endOfMonth leap (monthFromDayInYear leap d).
Proof.
  intros Hd. unfold monthFromDayInYear, endOfMonth, daysBeforeMonth.
  destruct leap; cbv zeta; split_ifs.
Qed.

Lemma month_cases (m0 : Z) :
  0 <= m0 <= 11 ->
  m0 = 0 \/ m0 = 1 \/ m0 = 2 \/ m0 = 3 \/ m0 = 4 \/ m0 = 5 \/ m0 = 6
  \/ m0 = 7 \/ m0 = 8 \/ m0 = 9 \/ m0 = 10 \/ m0 = 11.
Proof. lia. Qed.

Lemma endOfMonth_length (leap : bool) (m0 : Z) :
  0 <= m0 <= 11 -> 28 <= endOfMonth leap m0 - daysBeforeMonth leap m0.
Proof.
  intros H. apply month_cases in H.
  repeat (destruct H as [->|H]); [..|subst];
    destruct leap; vm_compute; discriminate.
Qed.

Lemma makeDay_in_year (y m0 d : Z) :
  0 <= m0 <= 11 ->
  makeDay y m0 d = dayFromYear y + daysBeforeMonth (isLeapYear y) m0 + d - 1.
Proof.
  intros H. unfold makeDay.
  rewrite Z.div_small, Z.mod_small by lia. rewrite Z.add_0_r. reflexivity.
Qed.

Lemma makeDay_next_month (y m0 d : Z) :
  0 <= m0 <= 11 ->
  makeDay y (m0 + 1) d = dayFromYear y + endOfMonth (isLeapYear y) m0 + d - 1.
Proof.
  intros H. unfold endOfMonth.
  destruct (Z.eqb_spec m0 11) as [->|Hne].
  - unfold makeDay. change ((11 + 1) / 12) with 1. change ((11 + 1) mod 12) with 0.
    rewrite dayFromYear_succ. unfold daysInYear.
    destruct (isLeapYear y), (isLeapYear (y + 1)); cbn; lia.
  - apply makeDay_in_year. lia.
Qed.

(** Shifting the day field shifts the local timestamp by whole days. *)
Lemma objToLocalTS_day (y m d tod k : Z) :
  objToLocalTS {| year := y; month := m; day := d + k; timeOfDay := tod |}
  = objToLocalTS {| year := y; month := m; day := d; timeOfDay := tod |}
    + k * MS_PER_DAY.
Proof. unfold objToLocalTS, makeDay. cbn [year month day timeOfDay]. lia. Qed.

Lemma daysInMonth_bounds (y m : Z) : 28 <= daysInMonth y m <= 31.
Proof.
  unfold daysInMonth.
  repeat match goal with
  | |- context [if ?b then _ else _] => destruct b
  end; lia.
Qed.

Lemma dayInYear_range (dayNo : Z) :
  0 <= dayNo - dayFromYear (yearFromDay dayNo)
    < (if isLeapYear (yearFromDay dayNo) then 366 else 365).
Proof.
  pose proof (yearFromDay_spec dayNo) as H.
  rewrite dayFromYear_succ in H. unfold daysInYear in H.
  destruct (isLeapYear (yearFromDay dayNo)); lia.
Qed.

(** The day field read from a local timestamp is a day of its month. *)
Lemma localTSToObj_day (l : Z) :
  1 <= day (localTSToObj l)
    <= daysInMonth (year (localTSToObj l)) (month (localTSToObj l)).
Proof.
  unfold localTSToObj. cbn [year month day timeOfDay].
  set (dayNo := l / MS_PER_DAY). set (y := yearFromDay dayNo).
  set (inYear := dayNo - dayFromYear y).
  destruct (month_split (isLeapYear y) inYear (dayInYear_range dayNo)) as [Hm Hd].
  set (m0 := monthFromDayInYear (isLeapYear y) inYear) in *.
  assert (E : daysInMonth y (m0 + 1)
              = endOfMonth (isLeapYear y) m0 - daysBeforeMonth (isLeapYear y) m0).
  { clear Hd. apply month_cases in Hm.
    unfold daysInMonth.
    repeat (destruct Hm as [->|Hm]); [..|subst m0; rewrite Hm];
      destruct (isLeapYear y) eqn:El;
      cbn -[isLeapYear];
      rewrite ?Z.add_0_r, ?El; reflexivity. }
  lia.
Qed.

(** Reading the fields of a local timestamp and writing them back gives
    the timestamp. *)
Lemma objToLocalTS_localTSToObj (l : Z) : objToLocalTS (localTSToObj l) = l.
Proof.
  unfold objToLocalTS, localTSToObj. cbn [year month day timeOfDay].
  set (dayNo := l / MS_PER_DAY). set (y := yearFromDay dayNo).
  destruct (month_split (isLeapYear y) (dayNo - dayFromYear y)
              (dayInYear_range dayNo)) as [Hm _].
  replace (monthFromDayInYear (isLeapYear y) (dayNo - dayFromYear y) + 1 - 1)
    with (monthFromDayInYear (isLeapYear y) (dayNo - dayFromYear y)) by lia.
  rewrite makeDay_in_year by exact Hm.
  pose proof (Z.div_mod l MS_PER_DAY ltac:(discriminate)) as E.
  fold dayNo in E. lia.
Qed.

(** One calendar month later, clamped to the length of the target month,
    is at least 28 days later on the local time line. *)
Lemma next_month_localTS (l : Z) :
  l + 28 * MS_PER_DAY <=
  objToLocalTS
    {| year := year (localTSToObj l);
       month := month (localTSToObj l) + 1;
       day := Z.min (day (localTSToObj l))
                (daysInMonth (year (localTSToObj l)) (month (localTSToObj l) + 1))
              + 0;
       timeOfDay := timeOfDay (localTSToObj l) |}.
Proof.
  unfold objToLocalTS, localTSToObj. cbn [year month day timeOfDay].
  set (dayNo := l / MS_PER_DAY). set (y := yearFromDay dayNo).
  set (inYear := dayNo - dayFromYear y).
  destruct (month_split (isLeapYear y) inYear (dayInYear_range dayNo)) as [Hm Hd].
  set (m0 := monthFromDayInYear (isLeapYear y) inYear) in *.
  replace (m0 + 1 + 1 - 1) with (m0 + 1) by lia.
  rewrite makeDay_next_month by exact Hm.
  pose proof (endOfMonth_length (isLeapYear y) m0 Hm) as Hlen.
  pose proof (daysInMonth_bounds y (m0 + 1 + 1)) as Hdim.
  pose proof (Z.div_mod l MS_PER_DAY ltac:(discriminate)) as E.
  fold dayNo in E. unfold inYear in *.
  unfold MS_PER_DAY, MS_PER_HOUR, MS_PER_MIN in *.
  lia.
Qed.

(** ** Luxon arithmetic *)

Section ZoneFacts.
Variable z : Zone.

(** [fixOffset] returns the local timestamp read at one of the offsets it
    looked at. *)
Lemma fixOffset_bounds (l off : Z) :
  zone_bounded z ->
  - MAX_OFFSET <= off <= MAX_OFFSET ->
  l - MAX_OFFSET * 60 * 1000 <= fst (fixOffset z l off)
    <= l + MAX_OFFSET * 60 * 1000
  /\ - MAX_OFFSET <= snd (fixOffset z l off) <= MAX_OFFSET.
Proof.
  intros Hz Hoff. unfold fixOffset.
  set (g := l - off * 60 * 1000).
  pose proof (Hz g) as H2.
  pose proof (Hz (g - (offset z g - off) * 60 * 1000)) as H3.
  destruct (Z.eqb_spec off (offset z g)); cbn [fst snd].
  - subst g. lia.
  - destruct (Z.eqb_spec (offset z g)
                (offset z (g - (offset z g - off) * 60 * 1000)));
      cbn [fst snd]; subst g; lia.
Qed.

(** With the offset unchanged at the guessed instant, the guess stands. *)
Lemma fixOffset_same (l off : Z) :
  offset z (l - off * 60 * 1000) = off ->
  fixOffset z l off = (l - off * 60 * 1000, off).
Proof.
  intros H. unfold fixOffset. rewrite H, Z.eqb_refl. reflexivity.
Qed.

(** Clock time moves the instant and nothing else. *)
Lemma adjustTime_clock (dt : DateTime) (millis : Z) :
  ts (adjustTime z dt 0 0 millis) = ts dt + millis.
Proof.
  unfold adjustTime, tsToObj, offsetOf.
  set (l := ts dt + offset z (ts dt) * 60 * 1000).
  pose proof (localTSToObj_day l) as Hday.
  rewrite Z.add_0_r in *.
  rewrite Z.min_l by lia.
  replace {| year := year (localTSToObj l); month := month (localTSToObj l);
             day := day (localTSToObj l) + 0;
             timeOfDay := timeOfDay (localTSToObj l) |}
    with (localTSToObj l)
    by (rewrite Z.add_0_r; destruct (localTSToObj l); reflexivity).
  rewrite objToLocalTS_localTSToObj.
  rewrite fixOffset_same
    by (subst l; f_equal; lia).
  subst l. destruct (millis =? 0) eqn:E; cbn [Luxon.ts].
  - apply Z.eqb_eq in E. lia.
  - lia.
Qed.

(** Calendar days move the local timestamp; the instant follows through
    [fixOffset]. *)
Lemma minus_days_fixOffset (dt : DateTime) (days : Z) :
  minus_days z dt days
  = {| ts := fst (fixOffset z
                    (ts dt + offsetOf z dt * 60 * 1000 - days * MS_PER_DAY)
                    (offsetOf z dt)) |}.
Proof.
  unfold minus_days, adjustTime, tsToObj.
  set (l := ts dt + offsetOf z dt * 60 * 1000).
  pose proof (localTSToObj_day l) as Hday.
  rewrite Z.add_0_r in *.
  rewrite Z.min_l by lia.
  rewrite objToLocalTS_day.
  replace {| year := year (localTSToObj l); month := month (localTSToObj l);
             day := day (localTSToObj l);
             timeOfDay := timeOfDay (localTSToObj l) |}
    with (localTSToObj l) by (destruct (localTSToObj l); reflexivity).
  rewrite objToLocalTS_localTSToObj.
  replace (l + - days * MS_PER_DAY) with (l - days * MS_PER_DAY) by lia.
  destruct (fixOffset z (l - days * MS_PER_DAY) (offsetOf z dt)). reflexivity.
Qed.

Hypothesis z_bounded : zone_bounded z.

(** A calendar month later is at least [MIN_STEP] later. *)
Lemma plus_months_advances (dt : DateTime) :
  ts dt + MIN_STEP <= ts (plus_months z dt 1).
Proof.
  unfold plus_months, adjustTime, tsToObj, offsetOf.
  pose proof (z_bounded (ts dt)) as Ho.
  set (l := ts dt + offset z (ts dt) * 60 * 1000).
  pose proof (next_month_localTS l) as Hnext.
  set (l' := objToLocalTS _) in *.
  pose proof (fixOffset_bounds l' (offset z (ts dt)) z_bounded Ho) as [Ht _].
  destruct (fixOffset z l' (offset z (ts dt))) as [t off]. cbn [fst] in *.
  change (0 =? 0) with true. cbn [Luxon.ts].
  subst l. unfold MIN_STEP, MAX_OFFSET, MS_PER_DAY, MS_PER_HOUR, MS_PER_MIN in *.
  lia.
Qed.

(** ** The loop of the resolver *)

Lemma roll_fuel_step (now e e' : Z) (fuel : nat) :
  e <= now -> e + MIN_STEP <= e' ->
  (roll_fuel now e <= S fuel)%nat -> (roll_fuel now e' <= fuel)%nat.
Proof.
  unfold roll_fuel. intros He Hstep Hf.
  assert (Hpos : 0 < MIN_STEP) by reflexivity.
  assert (0 <= (now - e) / MIN_STEP) by (apply Z.div_pos; lia).
  assert ((now - e') / MIN_STEP <= (now - e - MIN_STEP) / MIN_STEP)
    by (apply Z.div_le_mono; lia).
  assert ((now - e - MIN_STEP) / MIN_STEP = (now - e) / MIN_STEP - 1).
  { replace (now - e - MIN_STEP) with (now - e + (-1) * MIN_STEP) by lia.
    rewrite Z.div_add by lia. lia. }
  lia.
Qed.

(** With enough fuel the loop stops. *)
Lemma roll_loop_returns (now : Z) (fuel : nat) :
  forall (s e : DateTime) (r : bool),
    (roll_fuel now (ts e) <= fuel)%nat ->
    exists w, roll_loop fuel z now s e r = Some w.
Proof.
  induction fuel as [|fuel IH]; intros s e r Hf; cbn [roll_loop];
    unfold toMillis; destruct (Z.ltb_spec now (ts e)) as [Hlt|Hge]; eauto.
  - exfalso. unfold roll_fuel in Hf.
    assert (0 <= (now - ts e) / MIN_STEP) by (apply Z.div_pos; [lia|reflexivity]).
    lia.
  - pose proof (plus_months_advances e) as Hadv.
    apply IH. unfold monthAddCalendar. eapply roll_fuel_step; eauto.
Qed.

(** What the loop returns: a window that holds [now]; the window it was
    entered with when that one holds [now], a later one otherwise. *)
Lemma roll_loop_spec (now : Z) (fuel : nat) :
  forall (s e : DateTime) (r : bool) (w : Window),
    ts s <= now ->
    roll_loop fuel z now s e r = Some w ->
    ts (start w) <= now < ts (end_ w)
    /\ (now < ts e -> w = {| start := s; end_ := e; rolled := r |})
    /\ (ts e <= now -> ts e <= ts (start w) /\ rolled w = true).
Proof.
  induction fuel as [|fuel IH]; intros s e r w Hs; cbn [roll_loop];
    unfold toMillis; destruct (Z.ltb_spec now (ts e)) as [Hlt|Hge];
    intros Hw; try discriminate.
  - injection Hw as <-. cbn. repeat split; auto; lia.
  - injection Hw as <-. cbn. repeat split; auto; lia.
  - pose proof (plus_months_advances e) as Hadv.
    assert (0 < MIN_STEP) by reflexivity.
    unfold monthAddCalendar in Hw.
    destruct (IH e (plus_months z e 1) true w Hge Hw)
      as (Hin & Hsame & Hroll).
    split; [exact Hin|]. split; [lia|]. intros _.
    destruct (Z.lt_ge_cases now (ts (plus_months z e 1))) as [C|C].
    + rewrite (Hsame C). cbn. split; [lia|reflexivity].
    + destruct (Hroll C). split; [lia|assumption].
Qed.

Lemma roll_loop_start_ge (now : Z) (fuel : nat) (s e : DateTime) (r : bool)
  (w : Window) :
  ts s <= now -> ts s <= ts e ->
  roll_loop fuel z now s e r = Some w ->
  ts s <= ts (start w).
Proof.
  intros Hs Hse Hw.
  destruct (roll_loop_spec now fuel s e r w Hs Hw) as (_ & Hsame & Hroll).
  destruct (Z.lt_ge_cases now (ts e)) as [C|C].
  - rewrite (Hsame C). cbn. lia.
  - destruct (Hroll C). lia.
Qed.

(** The start of the returned window grows with [now]. *)
Lemma roll_loop_monotone (now1 now2 : Z) (fuel1 : nat) :
  forall (fuel2 : nat) (s e : DateTime) (r : bool) (w1 w2 : Window),
    ts s <= now1 -> now1 <= now2 -> ts s <= ts e ->
    roll_loop fuel1 z now1 s e r = Some w1 ->
    roll_loop fuel2 z now2 s e r = Some w2 ->
    ts (start w1) <= ts (start w2).
Proof.
  induction fuel1 as [|fuel1 IH]; intros fuel2 s e r w1 w2 Hs Hle Hse H1 H2.
  - cbn [roll_loop] in H1. unfold toMillis in H1.
    destruct (Z.ltb_spec now1 (ts e)); [|discriminate].
    injection H1 as <-. cbn [start].
    apply (roll_loop_start_ge now2 fuel2 s e r w2 ltac:(lia) Hse H2).
  - cbn [roll_loop] in H1. unfold toMillis in H1.
    destruct (Z.ltb_spec now1 (ts e)) as [Hlt|Hge].
    + injection H1 as <-. cbn [start].
      apply (roll_loop_start_ge now2 fuel2 s e r w2 ltac:(lia) Hse H2).
    + destruct fuel2 as [|fuel2]; cbn [roll_loop] in H2; unfold toMillis in H2;
        destruct (Z.ltb_spec now2 (ts e)); try lia; try discriminate.
      pose proof (plus_months_advances e) as Hadv.
      assert (0 < MIN_STEP) by reflexivity.
      unfold monthAddCalendar in *.
      eapply (IH fuel2 e (plus_months z e 1) true w1 w2); eauto; lia.
Qed.

(** An instant inside a resolved window resolves to that window. *)
Lemma roll_loop_same_window (now1 now2 : Z) (fuel : nat) :
  forall (s e : DateTime) (r : bool) (w : Window),
    ts s <= now1 -> ts s <= ts e ->
    roll_loop fuel z now1 s e r = Some w ->
    ts (start w) <= now2 < ts (end_ w) ->
    roll_loop fuel z now2 s e r = Some w.
Proof.
  induction fuel as [|fuel IH]; intros s e r w Hs Hse H1 Hin;
    pose proof (roll_loop_spec now1 _ s e r w Hs H1) as (_ & _ & Hroll);
    cbn [roll_loop] in *; unfold toMillis in *;
    destruct (Z.ltb_spec now1 (ts e)) as [Hlt|Hge]; try discriminate.
  - injection H1 as <-. cbn in Hin.
    destruct (Z.ltb_spec now2 (ts e)); [reflexivity|lia].
  - injection H1 as <-. cbn in Hin.
    destruct (Z.ltb_spec now2 (ts e)); [reflexivity|lia].
  - destruct (Z.ltb_spec now2 (ts e)) as [Hlt2|Hge2]; [lia|].
    pose proof (plus_months_advances e) as Hadv.
    assert (0 < MIN_STEP) by reflexivity.
    unfold monthAddCalendar in *.
    apply (IH e (plus_months z e 1) true w Hge ltac:(lia) H1 Hin).
Qed.

End ZoneFacts.

(** ** The window resolver *)

Lemma rollCycleToNow_returns (cycle : Cycle) (now : DateTime) (fuel : nat) :
  zone_bounded (timezone cycle) ->
  (roll_fuel (toMillis now) (endISO cycle) <= fuel)%nat ->
  exists w, rollCycleToNow fuel cycle now = Some w.
Proof.
  intros Hz Hf. unfold rollCycleToNow.
  destruct (toMillis now <? toMillis (inZone (startISO cycle) (timezone cycle)));
    [eauto|].
  apply roll_loop_returns; [exact Hz|exact Hf].
Qed.

(** C1. With [anchorEnd > anchorStart], the resolver returns a window, and:
    when [now >= anchorStart], the window holds [now]
    ([start <= now < end]); when [now < anchorStart], it is the anchor
    window itself and [rolled] is false. *)
Theorem rollCycleToNow_window (cycle : Cycle) (now : DateTime) (fuel : nat) :
  zone_bounded (timezone cycle) ->
  startISO cycle < endISO cycle ->
  (roll_fuel (toMillis now) (endISO cycle) <= fuel)%nat ->
  exists w,
    rollCycleToNow fuel cycle now = Some w
    /\ (startISO cycle <= toMillis now ->
        toMillis (start w) <= toMillis now < toMillis (end_ w))
    /\ (toMillis now < startISO cycle ->
        start w = inZone (startISO cycle) (timezone cycle)
        /\ end_ w = inZone (endISO cycle) (timezone cycle)
        /\ rolled w = false).
Proof.
  intros Hz Hanchor Hf.
  destruct (rollCycleToNow_returns cycle now fuel Hz Hf) as [w Hw].
  exists w. split; [exact Hw|].
  unfold rollCycleToNow in Hw. cbn [inZone atInstant toMillis ts] in Hw.
  unfold toMillis, inZone in *. cbn [atInstant ts] in *.
  destruct (Z.ltb_spec (ts now) (startISO cycle)) as [Hpre|Hin].
  - injection Hw as <-. cbn. split; [lia|auto].
  - split; [|lia]. intros _.
    exact (proj1 (roll_loop_spec (timezone cycle) Hz (ts now) fuel
                    (atInstant (timezone cycle) (startISO cycle))
                    (atInstant (timezone cycle) (endISO cycle)) false w
                    Hin Hw)).
Qed.

Lemma DEFAULT_ZONE_bounded : zone_bounded DEFAULT_ZONE.
Proof. intros t. vm_compute. split; discriminate. Qed.

(** Scenario B of the specification: five days past its end the default
    cycle has rolled once, to 2025-09-20T07:18 .. 2025-10-20T07:18 (+05:45). *)
Example rollCycleToNow_scenario_B :
  rollCycleToNow 1 defaultCycle (atInstant DEFAULT_ZONE 1758737700000)
  = Some {| start := {| ts := 1758331980000 |};
            end_ := {| ts := 1760923980000 |};
            rolled := true |}.
Proof. reflexivity. Qed.

(** Scenario E of the specification: one month after 2025-01-31T07:18 is
    2025-02-28T07:18; in a leap year it is the 29th; December rolls into
    January of the next year. *)
Example plus_months_scenario_E :
  tsToObj (ts (plus_months DEFAULT_ZONE (atInstant DEFAULT_ZONE 1738287180000) 1)) 345
  = {| year := 2025; month := 2; day := 28; timeOfDay := 26280000 |}
  /\ tsToObj (ts (plus_months DEFAULT_ZONE (atInstant DEFAULT_ZONE 1706664780000) 1)) 345
     = {| year := 2024; month := 2; day := 29; timeOfDay := 26280000 |}
  /\ tsToObj (ts (plus_months DEFAULT_ZONE (atInstant DEFAULT_ZONE 1767144780000) 1)) 345
     = {| year := 2026; month := 1; day := 31; timeOfDay := 26280000 |}.
Proof. repeat split; reflexivity. Qed.

(** Scenario B of the specification: five days past the end of the default
    cycle. *)
Lemma rollCycleToNow_window_witness :
  exists w,
    rollCycleToNow 1 defaultCycle (atInstant DEFAULT_ZONE 1758737700000) = Some w
    /\ (startISO defaultCycle <= 1758737700000 ->
        toMillis (start w) <= 1758737700000 < toMillis (end_ w))
    /\ (1758737700000 < startISO defaultCycle ->
        start w = inZone (startISO defaultCycle) (timezone defaultCycle)
        /\ end_ w = inZone (endISO defaultCycle) (timezone defaultCycle)
        /\ rolled w = false).
Proof.
  apply (rollCycleToNow_window defaultCycle (atInstant DEFAULT_ZONE 1758737700000) 1).
  - exact DEFAULT_ZONE_bounded.
  - vm_compute. reflexivity.
  - vm_compute. lia.
Defined.

(** C7. For one cycle definition, resolving at a later instant never gives
    an earlier [start]. *)
Theorem rollCycleToNow_monotone (cycle : Cycle) (now1 now2 : DateTime)
  (fuel1 fuel2 : nat) :
  zone_bounded (timezone cycle) ->
  startISO cycle < endISO cycle ->
  toMillis now1 < toMillis now2 ->
  (roll_fuel (toMillis now1) (endISO cycle) <= fuel1)%nat ->
  (roll_fuel (toMillis now2) (endISO cycle) <= fuel2)%nat ->
  exists w1 w2,
    rollCycleToNow fuel1 cycle now1 = Some w1
    /\ rollCycleToNow fuel2 cycle now2 = Some w2
    /\ toMillis (start w1) <= toMillis (start w2).
Proof.
  intros Hz Hanchor Hlt Hf1 Hf2.
  destruct (rollCycleToNow_returns cycle now1 fuel1 Hz Hf1) as [w1 Hw1].
  destruct (rollCycleToNow_returns cycle now2 fuel2 Hz Hf2) as [w2 Hw2].
  exists w1, w2. split; [exact Hw1|]. split; [exact Hw2|].
  unfold rollCycleToNow, toMillis, inZone in *. cbn [atInstant ts] in *.
  destruct (Z.ltb_spec (ts now1) (startISO cycle)) as [Hpre1|Hin1];
    destruct (Z.ltb_spec (ts now2) (startISO cycle)) as [Hpre2|Hin2];
    try lia.
  - injection Hw1 as <-. injection Hw2 as <-. cbn. lia.
  - injection Hw1 as <-. cbn [start ts atInstant].
    exact (roll_loop_start_ge (timezone cycle) Hz (ts now2) fuel2
             (atInstant (timezone cycle) (startISO cycle))
             (atInstant (timezone cycle) (endISO cycle)) false w2
             Hin2 ltac:(cbn; lia) Hw2).
  - exact (roll_loop_monotone (timezone cycle) Hz (ts now1) (ts now2) fuel1 fuel2
             (atInstant (timezone cycle) (startISO cycle))
             (atInstant (timezone cycle) (endISO cycle)) false w1 w2
             Hin1 ltac:(lia) ltac:(cbn; lia) Hw1 Hw2).
Qed.

(** Scenarios A and B of the specification, one day into the default cycle
    and five days past its end. *)
Lemma rollCycleToNow_monotone_witness :
  exists w1 w2,
    rollCycleToNow 0 defaultCycle (atInstant DEFAULT_ZONE 1755749700000) = Some w1
    /\ rollCycleToNow 1 defaultCycle (atInstant DEFAULT_ZONE 1758737700000) = Some w2
    /\ toMillis (start w1) <= toMillis (start w2).
Proof.
  apply (rollCycleToNow_monotone defaultCycle
           (atInstant DEFAULT_ZONE 1755749700000)
           (atInstant DEFAULT_ZONE 1758737700000) 0 1).
  - exact DEFAULT_ZONE_bounded.
  - vm_compute. reflexivity.
  - vm_compute. reflexivity.
  - vm_compute. lia.
  - vm_compute. lia.
Defined.

(** A window of length zero does reach the progress arithmetic: nothing
    between the stored record and the resolver compares the two dates, and
    before the anchor the resolver hands the anchor window on as it is. *)
Lemma rollCycleToNow_zero_length (z : Zone) (t : Z) (now : DateTime) (fuel : nat) :
  toMillis now < t ->
  exists w,
    rollCycleToNow fuel {| timezone := z; startISO := t; endISO := t |} now = Some w
    /\ toMillis (end_ w) - toMillis (start w) = 0.
Proof.
  intros H. unfold rollCycleToNow. cbn.
  destruct (Z.ltb_spec (toMillis now) t); [|lia].
  eexists. split; [reflexivity|]. cbn. lia.
Qed.

(** ** Progress *)

Lemma clamp_range (n lo hi : Z) : lo <= hi -> lo <= clamp n lo hi <= hi.
Proof. unfold clamp. lia. Qed.

(** C6. For a window with [end > start] and any [now], the elapsed fraction
    is a number between 0 and 1: [elapsedMs], clamped to [[0, end - start]],
    over [end - start]. *)
Theorem progress_bounds (start0 end0 now : DateTime) :
  toMillis start0 < toMillis end0 ->
  exists q,
    progress (computeProgress start0 end0 now) = JSFinite q
    /\ (0 <= q <= 1)%Q
    /\ (q == inject_Z (clamp (toMillis now - toMillis start0) 0
                             (toMillis end0 - toMillis start0))
             / inject_Z (toMillis end0 - toMillis start0))%Q.
Proof.
  intros Hlen. unfold computeProgress. cbn [progress]. unfold js_div.
  set (total := toMillis end0 - toMillis start0).
  set (elapsed := clamp (toMillis now - toMillis start0) 0 total).
  assert (Htotal : 0 < total) by (subst total; lia).
  pose proof (clamp_range (toMillis now - toMillis start0) 0 total ltac:(lia))
    as Hel. fold elapsed in Hel.
  destruct (Z.eqb_spec total 0) as [E|_]; [lia|].
  eexists. split; [reflexivity|]. split; [|reflexivity].
  assert (Hq : (0 < inject_Z total)%Q)
    by (change 0%Q with (inject_Z 0); rewrite <- Zlt_Qlt; exact Htotal).
  split.
  - apply Qle_shift_div_l; [exact Hq|].
    rewrite Qmult_0_l. change 0%Q with (inject_Z 0). rewrite <- Zle_Qle. lia.
  - apply Qle_shift_div_r; [exact Hq|].
    rewrite Qmult_1_l. rewrite <- Zle_Qle. lia.
Qed.

(** The default window seen ten years after its end, far outside it. *)
Lemma progress_bounds_witness :
  exists q,
    progress (computeProgress (inZone DEFAULT_START DEFAULT_ZONE)
                (inZone DEFAULT_END DEFAULT_ZONE)
                (atInstant DEFAULT_ZONE 2073600000000)) = JSFinite q
    /\ (0 <= q <= 1)%Q
    /\ (q == inject_Z (clamp (2073600000000 - DEFAULT_START) 0
                             (DEFAULT_END - DEFAULT_START))
             / inject_Z (DEFAULT_END - DEFAULT_START))%Q.
Proof.
  apply (progress_bounds (inZone DEFAULT_START DEFAULT_ZONE)
           (inZone DEFAULT_END DEFAULT_ZONE)
           (atInstant DEFAULT_ZONE 2073600000000)).
  vm_compute. reflexivity.
Defined.

(** C3, as the code has it.  On a window of length zero the component
    raises nothing: [elapsedMs] is clamped to 0, the division [0 / 0] is
    carried out and [progress] is [NaN]. *)
Theorem progress_zero_length_window (start0 end0 now : DateTime) :
  toMillis end0 = toMillis start0 ->
  totalMs (computeProgress start0 end0 now) = 0
  /\ elapsedMs (computeProgress start0 end0 now) = 0
  /\ progress (computeProgress start0 end0 now) = js_div 0 0
  /\ js_div 0 0 = JSNaN
  /\ progress_as_coded start0 end0 now = Fraction JSNaN.
Proof.
  intros E. unfold progress_as_coded, computeProgress.
  cbn [totalMs elapsedMs progress].
  rewrite E, Z.sub_diag. unfold clamp.
  rewrite Z.max_l by lia. repeat split; reflexivity.
Qed.

Lemma progress_zero_length_window_witness :
  totalMs (computeProgress (inZone DEFAULT_END DEFAULT_ZONE)
             (inZone DEFAULT_END DEFAULT_ZONE)
             (atInstant DEFAULT_ZONE DEFAULT_START)) = 0
  /\ elapsedMs (computeProgress (inZone DEFAULT_END DEFAULT_ZONE)
                  (inZone DEFAULT_END DEFAULT_ZONE)
                  (atInstant DEFAULT_ZONE DEFAULT_START)) = 0
  /\ progress (computeProgress (inZone DEFAULT_END DEFAULT_ZONE)
                 (inZone DEFAULT_END DEFAULT_ZONE)
                 (atInstant DEFAULT_ZONE DEFAULT_START)) = js_div 0 0
  /\ js_div 0 0 = JSNaN
  /\ progress_as_coded (inZone DEFAULT_END DEFAULT_ZONE)
       (inZone DEFAULT_END DEFAULT_ZONE)
       (atInstant DEFAULT_ZONE DEFAULT_START) = Fraction JSNaN.
Proof.
  apply (progress_zero_length_window (inZone DEFAULT_END DEFAULT_ZONE)
           (inZone DEFAULT_END DEFAULT_ZONE)
           (atInstant DEFAULT_ZONE DEFAULT_START)).
  reflexivity.
Defined.

(** C3 fails as stated: a stored cycle whose two dates coincide, opened
    before that date, resolves to a window of length zero; the specification
    asks for [InvalidWindow] there, the component divides by zero. *)
Lemma progress_zero_length_counterexample :
  rollCycleToNow 0 {| timezone := DEFAULT_ZONE; startISO := DEFAULT_END;
                      endISO := DEFAULT_END |}
    (atInstant DEFAULT_ZONE DEFAULT_START)
  = Some {| start := inZone DEFAULT_END DEFAULT_ZONE;
            end_ := inZone DEFAULT_END DEFAULT_ZONE; rolled := false |}
  /\ progress_as_specified (inZone DEFAULT_END DEFAULT_ZONE)
       (inZone DEFAULT_END DEFAULT_ZONE)
       (atInstant DEFAULT_ZONE DEFAULT_START) = InvalidWindow
  /\ progress_as_coded (inZone DEFAULT_END DEFAULT_ZONE)
       (inZone DEFAULT_END DEFAULT_ZONE)
       (atInstant DEFAULT_ZONE DEFAULT_START) = Fraction JSNaN
  /\ totalMs (computeProgress (inZone DEFAULT_END DEFAULT_ZONE)
                (inZone DEFAULT_END DEFAULT_ZONE)
                (atInstant DEFAULT_ZONE DEFAULT_START)) = 0.
Proof. repeat split; reflexivity. Qed.

(** ** Milestones *)

(** C4, as the code has it.  [threeDays] is [end.minus({ days: 3 })]: the
    local reading of [end] moved back three calendar days and turned into an
    instant again by [fixOffset].  It is [end] minus 72 hours when the zone
    has, 72 hours before [end], the offset it has at [end]; [lastDay],
    [end.minus({ hours: 24 })], is [end] minus 24 hours in any zone. *)
Theorem milestoneTimes_threeDays (z : Zone) (start0 end0 : DateTime) :
  threeDays (milestoneTimes z start0 end0)
  = {| ts := fst (fixOffset z
                    (ts end0 + offsetOf z end0 * 60 * 1000 - 3 * MS_PER_DAY)
                    (offsetOf z end0)) |}
  /\ (offset z (toMillis end0 - 72 * MS_PER_HOUR) = offsetOf z end0 ->
      toMillis (threeDays (milestoneTimes z start0 end0))
      = toMillis end0 - 72 * MS_PER_HOUR)
  /\ toMillis (lastDay (milestoneTimes z start0 end0))
     = toMillis end0 - 24 * MS_PER_HOUR.
Proof.
  cbn [milestoneTimes threeDays lastDay].
  rewrite minus_days_fixOffset. split; [reflexivity|]. split.
  - intros Hoff. unfold toMillis in *. cbn [ts].
    rewrite fixOffset_same; cbn [fst].
    + unfold MS_PER_DAY, MS_PER_HOUR, MS_PER_MIN. lia.
    + replace (ts end0 + offsetOf z end0 * 60 * 1000 - 3 * MS_PER_DAY
               - offsetOf z end0 * 60 * 1000)
        with (ts end0 - 72 * MS_PER_HOUR)
        by (unfold MS_PER_DAY, MS_PER_HOUR, MS_PER_MIN; lia).
      exact Hoff.
  - unfold minus_hours, toMillis. rewrite adjustTime_clock. lia.
Qed.

(** The default cycle in its zone, whose offset is +05:45 throughout. *)
Lemma milestoneTimes_threeDays_witness :
  offset DEFAULT_ZONE (DEFAULT_END - 72 * MS_PER_HOUR) = 345
  /\ toMillis (threeDays (milestoneTimes DEFAULT_ZONE
                            (inZone DEFAULT_START DEFAULT_ZONE)
                            (inZone DEFAULT_END DEFAULT_ZONE)))
     = DEFAULT_END - 72 * MS_PER_HOUR.
Proof.
  split; [reflexivity|].
  apply (milestoneTimes_threeDays DEFAULT_ZONE (inZone DEFAULT_START DEFAULT_ZONE)
           (inZone DEFAULT_END DEFAULT_ZONE)).
  reflexivity.
Defined.

(** C4 fails as stated: a window ending 2025-03-31T12:00 in a zone that
    went to summer time the day before.  Three calendar days earlier, at
    noon local time, is 71 hours earlier; [lastDay] is 24 hours earlier. *)
Lemma milestoneTimes_threeDays_counterexample :
  toMillis (threeDays (milestoneTimes dstZone (inZone 1740826800000 dstZone)
                         (inZone 1743415200000 dstZone)))
  = 1743415200000 - 71 * MS_PER_HOUR
  /\ toMillis (threeDays (milestoneTimes dstZone (inZone 1740826800000 dstZone)
                            (inZone 1743415200000 dstZone)))
     <> 1743415200000 - 72 * MS_PER_HOUR
  /\ toMillis (lastDay (milestoneTimes dstZone (inZone 1740826800000 dstZone)
                          (inZone 1743415200000 dstZone)))
     = 1743415200000 - 24 * MS_PER_HOUR.
Proof. vm_compute. repeat split; discriminate. Qed.

(** ** Persisted settings *)

(** C5, as the code has it.  [loadState] merges key by key at the top level
    only: a property the stored record lacks takes its default, a property it
    has is taken whole, nested objects included.  Storage that is
    unavailable, empty or unparseable gives the defaults.  [loadState] is a
    total function: nothing it does raises past its [catch]. *)
Theorem loadState_top_level_merge (parse : string -> option JSON)
  (st : Storage) (key0 : string) (fallback : gmap string JSON) :
  (forall table text parsed,
      st = Some table -> table !! key0 = Some text -> text <> "" ->
      parse text = Some parsed ->
      forall k,
        loadState parse st key0 fallback !! k
        = match spreadProps parsed !! k with
          | Some v => Some v
          | None => fallback !! k
          end)
  /\ (st = None -> loadState parse st key0 fallback = fallback)
  /\ (forall table,
         st = Some table -> table !! key0 = None \/ table !! key0 = Some "" ->
         loadState parse st key0 fallback = fallback)
  /\ (forall table text,
         st = Some table -> table !! key0 = Some text -> parse text = None ->
         loadState parse st key0 fallback = fallback).
Proof.
  unfold loadState, loadState_try, JSON_parse, getItem, cbind.
  repeat split.
  - intros table text parsed -> Htext Hne Hparse k. rewrite Htext.
    destruct (String.eqb_spec text "") as [E|_]; [contradiction|].
    rewrite Hparse. rewrite lookup_union.
    destruct (spreadProps parsed !! k), (fallback !! k); reflexivity.
  - intros ->. reflexivity.
  - intros table -> [H|H]; rewrite H; reflexivity.
  - intros table text -> Htext Hparse. rewrite Htext.
    destruct (String.eqb text ""); [reflexivity|]. rewrite Hparse. reflexivity.
Qed.

Lemma partialText_nonempty : partialText <> "".
Proof. discriminate. Qed.

(** The record [{"reminders":{"halfway":false}}] in storage. *)
Lemma loadState_top_level_merge_witness :
  loadState parsePartial (Some {[ CYCLE_KEY := partialText ]}) CYCLE_KEY
    DEFAULT_CYCLE !! "theme"
  = Some (JString "system")
  /\ loadState parsePartial (Some {[ CYCLE_KEY := partialText ]}) CYCLE_KEY
       DEFAULT_CYCLE !! "reminders"
     = Some (JObject (<["halfway" := JBool false]> ∅)).
Proof.
  destruct (loadState_top_level_merge parsePartial
              (Some {[ CYCLE_KEY := partialText ]}) CYCLE_KEY DEFAULT_CYCLE)
    as [Hmerge _].
  split.
  - rewrite (Hmerge {[ CYCLE_KEY := partialText ]} partialText partialRecord
               eq_refl eq_refl partialText_nonempty eq_refl "theme").
    reflexivity.
  - rewrite (Hmerge {[ CYCLE_KEY := partialText ]} partialText partialRecord
               eq_refl eq_refl partialText_nonempty eq_refl "reminders").
    reflexivity.
Defined.

(** C5 fails as stated: from the stored record
    [{"reminders":{"halfway":false}}] the loaded cycle has a [reminders]
    object with the one flag [halfway]; [renewal] is missing from it, reads
    as false, and does not take its default [true]. *)
Lemma loadState_nested_flag_counterexample :
  remindersOf (loadState parsePartial (Some {[ CYCLE_KEY := partialText ]})
                 CYCLE_KEY DEFAULT_CYCLE) !! "renewal" = None
  /\ truthy (remindersOf (loadState parsePartial
                            (Some {[ CYCLE_KEY := partialText ]})
                            CYCLE_KEY DEFAULT_CYCLE) !! "renewal") = false
  /\ remindersOf DEFAULT_CYCLE !! "renewal" = Some (JBool true).
Proof. repeat split; vm_compute; reflexivity. Qed.

(** ** The reminder effect *)

(** *** One call of [schedule] *)

Lemma schedule_skip (enabled : gmap string JSON) (nowRef : Z) (k : string)
  (at_ : Instant) (t b : string) (w : World) :
  Qle_bool (at_ - inject_Z nowRef) 0 = true \/ truthy (enabled !! k) = false ->
  schedule enabled nowRef k at_ t b w = w.
Proof.
  intros H. unfold schedule.
  destruct H as [-> | ->]; [reflexivity|]. rewrite orb_true_r. reflexivity.
Qed.

Lemma schedule_settled_arm (enabled : gmap string JSON) (nowRef : Z) (k : string)
  (at_ : Instant) (t b : string) (w : World) :
  settled w ->
  truthy (enabled !! k) = true ->
  (inject_Z nowRef < at_)%Q ->
  schedule enabled nowRef k at_ t b w
  = schedule_arm nowRef {| key := k; title := t; body := b;
                           delay := (at_ - inject_Z nowRef)%Q |} w.
Proof.
  unfold settled. intros Hs Hen Hlt. unfold schedule. rewrite Hs, Hen.
  destruct (Qle_bool (at_ - inject_Z nowRef) 0) eqn:E; [|reflexivity].
  apply Qle_bool_iff in E. lra.
Qed.

Lemma schedule_environment (enabled : gmap string JSON) (nowRef : Z) (k : string)
  (at_ : Instant) (t b : string) (w : World) :
  hasNotification (schedule enabled nowRef k at_ t b w) = hasNotification w
  /\ permission (schedule enabled nowRef k at_ t b w) = permission w.
Proof.
  unfold schedule.
  destruct (_ || _); [auto|].
  destruct (_ && _); auto.
Qed.

Lemma schedule_settled (enabled : gmap string JSON) (nowRef : Z) (k : string)
  (at_ : Instant) (t b : string) (w : World) :
  settled w -> settled (schedule enabled nowRef k at_ t b w).
Proof.
  unfold settled, permission_is_default.
  destruct (schedule_environment enabled nowRef k at_ t b w) as [-> ->]. auto.
Qed.

Lemma timeoutsFor_snoc (k : string) (l : list Timeout) (x : Timeout) :
  key (reminder x) <> k -> timeoutsFor k (l ++ [x]) = timeoutsFor k l.
Proof.
  intros Hne. unfold timeoutsFor. rewrite List.filter_app. cbn.
  destruct (String.eqb_spec (key (reminder x)) k); [contradiction|].
  apply app_nil_r.
Qed.

Lemma awaitingFor_snoc (k : string) (l : list Reminder) (r : Reminder) :
  key r <> k -> awaitingFor k (l ++ [r]) = awaitingFor k l.
Proof.
  intros Hne. unfold awaitingFor. rewrite List.filter_app. cbn.
  destruct (String.eqb_spec (key r) k); [contradiction|].
  apply app_nil_r.
Qed.

(** A call of [schedule] for one key leaves every other key alone. *)
Lemma schedule_other_key (enabled : gmap string JSON) (nowRef : Z) (k k' : string)
  (at_ : Instant) (t b : string) (w : World) :
  k' <> k ->
  untouchedFor k w (schedule enabled nowRef k' at_ t b w).
Proof.
  intros Hne. unfold untouchedFor, schedule.
  destruct (_ || _); [auto|].
  destruct (_ && _); unfold schedule_arm, setTimeout;
    cbn [timeouts awaiting timers_current key].
  - rewrite awaitingFor_snoc by exact Hne. auto.
  - rewrite timeoutsFor_snoc by exact Hne.
    rewrite lookup_insert_ne by exact Hne. auto.
Qed.

Lemma untouchedFor_refl (k : string) (w : World) : untouchedFor k w w.
Proof. unfold untouchedFor. auto. Qed.

Lemma untouchedFor_trans (k : string) (w1 w2 w3 : World) :
  untouchedFor k w1 w2 -> untouchedFor k w2 w3 -> untouchedFor k w1 w3.
Proof.
  unfold untouchedFor. intros (A1 & B1 & C1) (A2 & B2 & C2).
  repeat split; congruence.
Qed.

(** A timeout armed for one key is still armed after [schedule] ran for
    another. *)
Lemma schedule_keeps_armed (enabled : gmap string JSON) (nowRef : Z)
  (k k' : string) (at_ at' : Instant) (n : Z) (t b : string) (w : World) :
  k' <> k ->
  armedFor w k at_ n ->
  armedFor (schedule enabled nowRef k' at' t b w) k at_ n.
Proof.
  intros Hne (x & Hin & Hcur & Hrest). unfold schedule.
  destruct (_ || _); [exists x; auto|].
  destruct (_ && _); [exists x; auto|].
  exists x. cbn. split; [apply in_or_app; auto|].
  rewrite lookup_insert_ne by exact Hne. auto.
Qed.

Lemma Qfloor_minus_Z (q : Q) (n : Z) : Qfloor (q - inject_Z n) = Qfloor q - n.
Proof.
  destruct q as [a b]. unfold Qminus, Qplus, Qopp, inject_Z, Qfloor.
  cbn [Qnum Qden]. rewrite Pos.mul_1_r, Z.mul_1_r.
  replace (a + - n * Z.pos b) with (a + (- n) * Z.pos b) by lia.
  rewrite Z.div_add by discriminate. lia.
Qed.

(** A positive delay within the range of [setTimeout] is waited for, to the
    millisecond. *)
Lemma timerDelay_honoured (q : Q) :
  (0 < q)%Q -> Qfloor q <= MAX_TIMER_DELAY -> timerDelay q = Qfloor q.
Proof.
  intros Hpos Hmax. unfold timerDelay, truncQ, toInt32, MAX_TIMER_DELAY in *.
  assert (Hle : Qle_bool 0 q = true) by (apply Qle_bool_iff; lra).
  rewrite Hle.
  assert (H0 : 0 <= Qfloor q).
  { change 0 with (Qfloor 0). apply Qfloor_resp_le. lra. }
  rewrite Z.mod_small by lia.
  destruct (Z.leb_spec 2147483648 (Qfloor q)); lia.
Qed.

(** What [schedule] arms when nothing holds it back: a timeout set now, with
    the delay to the instant it was called with. *)
Lemma schedule_arms (enabled : gmap string JSON) (nowRef : Z) (k : string)
  (at_ : Instant) (t b : string) (w : World) :
  settled w ->
  truthy (enabled !! k) = true ->
  (inject_Z nowRef < at_)%Q ->
  armedFor (schedule enabled nowRef k at_ t b w) k at_ nowRef.
Proof.
  intros Hs Hen Hlt. rewrite schedule_settled_arm by assumption.
  eexists. cbn. split; [apply in_or_app; right; left; reflexivity|].
  rewrite lookup_insert_eq. cbn. repeat split.
  intros Hmax. unfold dueAt. cbn [setAt reminder delay].
  rewrite timerDelay_honoured.
  - rewrite Qfloor_minus_Z. lia.
  - lra.
  - rewrite Qfloor_minus_Z. exact Hmax.
Qed.

Lemma clearPrevious_settled (w : World) : settled w -> settled (clearPrevious w).
Proof. auto. Qed.

Lemma minus_minutes_instant (z : Zone) (dt : DateTime) (minutes : Z) :
  toMillis (minus_minutes z dt minutes) = toMillis dt - minutes * MS_PER_MIN.
Proof. unfold minus_minutes, toMillis. rewrite adjustTime_clock. lia. Qed.

Lemma instantOf_lt (nowRef : Z) (dt : DateTime) :
  nowRef < toMillis dt -> (inject_Z nowRef < instantOf dt)%Q.
Proof. intros H. unfold instantOf. rewrite <- Zlt_Qlt. exact H. Qed.

Lemma instantOf_le (nowRef : Z) (dt : DateTime) :
  toMillis dt <= nowRef -> Qle_bool (instantOf dt - inject_Z nowRef) 0 = true.
Proof.
  intros H. apply Qle_bool_iff. unfold instantOf.
  rewrite Zle_Qle in H. lra.
Qed.

(** *** Timeouts cleared and set *)

Lemma clearTimeout_incl (id : Z) (l : list Timeout) (x : Timeout) :
  In x (clearTimeout id l) -> In x l.
Proof. unfold clearTimeout. intros H. apply List.filter_In in H. tauto. Qed.



(** *** Arming one reminder after the other *)

Lemma schedule_settled_wanted (enabled : gmap string JSON) (clock : string -> Z)
  (k : string) (at_ : Instant) (t b : string) (w : World) :
  settled w ->
  schedule enabled (clock k) k at_ t b w
  = armAll clock (reminderFor enabled (clock k) k at_ t b) w.
Proof.
  unfold settled, schedule, reminderFor, wanted, armAll. intros ->.
  destruct (_ || _); reflexivity.
Qed.

Lemma armAll_app (clock : string -> Z) (rs1 rs2 : list Reminder) (w : World) :
  armAll clock (rs1 ++ rs2) w = armAll clock rs2 (armAll clock rs1 w).
Proof. unfold armAll. apply fold_left_app. Qed.

Lemma armAll_cons (clock : string -> Z) (r : Reminder) (rs : list Reminder)
  (w : World) :
  armAll clock (r :: rs) w = armAll clock rs (schedule_arm (clock (key r)) r w).
Proof. reflexivity. Qed.

Lemma armAll_settled (clock : string -> Z) (rs : list Reminder) (w : World) :
  settled w -> settled (armAll clock rs w).
Proof.
  revert w. induction rs as [|r rs IH]; intros w Hs; [exact Hs|].
  rewrite armAll_cons. apply IH. exact Hs.
Qed.

Lemma armAll_next (clock : string -> Z) (rs : list Reminder) (w : World) :
  nextTimeoutId w <= nextTimeoutId (armAll clock rs w).
Proof.
  revert w. induction rs as [|r rs IH]; intros w; [cbn; lia|].
  rewrite armAll_cons. etransitivity; [|apply IH]. cbn. lia.
Qed.

Lemma armAll_awaiting (clock : string -> Z) (rs : list Reminder) (w : World) :
  awaiting (armAll clock rs w) = awaiting w.
Proof.
  revert w. induction rs as [|r rs IH]; intros w; [reflexivity|].
  rewrite armAll_cons, IH. reflexivity.
Qed.

Lemma armAll_other_keys (clock : string -> Z) (k : string) (rs : list Reminder) :
  forall w : World,
    (forall r, In r rs -> key r <> k) ->
    timeoutsFor k (timeouts (armAll clock rs w)) = timeoutsFor k (timeouts w).
Proof.
  induction rs as [|r rs IH]; intros w Hk; [reflexivity|].
  rewrite armAll_cons, IH by (intros r' Hr'; apply Hk; right; exact Hr').
  unfold schedule_arm, setTimeout. cbn [timeouts].
  apply timeoutsFor_snoc. cbn. apply Hk. left. reflexivity.
Qed.

(** *** What the page shows *)

Lemma timeoutsFor_nil (k : string) (l : list Timeout) (x : Timeout) :
  timeoutsFor k l = [] -> In x l -> key (reminder x) <> k.
Proof.
  unfold timeoutsFor. intros Hnil Hin Hk.
  assert (H : In x (List.filter (fun y => String.eqb (key (reminder y)) k) l)).
  { apply List.filter_In. split; [exact Hin|]. apply String.eqb_eq. exact Hk. }
  rewrite Hnil in H. destruct H.
Qed.

Lemma awaitingFor_nil (k : string) (l : list Reminder) (r : Reminder) :
  awaitingFor k l = [] -> In r l -> key r <> k.
Proof.
  unfold awaitingFor. intros Hnil Hin Hk.
  assert (H : In r (List.filter (fun y => String.eqb (key y) k) l)).
  { apply List.filter_In. split; [exact Hin|]. apply String.eqb_eq. exact Hk. }
  rewrite Hnil in H. destruct H.
Qed.

Lemma timeoutsFor_clearTimeout (k : string) (id : Z) (l : list Timeout) :
  timeoutsFor k l = [] -> timeoutsFor k (clearTimeout id l) = [].
Proof.
  intros Hnil.
  destruct (timeoutsFor k (clearTimeout id l)) as [|x rest] eqn:E; [reflexivity|].
  exfalso.
  assert (Hx : In x (timeoutsFor k (clearTimeout id l)))
    by (rewrite E; left; reflexivity).
  unfold timeoutsFor in Hx. apply List.filter_In in Hx. destruct Hx as [Hin Hk].
  apply clearTimeout_incl in Hin. apply String.eqb_eq in Hk.
  exact (timeoutsFor_nil k l x Hnil Hin Hk).
Qed.

(** A step of the page keeps a quiet key quiet and shows nothing for it. *)
Lemma pageStep_quiet (k : string) (w w' : World) (shown : list Reminder) :
  quietFor k w -> pageStep w shown w' ->
  quietFor k w' /\ forall r, In r shown -> key r <> k.
Proof.
  intros [Ht Ha] Hstep. destruct Hstep as [id r w w' Hfire | p t w].
  - unfold fireTimeout in Hfire.
    destruct (List.find _ (timeouts w)) as [x|] eqn:Hfind; [|discriminate].
    injection Hfire as <- <-. apply List.find_some in Hfind.
    destruct Hfind as [Hin _]. split.
    + split; cbn [timeouts awaiting]; [|exact Ha].
      apply timeoutsFor_clearTimeout. exact Ht.
    + intros r [<-|[]]. exact (timeoutsFor_nil k _ x Ht Hin).
  - split; [|intros r []].
    change (permissionSettled p t w)
      with (armAll (still t) (awaiting w)
              {| hasNotification := hasNotification w; permission := p;
                 nextTimeoutId := nextTimeoutId w; timeouts := timeouts w;
                 timers_current := timers_current w; awaiting := [] |}).
    split.
    + rewrite armAll_other_keys; [exact Ht|].
      intros r Hr. exact (awaitingFor_nil k _ r Ha Hr).
    + rewrite armAll_awaiting. reflexivity.
Qed.

(** Nothing is ever shown for a key that has nothing pending. *)
Lemma quietFor_neverShown (k : string) (w : World) :
  quietFor k w -> neverShown k w.
Proof.
  intros Hq shown w' Hrun. induction Hrun as [w|w1 w2 w3 s1 s2 Hstep Hrun IH].
  - intros r [].
  - destruct (pageStep_quiet k w1 w2 s1 Hq Hstep) as [Hq2 Hs1].
    intros r Hr. apply in_app_or in Hr. destruct Hr as [Hr|Hr].
    + exact (Hs1 r Hr).
    + exact (IH Hq2 r Hr).
Qed.

Lemma untouchedFor_quiet (k : string) (w0 w' : World) :
  untouchedFor k w0 w' -> quietFor k w0 -> quietFor k w'.
Proof.
  unfold untouchedFor, quietFor. intros (-> & -> & _) H. exact H.
Qed.

(** *** What one run of the effect arms and skips *)

Ltac other_key := discriminate.

(** From five minutes before the end of the window on, the effect does
    nothing for [renewal]. *)
Lemma useReminders_effect_renewal_late (z : Zone) (enabled : gmap string JSON)
  (start0 end0 : DateTime) (clock : string -> Z) (w : World) :
  toMillis end0 - 5 * MS_PER_MIN <= clock "renewal" ->
  untouchedFor "renewal" (clearPrevious w)
    (useReminders_effect z enabled start0 end0 clock w).
Proof.
  intros Hlate. unfold useReminders_effect.
  rewrite (schedule_skip enabled (clock "renewal") "renewal")
    by (left; apply instantOf_le; cbn [milestoneTimes renewal];
        rewrite minus_minutes_instant; exact Hlate).
  repeat (eapply untouchedFor_trans; [|apply schedule_other_key; other_key]).
  apply untouchedFor_refl.
Qed.

(** C2, as the code has it.  With no permission request pending, the effect
    arms, for each of [halfway], [threeDays] and [lastDay] whose flag is
    truthy and whose instant is after the wall clock, a timeout whose delay
    reaches from the wall clock to that instant, due at that instant
    when the delay is one [setTimeout] waits for.  The renewal reminder is
    scheduled for five minutes before the end of the window: it is armed,
    for [end - 5 min], when that instant is after the wall clock, and from
    that instant on nothing is armed for it. *)
Theorem useReminders_effect_arms (z : Zone) (enabled : gmap string JSON)
  (start0 end0 : DateTime) (clock : string -> Z) (w : World) :
  settled w ->
  (truthy (enabled !! "halfway") = true ->
   (inject_Z (clock "halfway") < halfway (milestoneTimes z start0 end0))%Q ->
   armedFor (useReminders_effect z enabled start0 end0 clock w)
     "halfway" (halfway (milestoneTimes z start0 end0)) (clock "halfway"))
  /\ (truthy (enabled !! "threeDays") = true ->
      clock "threeDays" < toMillis (threeDays (milestoneTimes z start0 end0)) ->
      armedFor (useReminders_effect z enabled start0 end0 clock w)
        "threeDays" (instantOf (threeDays (milestoneTimes z start0 end0)))
        (clock "threeDays"))
  /\ (truthy (enabled !! "lastDay") = true ->
      clock "lastDay" < toMillis (lastDay (milestoneTimes z start0 end0)) ->
      armedFor (useReminders_effect z enabled start0 end0 clock w)
        "lastDay" (instantOf (lastDay (milestoneTimes z start0 end0)))
        (clock "lastDay"))
  /\ (truthy (enabled !! "renewal") = true ->
      clock "renewal"
        < toMillis (renewal (milestoneTimes z start0 end0)) - 5 * MS_PER_MIN ->
      armedFor (useReminders_effect z enabled start0 end0 clock w)
        "renewal"
        (inject_Z (toMillis (renewal (milestoneTimes z start0 end0))
                   - 5 * MS_PER_MIN))
        (clock "renewal"))
  /\ (toMillis (renewal (milestoneTimes z start0 end0)) - 5 * MS_PER_MIN
        <= clock "renewal" ->
      untouchedFor "renewal" (clearPrevious w)
        (useReminders_effect z enabled start0 end0 clock w)).
Proof.
  intros Hs.
  pose proof (useReminders_effect_renewal_late z enabled start0 end0 clock w)
    as Hlate.
  unfold useReminders_effect in *.
  set (m := milestoneTimes z start0 end0) in *.
  pose proof (clearPrevious_settled w Hs) as Hs0.
  set (w0 := clearPrevious w) in *.
  set (w1 := schedule enabled (clock "halfway") "halfway" _ _ _ w0).
  assert (Hs1 : settled w1) by (apply schedule_settled; exact Hs0).
  set (w2 := schedule enabled (clock "threeDays") "threeDays" _ _ _ w1).
  assert (Hs2 : settled w2) by (apply schedule_settled; exact Hs1).
  set (w3 := schedule enabled (clock "lastDay") "lastDay" _ _ _ w2).
  assert (Hs3 : settled w3) by (apply schedule_settled; exact Hs2).
  split; [|split; [|split; [|split]]]; [| | | |exact Hlate].
  - intros Hen Hlt.
    do 3 (apply schedule_keeps_armed; [other_key|]).
    apply schedule_arms; assumption.
  - intros Hen Hlt.
    do 2 (apply schedule_keeps_armed; [other_key|]).
    apply schedule_arms; [assumption..|]. apply instantOf_lt. exact Hlt.
  - intros Hen Hlt.
    apply schedule_keeps_armed; [other_key|].
    apply schedule_arms; [assumption..|]. apply instantOf_lt. exact Hlt.
  - intros Hen Hlt.
    assert (E : instantOf (minus_minutes z (renewal m) 5)
                = inject_Z (toMillis (renewal m) - 5 * MS_PER_MIN)).
    { unfold instantOf. rewrite minus_minutes_instant. reflexivity. }
    rewrite E. apply schedule_arms; [assumption..|].
    rewrite <- Zlt_Qlt. exact Hlt.
Qed.

(** A page with the permission granted, one day before the end of the
    default cycle, with every flag on. *)
Lemma useReminders_effect_arms_witness :
  armedFor (useReminders_effect DEFAULT_ZONE DEFAULT_REMINDERS
              (inZone DEFAULT_START DEFAULT_ZONE) (inZone DEFAULT_END DEFAULT_ZONE)
              (still (DEFAULT_END - MS_PER_DAY))
              (freshWorld true PermissionGranted))
    "renewal" (inject_Z (DEFAULT_END - 5 * MS_PER_MIN)) (DEFAULT_END - MS_PER_DAY).
Proof.
  apply (useReminders_effect_arms DEFAULT_ZONE DEFAULT_REMINDERS
           (inZone DEFAULT_START DEFAULT_ZONE) (inZone DEFAULT_END DEFAULT_ZONE)
           (still (DEFAULT_END - MS_PER_DAY)) (freshWorld true PermissionGranted)).
  - reflexivity.
  - reflexivity.
  - vm_compute. reflexivity.
Defined.

(** C2 fails as stated.  One day before the end of the default cycle, with
    the renewal flag on and the permission granted, the one timeout armed
    for [renewal] is due five minutes before the end of the window, not at
    the end.  One minute before the end, with the renewal still ahead, no
    timeout is armed for it at all. *)
Lemma useReminders_effect_renewal_counterexample :
  List.map dueAt
    (timeoutsFor "renewal"
       (timeouts (useReminders_effect DEFAULT_ZONE DEFAULT_REMINDERS
                    (inZone DEFAULT_START DEFAULT_ZONE)
                    (inZone DEFAULT_END DEFAULT_ZONE)
                    (still (DEFAULT_END - MS_PER_DAY))
                    (freshWorld true PermissionGranted))))
  = [DEFAULT_END - 300000]
  /\ DEFAULT_END - 300000 <> DEFAULT_END
  /\ DEFAULT_END - 60000 < toMillis (renewal (milestoneTimes DEFAULT_ZONE
                                               (inZone DEFAULT_START DEFAULT_ZONE)
                                               (inZone DEFAULT_END DEFAULT_ZONE)))
  /\ truthy (DEFAULT_REMINDERS !! "renewal") = true
  /\ timeoutsFor "renewal"
       (timeouts (useReminders_effect DEFAULT_ZONE DEFAULT_REMINDERS
                    (inZone DEFAULT_START DEFAULT_ZONE)
                    (inZone DEFAULT_END DEFAULT_ZONE)
                    (still (DEFAULT_END - 60000))
                    (freshWorld true PermissionGranted)))
     = [].
Proof.
  split; [vm_compute; reflexivity|].
  split; [discriminate|].
  split; [vm_compute; reflexivity|].
  split; vm_compute; reflexivity.
Qed.

(** A delay beyond the range of [setTimeout] is not waited for.  Five
    milliseconds into the default cycle the three-days reminder is 28 days
    ahead; its timeout is due at once. *)
Example useReminders_effect_long_delay :
  List.map (fun x => (delay (reminder x), dueAt x))
    (timeoutsFor "threeDays"
       (timeouts (useReminders_effect DEFAULT_ZONE DEFAULT_REMINDERS
                    (inZone DEFAULT_START DEFAULT_ZONE)
                    (inZone DEFAULT_END DEFAULT_ZONE)
                    (still (DEFAULT_START + 5))
                    (freshWorld true PermissionGranted))))
  = [(inject_Z 2419199995, DEFAULT_START + 5)].
Proof. vm_compute. reflexivity. Qed.

(** C9.  A milestone whose instant is at or before the wall clock read by
    its call of [schedule] is skipped: the effect sets no timeout for it,
    suspends no call for it and records no id under its key; with nothing
    left pending for it from before, no reminder for it is ever shown. *)
Theorem useReminders_effect_skips_past (z : Zone) (enabled : gmap string JSON)
  (start0 end0 : DateTime) (clock : string -> Z) (w : World) :
  ((halfway (milestoneTimes z start0 end0) <= inject_Z (clock "halfway"))%Q ->
   skippedFor "halfway" (clearPrevious w)
     (useReminders_effect z enabled start0 end0 clock w))
  /\ (toMillis (threeDays (milestoneTimes z start0 end0)) <= clock "threeDays" ->
      skippedFor "threeDays" (clearPrevious w)
        (useReminders_effect z enabled start0 end0 clock w))
  /\ (toMillis (lastDay (milestoneTimes z start0 end0)) <= clock "lastDay" ->
      skippedFor "lastDay" (clearPrevious w)
        (useReminders_effect z enabled start0 end0 clock w))
  /\ (toMillis (renewal (milestoneTimes z start0 end0)) <= clock "renewal" ->
      skippedFor "renewal" (clearPrevious w)
        (useReminders_effect z enabled start0 end0 clock w)).
Proof.
  assert (Hskip : forall k w',
             untouchedFor k (clearPrevious w) w' ->
             skippedFor k (clearPrevious w) w').
  { intros k w' H. split; [exact H|]. split.
    - destruct H as (_ & _ & ->). reflexivity.
    - intros Hq. apply quietFor_neverShown.
      exact (untouchedFor_quiet k _ w' H Hq). }
  unfold useReminders_effect.
  set (m := milestoneTimes z start0 end0).
  set (w0 := clearPrevious w) in *.
  split; [|split; [|split]]; intros Hpast; apply Hskip.
  - rewrite (schedule_skip enabled (clock "halfway") "halfway")
      by (left; apply Qle_bool_iff; lra).
    repeat (eapply untouchedFor_trans; [|apply schedule_other_key; other_key]).
    apply untouchedFor_refl.
  - rewrite (schedule_skip enabled (clock "threeDays") "threeDays")
      by (left; apply instantOf_le; exact Hpast).
    repeat (eapply untouchedFor_trans; [|apply schedule_other_key; other_key]).
    apply untouchedFor_refl.
  - rewrite (schedule_skip enabled (clock "lastDay") "lastDay")
      by (left; apply instantOf_le; exact Hpast).
    repeat (eapply untouchedFor_trans; [|apply schedule_other_key; other_key]).
    apply untouchedFor_refl.
  - apply (useReminders_effect_renewal_late z enabled start0 end0 clock w).
    unfold m in Hpast. cbn [milestoneTimes renewal] in Hpast.
    unfold MS_PER_MIN. lia.
Qed.

(** At the end of the default window the renewal is not ahead of the wall
    clock any more. *)
Lemma useReminders_effect_skips_past_witness :
  skippedFor "renewal" (clearPrevious (freshWorld true PermissionDefault))
    (useReminders_effect DEFAULT_ZONE DEFAULT_REMINDERS
       (inZone DEFAULT_START DEFAULT_ZONE) (inZone DEFAULT_END DEFAULT_ZONE)
       (still DEFAULT_END) (freshWorld true PermissionDefault)).
Proof.
  apply (useReminders_effect_skips_past DEFAULT_ZONE DEFAULT_REMINDERS
           (inZone DEFAULT_START DEFAULT_ZONE) (inZone DEFAULT_END DEFAULT_ZONE)
           (still DEFAULT_END) (freshWorld true PermissionDefault)).
  vm_compute. discriminate.
Defined.

(** X21.  Two instants inside one resolved window resolve to that window:
    while [now] stays between the start and the end of the window that was
    resolved, the resolver keeps returning that window, flag included. *)
Lemma rollCycleToNow_same_window (cycle : Cycle) (now1 now2 : DateTime)
  (fuel : nat) (w : Window) :
  zone_bounded (timezone cycle) ->
  startISO cycle <= endISO cycle ->
  startISO cycle <= toMillis now1 ->
  rollCycleToNow fuel cycle now1 = Some w ->
  toMillis (start w) <= toMillis now2 < toMillis (end_ w) ->
  rollCycleToNow fuel cycle now2 = Some w.
Proof.
  intros Hz Hanchor Hin1 Hw Hin2.
  unfold rollCycleToNow, toMillis, inZone in *. cbn [atInstant ts] in *.
  destruct (Z.ltb_spec (ts now1) (startISO cycle)); [lia|].
  pose proof (roll_loop_start_ge (timezone cycle) Hz (ts now1) fuel
                (atInstant (timezone cycle) (startISO cycle))
                (atInstant (timezone cycle) (endISO cycle)) false w
                Hin1 Hanchor Hw) as Hge.
  cbn [atInstant ts] in Hge.
  destruct (Z.ltb_spec (ts now2) (startISO cycle)); [lia|].
  exact (roll_loop_same_window (timezone cycle) Hz (ts now1) (ts now2) fuel
           (atInstant (timezone cycle) (startISO cycle))
           (atInstant (timezone cycle) (endISO cycle)) false w
           Hin1 Hanchor Hw Hin2).
Qed.




(** C8, on the failing input.  A page whose notification permission is
    still ["default"], the default cycle with every flag on: the effect runs
    twice with the same window, flags and wall clock before the permission
    request settles.  Run once, the effect leaves one timeout per kind.  Run
    twice, it leaves two per kind: the four calls suspended by the first run
    were not timeouts yet when the second run cleared the previous ones, and
    arm all the same, and the halfway reminder is shown twice (by timeouts
    1 and 5).  [timers.current] records only the last four ids, so the next
    cleanup clears those and the first four stay. *)
Theorem rearm_twice_pending_permission :
  let arm := rearm DEFAULT_ZONE DEFAULT_REMINDERS
               (inZone DEFAULT_START DEFAULT_ZONE) (inZone DEFAULT_END DEFAULT_ZONE)
               (still (DEFAULT_START + 5)) in
  let once := permissionSettled PermissionGranted (DEFAULT_START + 9)
                (arm (freshWorld true PermissionDefault)) in
  let twice := permissionSettled PermissionGranted (DEFAULT_START + 9)
                 (arm (arm (freshWorld true PermissionDefault))) in
  List.map (fun x => (timeoutId x, key (reminder x))) (timeouts once)
  = [(1, "halfway"); (2, "threeDays"); (3, "lastDay"); (4, "renewal")]
  /\ List.map (fun x => (timeoutId x, key (reminder x))) (timeouts twice)
     = [(1, "halfway"); (2, "threeDays"); (3, "lastDay"); (4, "renewal");
        (5, "halfway"); (6, "threeDays"); (7, "lastDay"); (8, "renewal")]
  /\ List.map reminder (timeoutsFor "halfway" (timeouts twice))
     = List.map reminder (timeoutsFor "halfway" (timeouts once))
       ++ List.map reminder (timeoutsFor "halfway" (timeouts once))
  /\ option_map (fun shown => key (fst shown)) (fireTimeout 1 twice)
     = Some "halfway"
  /\ option_map (fun shown => key (fst shown)) (fireTimeout 5 twice)
     = Some "halfway"
  /\ timers_current twice !! "halfway" = Some 5
  /\ List.map (fun x => (timeoutId x, key (reminder x)))
       (timeouts (useReminders_cleanup twice))
     = [(1, "halfway"); (2, "threeDays"); (3, "lastDay"); (4, "renewal")].
Proof. vm_compute. repeat split; reflexivity. Qed.

(** *** Rearming with no permission request pending *)

(** One run of the effect, with no permission request pending, arms the
    reminders that pass the test of [schedule], after clearing. *)
Lemma useReminders_effect_settled (z : Zone) (enabled : gmap string JSON)
  (start0 end0 : DateTime) (clock : string -> Z) (w : World) :
  settled w ->
  useReminders_effect z enabled start0 end0 clock w
  = armAll clock (armedReminders z enabled start0 end0 clock) (clearPrevious w).
Proof.
  intros Hs. unfold useReminders_effect, armedReminders.
  pose proof (clearPrevious_settled w Hs) as Hs0.
  rewrite !armAll_app.
  rewrite (schedule_settled_wanted enabled clock "halfway") by exact Hs0.
  rewrite (schedule_settled_wanted enabled clock "threeDays")
    by (apply armAll_settled; exact Hs0).
  rewrite (schedule_settled_wanted enabled clock "lastDay")
    by (do 2 apply armAll_settled; exact Hs0).
  rewrite (schedule_settled_wanted enabled clock "renewal")
    by (do 3 apply armAll_settled; exact Hs0).
  reflexivity.
Qed.

Lemma armAll_reminders (clock : string -> Z) (rs : list Reminder) (w : World) :
  List.map reminder (timeouts (armAll clock rs w))
  = List.map reminder (timeouts w) ++ rs.
Proof.
  revert w. induction rs as [|r rs IH]; intros w.
  - cbn. symmetry. apply app_nil_r.
  - rewrite armAll_cons. rewrite (IH (schedule_arm (clock (key r)) r w)).
    unfold schedule_arm, setTimeout. cbn [timeouts].
    rewrite List.map_app. cbn. rewrite <- app_assoc. reflexivity.
Qed.

Lemma armAll_tracked (clock : string -> Z) (rs : list Reminder) :
  forall w : World,
    List.NoDup (List.map key rs) ->
    (forall r, In r rs -> timers_current w !! key r = None) ->
    0 < nextTimeoutId w ->
    tracked w ->
    tracked (armAll clock rs w).
Proof.
  induction rs as [|r rs IH]; intros w Hnd Hfree Hpos Htr; [exact Htr|].
  rewrite armAll_cons. inversion Hnd as [|? ? Hnotin Hnd']; subst.
  apply IH.
  - exact Hnd'.
  - intros r' Hr'. unfold schedule_arm, setTimeout. cbn [timers_current].
    rewrite lookup_insert_ne.
    + apply Hfree. right. exact Hr'.
    + intros E. apply Hnotin. rewrite E. apply List.in_map. exact Hr'.
  - cbn. lia.
  - intros x Hx. unfold schedule_arm, setTimeout in *.
    cbn [timeouts timers_current] in *.
    apply in_app_or in Hx. destruct Hx as [Hx|[<-|[]]].
    + destruct (Htr x Hx) as [Hnz [k Hk]]. split; [exact Hnz|].
      exists k. rewrite lookup_insert_ne; [exact Hk|].
      intros <-. rewrite (Hfree r) in Hk by (left; reflexivity). discriminate.
    + cbn. split; [lia|]. exists (key r). apply lookup_insert_eq.
Qed.

Lemma clearTimeout_In (id : Z) (l : list Timeout) (x : Timeout) :
  In x (clearTimeout id l) <-> In x l /\ timeoutId x <> id.
Proof.
  unfold clearTimeout. rewrite List.filter_In.
  destruct (Z.eqb_spec (timeoutId x) id); cbn; intuition congruence.
Qed.

Lemma clearAll_In (ids : list Z) (l : list Timeout) (x : Timeout) :
  In x (fold_right (fun id l0 => if id =? 0 then l0 else clearTimeout id l0) l ids)
  <-> In x l /\ ~ (timeoutId x <> 0 /\ In (timeoutId x) ids).
Proof.
  induction ids as [|id ids IH]; cbn [fold_right].
  - cbn. tauto.
  - destruct (Z.eqb_spec id 0) as [->|Hnz].
    + rewrite IH. cbn. intuition congruence.
    + rewrite clearTimeout_In, IH. cbn. intuition congruence.
Qed.

(** Clearing cancels every timeout [timers.current] knows. *)
Lemma clearPrevious_tracked (w : World) :
  tracked w -> timeouts (clearPrevious w) = [].
Proof.
  intros Htr. unfold clearPrevious. cbn [timeouts].
  match goal with |- ?l = [] => destruct l as [|x rest] eqn:E end;
    [reflexivity|exfalso].
  assert (Hx : In x (x :: rest)) by (left; reflexivity).
  rewrite <- E in Hx. apply clearAll_In in Hx. destruct Hx as [Hin Hkeep].
  destruct (Htr x Hin) as [Hnz [k Hk]]. apply Hkeep. split; [exact Hnz|].
  apply list_elem_of_In. apply list_elem_of_fmap.
  exists (k, timeoutId x). split; [reflexivity|].
  apply elem_of_map_to_list. exact Hk.
Qed.

Lemma reminderFor_keys (enabled : gmap string JSON) (nowRef : Z) (k : string)
  (at_ : Instant) (t b : string) :
  List.map key (reminderFor enabled nowRef k at_ t b) = [k]
  \/ List.map key (reminderFor enabled nowRef k at_ t b) = [].
Proof. unfold reminderFor. destruct (wanted _ _ _ _); auto. Qed.

(** At most one reminder per kind. *)
Lemma armedReminders_NoDup (z : Zone) (enabled : gmap string JSON)
  (start0 end0 : DateTime) (clock : string -> Z) :
  List.NoDup (List.map key (armedReminders z enabled start0 end0 clock)).
Proof.
  unfold armedReminders. cbv zeta. rewrite !List.map_app.
  repeat match goal with
  | |- context [List.map key (reminderFor ?e ?n ?k ?a ?t ?b)] =>
      destruct (reminderFor_keys e n k a t b) as [-> | ->]
  end; cbn [app];
  repeat (constructor; [cbn; intuition discriminate|]); constructor.
Qed.

(** X22.  With no permission request pending and every pending timeout
    known to [timers.current], arming is idempotent: the second arming
    leaves the reminders of the first, one per kind at most, and nothing
    else. *)
Lemma rearm_idempotent_settled (z : Zone) (enabled : gmap string JSON)
  (start0 end0 : DateTime) (clock : string -> Z) (w : World) :
  settled w -> tracked w -> 0 < nextTimeoutId w ->
  List.map reminder
    (timeouts (rearm z enabled start0 end0 clock
                 (rearm z enabled start0 end0 clock w)))
  = List.map reminder (timeouts (rearm z enabled start0 end0 clock w))
  /\ List.map reminder (timeouts (rearm z enabled start0 end0 clock w))
     = armedReminders z enabled start0 end0 clock
  /\ List.NoDup (List.map key (armedReminders z enabled start0 end0 clock))
  /\ tracked (rearm z enabled start0 end0 clock w).
Proof.
  intros Hs Htr Hpos.
  assert (Hone : forall w0, settled w0 -> tracked w0 -> 0 < nextTimeoutId w0 ->
            List.map reminder (timeouts (rearm z enabled start0 end0 clock w0))
            = armedReminders z enabled start0 end0 clock
            /\ settled (rearm z enabled start0 end0 clock w0)
            /\ tracked (rearm z enabled start0 end0 clock w0)
            /\ 0 < nextTimeoutId (rearm z enabled start0 end0 clock w0)).
  { intros w0 Hs0 Htr0 Hpos0. unfold rearm, useReminders_cleanup.
    rewrite useReminders_effect_settled by (apply clearPrevious_settled; exact Hs0).
    set (c := clearPrevious (clearPrevious w0)).
    assert (Hc : timeouts c = []).
    { apply clearPrevious_tracked. intros x Hx.
      rewrite (clearPrevious_tracked w0 Htr0) in Hx. destruct Hx. }
    split; [|split; [|split]].
    - rewrite armAll_reminders, Hc. reflexivity.
    - apply armAll_settled. exact Hs0.
    - apply armAll_tracked.
      + apply armedReminders_NoDup.
      + intros r _. reflexivity.
      + exact Hpos0.
      + intros x Hx. rewrite Hc in Hx. destruct Hx.
    - eapply Z.lt_le_trans; [exact Hpos0|]. apply (armAll_next clock _ c). }
  destruct (Hone w Hs Htr Hpos) as (E1 & Hs1 & Htr1 & Hpos1).
  destruct (Hone _ Hs1 Htr1 Hpos1) as (E2 & _).
  split; [|split; [|split]].
  - rewrite E1, E2. reflexivity.
  - exact E1.
  - apply armedReminders_NoDup.
  - exact Htr1.
Qed.

(* ================================================================== *)
(** * Further properties of the component *)

(** ** Calendar fields, read back *)

Lemma dayFromYear_mono (a b : Z) : a <= b -> dayFromYear a <= dayFromYear b.
Proof. unfold dayFromYear. intros H. Z.div_mod_to_equations. lia. Qed.

(** The year of a day is the only year whose days contain it. *)
Lemma yearFromDay_unique (y n : Z) :
  dayFromYear y <= n < dayFromYear (y + 1) -> yearFromDay n = y.
Proof.
  intros Hy. pose proof (yearFromDay_spec n) as Hn.
  destruct (Z.lt_trichotomy (yearFromDay n) y) as [C|[C|C]]; [|exact C|].
  - pose proof (dayFromYear_mono (yearFromDay n + 1) y ltac:(lia)). lia.
  - pose proof (dayFromYear_mono (y + 1) (yearFromDay n) ltac:(lia)). lia.
Qed.

Lemma monthFromDayInYear_unique (leap : bool) (m0 d : Z) :
  0 <= m0 <= 11 ->
  daysBeforeMonth leap m0 <= d < endOfMonth leap m0 ->
  monthFromDayInYear leap d = m0.
Proof.
  intros Hm Hd. apply month_cases in Hm.
  unfold monthFromDayInYear, endOfMonth, daysBeforeMonth in *.
  repeat (destruct Hm as [->|Hm]); [..|subst m0];
    destruct leap; cbv zeta in *; revert Hd; split_ifs; intros; lia.
Qed.

Lemma daysInMonth_length (y m0 : Z) :
  0 <= m0 <= 11 ->
  daysInMonth y (m0 + 1)
  = endOfMonth (isLeapYear y) m0 - daysBeforeMonth (isLeapYear y) m0.
Proof.
  intros Hm. apply month_cases in Hm. unfold daysInMonth.
  repeat (destruct Hm as [->|Hm]); [..|rewrite Hm];
    destruct (isLeapYear y) eqn:El; cbn -[isLeapYear];
    rewrite ?Z.add_0_r, ?El; reflexivity.
Qed.

(** Writing valid calendar fields and reading them back gives the fields. *)
Lemma localTSToObj_objToLocalTS (c : Fields) :
  1 <= month c <= 12 ->
  1 <= day c <= daysInMonth (year c) (month c) ->
  0 <= timeOfDay c < MS_PER_DAY ->
  localTSToObj (objToLocalTS c) = c.
Proof.
  destruct c as [y m d tod]. cbn [year month day timeOfDay].
  intros Hm Hd Htod.
  assert (Hlen := daysInMonth_length y (m - 1) ltac:(lia)).
  replace (m - 1 + 1) with m in Hlen by lia.
  assert (Hend : endOfMonth (isLeapYear y) (m - 1)
                 <= (if isLeapYear y then 366 else 365)).
  { assert (Hm' : 0 <= m - 1 <= 11) by lia. apply month_cases in Hm'.
    unfold endOfMonth, daysBeforeMonth.
    repeat (destruct Hm' as [->|Hm']); [..|rewrite Hm'];
      destruct (isLeapYear y); cbv zeta; split_ifs. }
  assert (Hbefore : 0 <= daysBeforeMonth (isLeapYear y) (m - 1)).
  { unfold daysBeforeMonth. destruct (isLeapYear y); cbv zeta; split_ifs. }
  unfold objToLocalTS, localTSToObj. cbn [year month day timeOfDay].
  rewrite makeDay_in_year by lia.
  set (n := dayFromYear y + daysBeforeMonth (isLeapYear y) (m - 1) + d - 1).
  assert (Hdiv : (n * MS_PER_DAY + tod) / MS_PER_DAY = n).
  { replace (n * MS_PER_DAY + tod) with (tod + n * MS_PER_DAY) by lia.
    rewrite Z.div_add by discriminate. rewrite Z.div_small by lia. lia. }
  assert (Hmod : (n * MS_PER_DAY + tod) mod MS_PER_DAY = tod).
  { replace (n * MS_PER_DAY + tod) with (tod + n * MS_PER_DAY) by lia.
    rewrite Z.mod_add by discriminate. apply Z.mod_small. lia. }
  rewrite Hdiv, Hmod.
  assert (Hy : yearFromDay n = y).
  { apply yearFromDay_unique. rewrite dayFromYear_succ. unfold daysInYear, n.
    destruct (isLeapYear y); lia. }
  rewrite Hy.
  assert (Hmonth : monthFromDayInYear (isLeapYear y) (n - dayFromYear y) = m - 1).
  { apply monthFromDayInYear_unique; [lia|]. unfold n. lia. }
  rewrite Hmonth. f_equal; unfold n; lia.
Qed.

(** A month number one past December is January of the next year. *)
Lemma objToLocalTS_month_carry (y d tod : Z) :
  objToLocalTS {| year := y; month := 13; day := d; timeOfDay := tod |}
  = objToLocalTS {| year := y + 1; month := 1; day := d; timeOfDay := tod |}.
Proof.
  unfold objToLocalTS, makeDay. cbn [year month day timeOfDay].
  change ((13 - 1) / 12) with 1. change ((13 - 1) mod 12) with 0.
  change ((1 - 1) / 12) with 0. change ((1 - 1) mod 12) with 0.
  rewrite !Z.add_0_r. unfold daysBeforeMonth.
  destruct (isLeapYear (y + 1)); reflexivity.
Qed.

Lemma fixOffset_fixedZone (off l : Z) :
  fixOffset (fixedZone off) l off = (l - off * 60 * 1000, off).
Proof. apply fixOffset_same. reflexivity. Qed.

(** The fields of a local time moved to the next month as [adjustTime]
    does it: same time of day, next month, day clamped to its length. *)
Lemma next_month_fields (l : Z) :
  let c := localTSToObj l in
  let c' := localTSToObj
              (objToLocalTS
                 {| year := year c;
                    month := month c + 1;
                    day := Z.min (day c) (daysInMonth (year c) (month c + 1));
                    timeOfDay := timeOfDay c |}) in
  timeOfDay c' = timeOfDay c
  /\ year c' = (if month c =? 12 then year c + 1 else year c)
  /\ month c' = (if month c =? 12 then 1 else month c + 1)
  /\ day c' = Z.min (day c) (daysInMonth (year c') (month c'))
  /\ day c' <= day c.
Proof.
  cbv zeta.
  pose proof (localTSToObj_day l) as Hday.
  assert (Hmonth : 1 <= month (localTSToObj l) <= 12).
  { unfold localTSToObj. cbn [month].
    pose proof (proj1 (month_split _ _ (dayInYear_range (l / MS_PER_DAY)))). lia. }
  assert (Htod : 0 <= timeOfDay (localTSToObj l) < MS_PER_DAY).
  { unfold localTSToObj. cbn [timeOfDay]. apply Z.mod_pos_bound. reflexivity. }
  set (c := localTSToObj l) in *.
  destruct (Z.eqb_spec (month c) 12) as [E|E].
  - rewrite E. change (12 + 1) with 13.
    assert (E31 : daysInMonth (year c) 13 = 31) by reflexivity.
    assert (E31' : daysInMonth (year c + 1) 1 = 31) by reflexivity.
    rewrite E31, objToLocalTS_month_carry.
    pose proof (daysInMonth_bounds (year c) (month c)).
    rewrite localTSToObj_objToLocalTS; cbn [year month day timeOfDay];
      rewrite ?E31'; lia.
  - pose proof (daysInMonth_bounds (year c) (month c + 1)).
    rewrite localTSToObj_objToLocalTS; cbn [year month day timeOfDay]; lia.
Qed.

(** In a zone of fixed offset, [monthAddCalendar(dt, 1)] reads locally as
    the local reading of [dt] moved to the next month. *)
Lemma monthAddCalendar_fixed (off : Z) (dt : DateTime) :
  tsToObj (toMillis (monthAddCalendar (fixedZone off) dt 1)) off
  = localTSToObj
      (objToLocalTS
         {| year := year (tsToObj (toMillis dt) off);
            month := month (tsToObj (toMillis dt) off) + 1;
            day := Z.min (day (tsToObj (toMillis dt) off))
                     (daysInMonth (year (tsToObj (toMillis dt) off))
                        (month (tsToObj (toMillis dt) off) + 1));
            timeOfDay := timeOfDay (tsToObj (toMillis dt) off) |}).
Proof.
  unfold monthAddCalendar, plus_months, adjustTime, offsetOf, toMillis.
  cbn [fixedZone offset]. unfold tsToObj.
  rewrite Z.add_0_r, fixOffset_fixedZone. change (0 =? 0) with true. cbn [ts].
  f_equal. lia.
Qed.

(** X1.  [monthAddCalendar(dt, 1)] in a zone whose offset does not change,
    read in local calendar fields: the time of day is kept, the month is
    the next one (January of the next year after December), and the day is
    kept unless the next month is shorter, in which case it is that month's
    last day. *)
Theorem monthAddCalendar_local_fields (off : Z) (dt : DateTime) :
  let c := tsToObj (toMillis dt) off in
  let c' := tsToObj (toMillis (monthAddCalendar (fixedZone off) dt 1)) off in
  timeOfDay c' = timeOfDay c
  /\ year c' = (if month c =? 12 then year c + 1 else year c)
  /\ month c' = (if month c =? 12 then 1 else month c + 1)
  /\ day c' = Z.min (day c) (daysInMonth (year c') (month c'))
  /\ day c' <= day c.
Proof.
  cbv zeta. rewrite monthAddCalendar_fixed. unfold tsToObj, toMillis.
  exact (next_month_fields (ts dt + off * 60 * 1000)).
Qed.

(** ** The resolver and the component body *)

(** What the loop returns: either it never ran, or the window it returns is
    one calendar month long and was reached by rolling. *)
Lemma roll_loop_shape (z : Zone) (now : Z) (fuel : nat) :
  forall (s e : DateTime) (r : bool) (w : Window),
    roll_loop fuel z now s e r = Some w ->
    now < ts (end_ w)
    /\ ((now < ts e /\ w = {| start := s; end_ := e; rolled := r |})
        \/ (ts e <= now /\ rolled w = true
            /\ end_ w = monthAddCalendar z (start w) 1)).
Proof.
  induction fuel as [|fuel IH]; intros s e r w H; cbn [roll_loop] in H;
    unfold toMillis in H; destruct (Z.ltb_spec now (ts e)) as [Hlt|Hge];
    try discriminate.
  - injection H as <-. cbn [end_]. split; [exact Hlt|left; split; [exact Hlt|reflexivity]].
  - injection H as <-. cbn [end_]. split; [exact Hlt|left; split; [exact Hlt|reflexivity]].
  - apply IH in H. destruct H as [Hend [[_ ->]|(_ & Hr & He)]].
    + split; [exact Hend|]. right. split; [exact Hge|]. split; reflexivity.
    + split; [exact Hend|]. right. split; [exact Hge|]. split; assumption.
Qed.



(** X3.  The banner "Cycle renewed" is shown ([renewedState]) exactly when
    the stored cycle is inverted and [now] lies from its end up to its
    start: the resolver then returns the stored dates as they are.  For a
    cycle whose end is not before its start it is never shown, whatever
    [now] is and however far the window was rolled. *)
Theorem renewedState_only_inverted (cycle : Cycle) (now : DateTime)
  (fuel : nat) (w : Window) :
  rollCycleToNow fuel cycle now = Some w ->
  renewedState now w
  = (toMillis now <? startISO cycle) && (endISO cycle <=? toMillis now)
  /\ (startISO cycle <= endISO cycle -> renewedState now w = false).
Proof.
  intros Hw.
  assert (E : renewedState now w
              = (toMillis now <? startISO cycle) && (endISO cycle <=? toMillis now)).
  { unfold rollCycleToNow, renewedState, toMillis, inZone in *.
    cbn [atInstant ts] in *.
    destruct (Z.ltb_spec (ts now) (startISO cycle)) as [Hpre|Hin].
    - injection Hw as <-. reflexivity.
    - apply roll_loop_shape in Hw. destruct Hw as [Hend _].
      cbn [andb]. apply Z.leb_gt. exact Hend. }
  split; [exact E|]. intros Hord. rewrite E.
  destruct (Z.ltb_spec (toMillis now) (startISO cycle)) as [Hpre|Hin];
    [|reflexivity].
  cbn [andb]. apply Z.leb_gt. lia.
Qed.

Lemma renewedState_only_inverted_witness :
  renewedState (atInstant DEFAULT_ZONE 1758737700000)
    {| start := {| ts := 1758331980000 |}; end_ := {| ts := 1760923980000 |};
       rolled := true |}
  = (toMillis (atInstant DEFAULT_ZONE 1758737700000) <? startISO defaultCycle)
    && (endISO defaultCycle <=? toMillis (atInstant DEFAULT_ZONE 1758737700000))
  /\ (startISO defaultCycle <= endISO defaultCycle ->
      renewedState (atInstant DEFAULT_ZONE 1758737700000)
        {| start := {| ts := 1758331980000 |}; end_ := {| ts := 1760923980000 |};
           rolled := true |} = false).
Proof.
  apply (renewedState_only_inverted defaultCycle
           (atInstant DEFAULT_ZONE 1758737700000) 1).
  vm_compute. reflexivity.
Defined.

(** X4.  The flag [rolled] tells whether the window was moved: it is set
    exactly when [now] is at or after both anchor dates.  A window that was
    moved is one calendar month long, from its start; a window that was not
    moved is the stored pair of dates. *)
Theorem rollCycleToNow_rolled (cycle : Cycle) (now : DateTime) (fuel : nat)
  (w : Window) :
  rollCycleToNow fuel cycle now = Some w ->
  rolled w = (startISO cycle <=? toMillis now) && (endISO cycle <=? toMillis now)
  /\ (rolled w = true ->
      end_ w = monthAddCalendar (timezone cycle) (start w) 1)
  /\ (rolled w = false ->
      start w = inZone (startISO cycle) (timezone cycle)
      /\ end_ w = inZone (endISO cycle) (timezone cycle)).
Proof.
  intros Hw. unfold rollCycleToNow, toMillis, inZone in *.
  cbn [atInstant ts] in *.
  destruct (Z.ltb_spec (ts now) (startISO cycle)) as [Hpre|Hin].
  - injection Hw as <-. cbn [rolled start end_].
    split; [|split; [discriminate|auto]].
    symmetry. apply andb_false_intro1. apply Z.leb_gt. exact Hpre.
  - apply roll_loop_shape in Hw.
    destruct Hw as [_ [[Hlt ->]|(Hge & Hr & He)]]; cbn [rolled start end_ ts] in *.
    + split; [|split; [discriminate|auto]].
      symmetry. apply andb_false_intro2. apply Z.leb_gt. exact Hlt.
    + split; [|split; [intros _; exact He|rewrite Hr; discriminate]].
      rewrite Hr. symmetry. apply andb_true_intro.
      split; apply Z.leb_le; assumption.
Qed.

Lemma rollCycleToNow_rolled_witness :
  rolled {| start := {| ts := 1758331980000 |}; end_ := {| ts := 1760923980000 |};
            rolled := true |}
  = (startISO defaultCycle <=? toMillis (atInstant DEFAULT_ZONE 1758737700000))
    && (endISO defaultCycle <=? toMillis (atInstant DEFAULT_ZONE 1758737700000))
  /\ (rolled {| start := {| ts := 1758331980000 |};
                end_ := {| ts := 1760923980000 |}; rolled := true |} = true ->
      end_ {| start := {| ts := 1758331980000 |};
              end_ := {| ts := 1760923980000 |}; rolled := true |}
      = monthAddCalendar (timezone defaultCycle)
          (start {| start := {| ts := 1758331980000 |};
                    end_ := {| ts := 1760923980000 |}; rolled := true |}) 1)
  /\ (rolled {| start := {| ts := 1758331980000 |};
                end_ := {| ts := 1760923980000 |}; rolled := true |} = false ->
      start {| start := {| ts := 1758331980000 |};
               end_ := {| ts := 1760923980000 |}; rolled := true |}
      = inZone (startISO defaultCycle) (timezone defaultCycle)
      /\ end_ {| start := {| ts := 1758331980000 |};
                 end_ := {| ts := 1760923980000 |}; rolled := true |}
         = inZone (endISO defaultCycle) (timezone defaultCycle)).
Proof.
  apply (rollCycleToNow_rolled defaultCycle
           (atInstant DEFAULT_ZONE 1758737700000) 1).
  vm_compute. reflexivity.
Defined.

(** ** The handlers of the dates *)






(** Each handler of the dates keeps a cycle in order. *)
Lemma applyDateAction_ordered (c : Cycle) (a : DateAction) :
  zone_bounded (timezone c) -> startISO c < endISO c ->
  zone_bounded (timezone (applyDateAction c a))
  /\ startISO (applyDateAction c a) < endISO (applyDateAction c a).
Proof.
  intros Hz Hord. destruct a as [s e| |]; cbn [applyDateAction].
  - unfold onEditDates. destruct s as [s0|], e as [e0|]; cbn [fst]; auto.
    destruct (Z.leb_spec (toMillis e0) (toMillis s0)); cbn [fst]; auto.
  - split; [exact Hz|].
    pose proof (plus_months_advances (timezone c) Hz
                  (atInstant (timezone c) (startISO c))) as H1.
    unfold recomputeEnd, monthAddCalendar, toMillis, inZone.
    cbn [startISO endISO atInstant ts] in *. unfold MIN_STEP, MS_PER_DAY, MS_PER_HOUR, MS_PER_MIN in H1. lia.
  - split; [exact DEFAULT_ZONE_bounded|]. vm_compute. reflexivity.
Qed.

(** A resolved window of a cycle in order has its end after its start. *)
Lemma rollCycleToNow_positive (cycle : Cycle) (now : DateTime) (fuel : nat)
  (w : Window) :
  zone_bounded (timezone cycle) ->
  startISO cycle < endISO cycle ->
  rollCycleToNow fuel cycle now = Some w ->
  toMillis (start w) < toMillis (end_ w).
Proof.
  intros Hz Hord Hw. unfold rollCycleToNow, toMillis, inZone in *.
  cbn [atInstant ts] in *.
  destruct (Z.ltb_spec (ts now) (startISO cycle)) as [Hpre|Hin].
  - injection Hw as <-. exact Hord.
  - pose proof (proj1 (roll_loop_spec (timezone cycle) Hz (ts now) fuel
                    (atInstant (timezone cycle) (startISO cycle))
                    (atInstant (timezone cycle) (endISO cycle)) false w
                    Hin Hw)). lia.
Qed.

(** X6.  Starting from a cycle whose end is after its start, no sequence
    of date edits, recomputations and resets leads to a cycle out of order:
    [onEditDates] refuses an end at or before the start, the other two set
    an end after the start.  So the window resolved afterwards, at any
    [now], has a positive length and the division of [progress] is by a
    positive number. *)
Theorem date_handlers_keep_order (c : Cycle) (actions : list DateAction)
  (now : DateTime) (fuel : nat) (w : Window) :
  zone_bounded (timezone c) ->
  startISO c < endISO c ->
  rollCycleToNow fuel (fold_left applyDateAction actions c) now = Some w ->
  startISO (fold_left applyDateAction actions c)
    < endISO (fold_left applyDateAction actions c)
  /\ 0 < totalMs (computeProgress (start w) (end_ w) now).
Proof.
  intros Hz Hord Hw.
  assert (Hinv : zone_bounded (timezone (fold_left applyDateAction actions c))
                 /\ startISO (fold_left applyDateAction actions c)
                    < endISO (fold_left applyDateAction actions c)).
  { clear Hw. revert c Hz Hord.
    induction actions as [|a actions IH]; intros c Hz Hord; cbn [fold_left].
    - split; assumption.
    - destruct (applyDateAction_ordered c a Hz Hord) as [Hz' Hord'].
      exact (IH _ Hz' Hord'). }
  destruct Hinv as [Hz' Hord']. split; [exact Hord'|].
  pose proof (rollCycleToNow_positive _ now fuel w Hz' Hord' Hw) as Hpos.
  unfold computeProgress. cbn [totalMs]. lia.
Qed.

(** The default cycle after a refused edit (end before start), an accepted
    one and a recomputation, seen a month later. *)
Lemma date_handlers_keep_order_witness :
  startISO (fold_left applyDateAction
              [EditDates (Some {| ts := DEFAULT_END |}) (Some {| ts := DEFAULT_START |});
               EditDates (Some {| ts := DEFAULT_START + 60000 |})
                         (Some {| ts := DEFAULT_END |});
               RecomputeEnd] defaultCycle)
  < endISO (fold_left applyDateAction
              [EditDates (Some {| ts := DEFAULT_END |}) (Some {| ts := DEFAULT_START |});
               EditDates (Some {| ts := DEFAULT_START + 60000 |})
                         (Some {| ts := DEFAULT_END |});
               RecomputeEnd] defaultCycle)
  /\ 0 < totalMs (computeProgress {| ts := 1758332040000 |}
                    {| ts := 1760924040000 |}
                    (atInstant DEFAULT_ZONE 1758737700000)).
Proof.
  apply (date_handlers_keep_order defaultCycle
           [EditDates (Some {| ts := DEFAULT_END |}) (Some {| ts := DEFAULT_START |});
            EditDates (Some {| ts := DEFAULT_START + 60000 |})
                      (Some {| ts := DEFAULT_END |});
            RecomputeEnd]
           (atInstant DEFAULT_ZONE 1758737700000) 1
           {| start := {| ts := 1758332040000 |};
              end_ := {| ts := 1760924040000 |}; rolled := true |}).
  - exact DEFAULT_ZONE_bounded.
  - vm_compute. reflexivity.
  - vm_compute. reflexivity.
Defined.

(** ** The two progress calculations *)

(** X7.  The first component, [App], takes [remaining = total - elapsed];
    [GPTDeadlineApp] clamps [end - now] instead.  The two agree, and
    [elapsedMs + remainingMs = totalMs] holds in [GPTDeadlineApp], exactly
    when the end of the window is not before its start. *)
Theorem computeProgress_App_progress (start0 end0 now : DateTime) :
  (computeProgress start0 end0 now = App_progress start0 end0 now
   <-> toMillis start0 <= toMillis end0)
  /\ (elapsedMs (computeProgress start0 end0 now)
      + remainingMs (computeProgress start0 end0 now)
      = totalMs (computeProgress start0 end0 now)
      <-> toMillis start0 <= toMillis end0).
Proof.
  unfold computeProgress, App_progress. cbn [elapsedMs remainingMs totalMs].
  unfold clamp. split; split.
  - intros E. injection E as E. lia.
  - intros H. f_equal. lia.
  - lia.
  - lia.
Qed.

(** ** Breaking a duration down *)

Lemma durationBreakdown_fields (ms : Z) :
  days (durationBreakdown ms) = ms / 1000 / 86400
  /\ hours (durationBreakdown ms) = ms / 1000 mod 86400 / 3600
  /\ minutes (durationBreakdown ms) = ms / 1000 mod 3600 / 60
  /\ seconds (durationBreakdown ms) = ms / 1000 mod 60.
Proof.
  unfold durationBreakdown. cbn [days hours minutes seconds].
  unfold MS_PER_DAY, MS_PER_HOUR, MS_PER_MIN.
  Z.div_mod_to_equations. lia.
Qed.

(** X8.  [durationBreakdown(ms)] of any whole number of milliseconds,
    negative ones included: hours, minutes and seconds are within
    0..23, 0..59 and 0..59, and the four parts add up to [ms] rounded down
    to a whole second. *)
Theorem durationBreakdown_parts (ms : Z) :
  0 <= hours (durationBreakdown ms) < 24
  /\ 0 <= minutes (durationBreakdown ms) < 60
  /\ 0 <= seconds (durationBreakdown ms) < 60
  /\ breakdownMs (durationBreakdown ms) = 1000 * (ms / 1000)
  /\ (0 <= days (durationBreakdown ms) <-> 0 <= ms).
Proof.
  unfold breakdownMs, durationBreakdown. cbn [days hours minutes seconds].
  unfold MS_PER_DAY, MS_PER_HOUR, MS_PER_MIN.
  Z.div_mod_to_equations. lia.
Qed.

(** X9.  On a duration that is not negative, [msToParts] of the first
    component and [durationBreakdown] give the same parts. *)
Theorem msToParts_durationBreakdown (ms : Z) :
  0 <= ms -> msToParts ms = durationBreakdown ms.
Proof.
  intros Hms.
  destruct (durationBreakdown_fields ms) as (Ed & Eh & Em & Es).
  destruct (durationBreakdown ms) as [d h m s] eqn:E.
  cbn [days hours minutes seconds] in *. subst d h m s.
  unfold msToParts.
  assert (H0 : 0 <= ms / 1000) by (apply Z.div_pos; lia).
  rewrite !Z.rem_mod_nonneg by lia. reflexivity.
Qed.

Lemma msToParts_durationBreakdown_witness :
  msToParts (DEFAULT_END - DEFAULT_START)
  = durationBreakdown (DEFAULT_END - DEFAULT_START).
Proof.
  apply (msToParts_durationBreakdown (DEFAULT_END - DEFAULT_START)).
  vm_compute. discriminate.
Defined.

(** ** The order of the milestones *)

Lemma halfway_mean (z : Zone) (start0 end0 : DateTime) :
  (halfway (milestoneTimes z start0 end0)
   == (inject_Z (toMillis start0) + inject_Z (toMillis end0)) / 2)%Q.
Proof.
  unfold milestoneTimes, plus_milliseconds, toMillis. cbn [halfway].
  rewrite adjustTime_clock, Z.add_0_r.
  unfold Z.sub. rewrite inject_Z_plus, inject_Z_opp. field.
Qed.

Lemma threeDays_bounds (z : Zone) (start0 end0 : DateTime) :
  zone_bounded z ->
  toMillis end0 - 5 * MS_PER_DAY
  <= toMillis (threeDays (milestoneTimes z start0 end0))
  <= toMillis end0 - MS_PER_DAY.
Proof.
  intros Hz. unfold milestoneTimes. cbn [threeDays].
  rewrite minus_days_fixOffset. unfold toMillis, offsetOf. cbn [ts].
  pose proof (Hz (ts end0)) as Ho.
  pose proof (fixOffset_bounds z
                (ts end0 + offset z (ts end0) * 60 * 1000 - 3 * MS_PER_DAY)
                (offset z (ts end0)) Hz Ho) as [Ht _].
  unfold MAX_OFFSET, MS_PER_DAY, MS_PER_HOUR, MS_PER_MIN in *. lia.
Qed.

(** X10.  The milestones of a window, in a zone whose offsets stay within
    a day of UTC: [halfway] is the mean of start and end; [threeDays] lies
    from five days to one day before the end, so never after [lastDay];
    [lastDay] is before the instant the renewal reminder is set for, which
    is before the end; and in a window of more than ten days [halfway]
    comes before [threeDays]. *)
Theorem milestoneTimes_order (z : Zone) (start0 end0 : DateTime) :
  zone_bounded z ->
  (halfway (milestoneTimes z start0 end0)
   == (inject_Z (toMillis start0) + inject_Z (toMillis end0)) / 2)%Q
  /\ toMillis end0 - 5 * MS_PER_DAY
     <= toMillis (threeDays (milestoneTimes z start0 end0))
     <= toMillis (lastDay (milestoneTimes z start0 end0))
  /\ toMillis (lastDay (milestoneTimes z start0 end0))
     < toMillis (minus_minutes z (renewal (milestoneTimes z start0 end0)) 5)
     < toMillis (renewal (milestoneTimes z start0 end0))
  /\ (10 * MS_PER_DAY < toMillis end0 - toMillis start0 ->
      (halfway (milestoneTimes z start0 end0)
       < instantOf (threeDays (milestoneTimes z start0 end0)))%Q).
Proof.
  intros Hz.
  pose proof (threeDays_bounds z start0 end0 Hz) as H3.
  assert (Hl : toMillis (lastDay (milestoneTimes z start0 end0))
               = toMillis end0 - MS_PER_DAY).
  { unfold milestoneTimes, minus_hours, toMillis. cbn [lastDay].
    rewrite adjustTime_clock. unfold MS_PER_DAY. lia. }
  split; [apply halfway_mean|]. split; [lia|]. split.
  - rewrite Hl, minus_minutes_instant. cbn [milestoneTimes renewal].
    unfold MS_PER_DAY, MS_PER_HOUR, MS_PER_MIN. lia.
  - intros Hlen. rewrite halfway_mean. unfold instantOf.
    apply Qlt_le_trans with (inject_Z (toMillis end0 - 5 * MS_PER_DAY)).
    + assert (Hq : (inject_Z (toMillis start0 + 10 * MS_PER_DAY)
                    < inject_Z (toMillis end0))%Q)
        by (rewrite <- Zlt_Qlt; lia).
      unfold Z.sub. rewrite inject_Z_plus, inject_Z_opp.
      rewrite inject_Z_plus in Hq.
      replace (10 * MS_PER_DAY) with (5 * MS_PER_DAY + 5 * MS_PER_DAY) in Hq by lia.
      rewrite inject_Z_plus in Hq.
      generalize dependent (inject_Z (5 * MS_PER_DAY)).
      generalize (inject_Z (toMillis start0)) (inject_Z (toMillis end0)).
      intros a b d Hq. apply Qlt_shift_div_r; [reflexivity|]. lra.
    + rewrite <- Zle_Qle. lia.
Qed.

Lemma milestoneTimes_order_witness :
  (halfway (milestoneTimes DEFAULT_ZONE (inZone DEFAULT_START DEFAULT_ZONE)
              (inZone DEFAULT_END DEFAULT_ZONE))
   == (inject_Z (toMillis (inZone DEFAULT_START DEFAULT_ZONE))
       + inject_Z (toMillis (inZone DEFAULT_END DEFAULT_ZONE))) / 2)%Q
  /\ toMillis (inZone DEFAULT_END DEFAULT_ZONE) - 5 * MS_PER_DAY
     <= toMillis (threeDays (milestoneTimes DEFAULT_ZONE
                               (inZone DEFAULT_START DEFAULT_ZONE)
                               (inZone DEFAULT_END DEFAULT_ZONE)))
     <= toMillis (lastDay (milestoneTimes DEFAULT_ZONE
                             (inZone DEFAULT_START DEFAULT_ZONE)
                             (inZone DEFAULT_END DEFAULT_ZONE)))
  /\ toMillis (lastDay (milestoneTimes DEFAULT_ZONE
                          (inZone DEFAULT_START DEFAULT_ZONE)
                          (inZone DEFAULT_END DEFAULT_ZONE)))
     < toMillis (minus_minutes DEFAULT_ZONE
                   (renewal (milestoneTimes DEFAULT_ZONE
                               (inZone DEFAULT_START DEFAULT_ZONE)
                               (inZone DEFAULT_END DEFAULT_ZONE))) 5)
     < toMillis (renewal (milestoneTimes DEFAULT_ZONE
                            (inZone DEFAULT_START DEFAULT_ZONE)
                            (inZone DEFAULT_END DEFAULT_ZONE)))
  /\ (10 * MS_PER_DAY < toMillis (inZone DEFAULT_END DEFAULT_ZONE)
                        - toMillis (inZone DEFAULT_START DEFAULT_ZONE) ->
      (halfway (milestoneTimes DEFAULT_ZONE (inZone DEFAULT_START DEFAULT_ZONE)
                  (inZone DEFAULT_END DEFAULT_ZONE))
       < instantOf (threeDays (milestoneTimes DEFAULT_ZONE
                                 (inZone DEFAULT_START DEFAULT_ZONE)
                                 (inZone DEFAULT_END DEFAULT_ZONE))))%Q).
Proof.
  apply (milestoneTimes_order DEFAULT_ZONE (inZone DEFAULT_START DEFAULT_ZONE)
           (inZone DEFAULT_END DEFAULT_ZONE)).
  exact DEFAULT_ZONE_bounded.
Defined.

(** ** Saving and loading the settings *)

(** X11.  What [saveState] wrote, [loadState] reads back: when the storage
    took the write and [JSON.parse] inverts [JSON.stringify] on the saved
    record, loading under the same key gives the saved record over the
    defaults, and the saved record itself when it has every property the
    defaults have. *)
Theorem saveState_loadState (parse : string -> option JSON)
  (accepts : gmap string string -> bool) (stringify : JSON -> string)
  (table : gmap string string) (key0 : string)
  (val fallback : gmap string JSON) :
  accepts (<[key0 := stringify (JObject val)]> table) = true ->
  parse (stringify (JObject val)) = Some (JObject val) ->
  stringify (JObject val) <> "" ->
  loadState parse (saveState accepts stringify (Some table) key0 val) key0 fallback
  = val ∪ fallback
  /\ ((forall k, is_Some (fallback !! k) -> is_Some (val !! k)) ->
      loadState parse (saveState accepts stringify (Some table) key0 val)
        key0 fallback = val).
Proof.
  intros Hacc Hparse Hne.
  assert (E : loadState parse (saveState accepts stringify (Some table) key0 val)
                key0 fallback = val ∪ fallback).
  { unfold saveState, setItem. rewrite Hacc.
    unfold loadState, loadState_try, JSON_parse, getItem, cbind.
    rewrite lookup_insert_eq.
    destruct (String.eqb_spec (stringify (JObject val)) "") as [E|_];
      [contradiction|].
    rewrite Hparse. reflexivity. }
  split; [exact E|]. intros Hdom. rewrite E.
  apply map_eq. intros k. rewrite lookup_union.
  destruct (val !! k) as [v|] eqn:Ev, (fallback !! k) as [d|] eqn:Ed;
    try reflexivity.
  destruct (Hdom k) as [v Hv]; [rewrite Ed; eauto|]. congruence.
Qed.

Lemma saveState_loadState_witness :
  loadState parsePartial
    (saveState (fun _ => true) (fun _ => partialText) (Some ∅) CYCLE_KEY
       (<["reminders" := JObject (<["halfway" := JBool false]> ∅)]> ∅))
    CYCLE_KEY DEFAULT_CYCLE
  = <["reminders" := JObject (<["halfway" := JBool false]> ∅)]> ∅ ∪ DEFAULT_CYCLE
  /\ ((forall k, is_Some (DEFAULT_CYCLE !! k) ->
                 is_Some ((<["reminders" := JObject (<["halfway" := JBool false]> ∅)]> ∅
                           : gmap string JSON) !! k)) ->
      loadState parsePartial
        (saveState (fun _ => true) (fun _ => partialText) (Some ∅) CYCLE_KEY
           (<["reminders" := JObject (<["halfway" := JBool false]> ∅)]> ∅))
        CYCLE_KEY DEFAULT_CYCLE
      = <["reminders" := JObject (<["halfway" := JBool false]> ∅)]> ∅).
Proof.
  apply (saveState_loadState parsePartial (fun _ => true) (fun _ => partialText)
           ∅ CYCLE_KEY
           (<["reminders" := JObject (<["halfway" := JBool false]> ∅)]> ∅)
           DEFAULT_CYCLE).
  - reflexivity.
  - vm_compute. reflexivity.
  - exact partialText_nonempty.
Defined.

(** X12.  [saveState] writes one key and nothing else: what is stored
    under any other key reads as before; and a write the storage does not
    take (no storage, or the table refused) leaves the storage as it was,
    with no exception leaving [saveState]. *)
Theorem saveState_other_keys (parse : string -> option JSON)
  (accepts : gmap string string -> bool) (stringify : JSON -> string)
  (st : Storage) (key0 : string) (val : gmap string JSON) :
  (forall key1 fallback, key1 <> key0 ->
     loadState parse (saveState accepts stringify st key0 val) key1 fallback
     = loadState parse st key1 fallback)
  /\ (st = None -> saveState accepts stringify st key0 val = None)
  /\ (forall table, st = Some table ->
        accepts (<[key0 := stringify (JObject val)]> table) = false ->
        saveState accepts stringify st key0 val = Some table).
Proof.
  unfold saveState, setItem. split; [|split].
  - intros key1 fallback Hne. destruct st as [table|]; [|reflexivity].
    destruct (accepts _); [|reflexivity].
    unfold loadState, loadState_try, getItem, cbind.
    rewrite lookup_insert_ne by congruence. reflexivity.
  - intros ->. reflexivity.
  - intros table -> ->. reflexivity.
Qed.

(** ** The handlers of the settings *)

Lemma remindersOf_updateReminder (k : string) (v : JSON) (c : gmap string JSON) :
  remindersOf (updateReminder k v c) = <[k := v]> (spreadOf (c !! "reminders")).
Proof. unfold remindersOf, updateReminder. rewrite lookup_insert_eq. reflexivity. Qed.

(** X13.  [updateReminder(k, v)] sets the flag [k] to [v] and nothing else:
    the other flags and the other settings stay; setting one flag twice
    keeps the last value, and two different flags can be set in either
    order.  [toggleTheme] and [toggleHourFmt] leave the flags alone. *)
Theorem updateReminder_flags (k : string) (v : JSON) (c : gmap string JSON) :
  remindersOf (updateReminder k v c) !! k = Some v
  /\ (forall k', k' <> k ->
        remindersOf (updateReminder k v c) !! k' = spreadOf (c !! "reminders") !! k')
  /\ (forall p, p <> "reminders" -> updateReminder k v c !! p = c !! p)
  /\ (forall v', updateReminder k v' (updateReminder k v c) = updateReminder k v' c)
  /\ (forall k' v', k' <> k ->
        updateReminder k' v' (updateReminder k v c)
        = updateReminder k v (updateReminder k' v' c))
  /\ (forall t, remindersOf (toggleTheme t c) = remindersOf c)
  /\ (forall f, remindersOf (toggleHourFmt f c) = remindersOf c).
Proof.
  split; [|split; [|split; [|split; [|split; [|split]]]]].
  - rewrite remindersOf_updateReminder. apply lookup_insert_eq.
  - intros k' Hne. rewrite remindersOf_updateReminder.
    apply lookup_insert_ne. congruence.
  - intros p Hne. unfold updateReminder. apply lookup_insert_ne. congruence.
  - intros v'. unfold updateReminder.
    rewrite lookup_insert_eq. cbn [spreadOf spreadProps].
    rewrite !insert_insert_eq. reflexivity.
  - intros k' v' Hne. unfold updateReminder. rewrite !lookup_insert_eq.
    cbn [spreadOf spreadProps]. rewrite !insert_insert_eq.
    f_equal. f_equal. apply insert_insert_ne. exact Hne.
  - intros t. unfold remindersOf, toggleTheme.
    rewrite lookup_insert_ne by discriminate. reflexivity.
  - intros f. unfold remindersOf, toggleHourFmt.
    rewrite lookup_insert_ne by discriminate. reflexivity.
Qed.

(** ** Switching a reminder off *)

(** Re-arming a page on which no request is pending and every timeout is
    known: the pending timeouts are then the reminders of this run. *)
Lemma rearm_settled_timeouts (z : Zone) (enabled : gmap string JSON)
  (start0 end0 : DateTime) (clock : string -> Z) (w : World) :
  settled w -> tracked w ->
  List.map reminder (timeouts (rearm z enabled start0 end0 clock w))
  = armedReminders z enabled start0 end0 clock
  /\ awaiting (rearm z enabled start0 end0 clock w) = awaiting w.
Proof.
  intros Hs Htr. unfold rearm, useReminders_cleanup.
  rewrite useReminders_effect_settled by (apply clearPrevious_settled; exact Hs).
  set (c := clearPrevious (clearPrevious w)).
  assert (Hc : timeouts c = []).
  { apply clearPrevious_tracked. intros x Hx.
    rewrite (clearPrevious_tracked w Htr) in Hx. destruct Hx. }
  split.
  - rewrite armAll_reminders, Hc. reflexivity.
  - rewrite armAll_awaiting. reflexivity.
Qed.

Lemma reminderFor_In (enabled : gmap string JSON) (nowRef : Z) (k : string)
  (at_ : Instant) (t b : string) (r : Reminder) :
  In r (reminderFor enabled nowRef k at_ t b) ->
  truthy (enabled !! key r) = true.
Proof.
  unfold reminderFor, wanted.
  destruct (Qle_bool (at_ - inject_Z nowRef) 0); cbn [orb negb]; [intros []|].
  destruct (truthy (enabled !! k)) eqn:E; cbn [negb]; [|intros []].
  intros [<-|[]]. exact E.
Qed.

Lemma armedReminders_In (z : Zone) (enabled : gmap string JSON)
  (start0 end0 : DateTime) (clock : string -> Z) (r : Reminder) :
  In r (armedReminders z enabled start0 end0 clock) ->
  truthy (enabled !! key r) = true.
Proof.
  unfold armedReminders. cbv zeta. rewrite !List.in_app_iff.
  intros [H|[H|[H|H]]]; exact (reminderFor_In _ _ _ _ _ _ r H).
Qed.

(** X14.  Switching a reminder off in the settings cancels it: after
    [updateReminder(k, false)] the effect of [useReminders] runs again, and
    on a page with no permission request pending and every timeout known to
    [timers.current], no timeout is left for [k] and no reminder for [k] is
    shown from then on. *)
Theorem updateReminder_off_never_shown (z : Zone) (k : string)
  (c : gmap string JSON) (start0 end0 : DateTime) (clock : string -> Z)
  (w : World) :
  settled w -> tracked w -> awaiting w = [] ->
  timeoutsFor k
    (timeouts (rearm z (remindersOf (updateReminder k (JBool false) c))
                 start0 end0 clock w)) = []
  /\ neverShown k
       (rearm z (remindersOf (updateReminder k (JBool false) c))
          start0 end0 clock w).
Proof.
  intros Hs Htr Haw.
  set (enabled := remindersOf (updateReminder k (JBool false) c)).
  destruct (rearm_settled_timeouts z enabled start0 end0 clock w Hs Htr)
    as [Hrem Hawait].
  assert (Hoff : truthy (enabled !! k) = false).
  { unfold enabled. rewrite remindersOf_updateReminder, lookup_insert_eq.
    reflexivity. }
  assert (Hq : timeoutsFor k (timeouts (rearm z enabled start0 end0 clock w)) = []).
  { unfold timeoutsFor.
    match goal with |- ?l = [] => destruct l as [|x rest] eqn:E end;
      [reflexivity|exfalso].
    assert (Hx : In x (x :: rest)) by (left; reflexivity).
    rewrite <- E in Hx. apply List.filter_In in Hx. destruct Hx as [Hin Hk].
    apply String.eqb_eq in Hk.
    assert (Hr : In (reminder x) (armedReminders z enabled start0 end0 clock)).
    { rewrite <- Hrem. apply List.in_map. exact Hin. }
    apply armedReminders_In in Hr. rewrite Hk in Hr. congruence. }
  split; [exact Hq|].
  apply quietFor_neverShown. split; [exact Hq|].
  rewrite Hawait, Haw. reflexivity.
Qed.

Lemma tracked_freshWorld (api : bool) (p : NotificationPermission) :
  tracked (freshWorld api p).
Proof. intros x []. Qed.

Lemma updateReminder_off_never_shown_witness :
  timeoutsFor "lastDay"
    (timeouts (rearm DEFAULT_ZONE
                 (remindersOf (updateReminder "lastDay" (JBool false) DEFAULT_CYCLE))
                 (inZone DEFAULT_START DEFAULT_ZONE) (inZone DEFAULT_END DEFAULT_ZONE)
                 (still (DEFAULT_START + 5))
                 (freshWorld true PermissionGranted))) = []
  /\ neverShown "lastDay"
       (rearm DEFAULT_ZONE
          (remindersOf (updateReminder "lastDay" (JBool false) DEFAULT_CYCLE))
          (inZone DEFAULT_START DEFAULT_ZONE) (inZone DEFAULT_END DEFAULT_ZONE)
          (still (DEFAULT_START + 5))
          (freshWorld true PermissionGranted)).
Proof.
  apply (updateReminder_off_never_shown DEFAULT_ZONE "lastDay" DEFAULT_CYCLE
           (inZone DEFAULT_START DEFAULT_ZONE) (inZone DEFAULT_END DEFAULT_ZONE)
           (still (DEFAULT_START + 5)) (freshWorld true PermissionGranted)).
  - reflexivity.
  - apply tracked_freshWorld.
  - reflexivity.
Defined.

(** ** A reminder scheduled while the permission prompt is open *)




(** ** What the teardown cancels *)

(** X16.  The teardown of [useReminders] cancels exactly the timeouts whose
    id is recorded in [timers.current]: a pending timeout survives it if
    and only if its id is not recorded there (or is 0).  It empties
    [timers.current] and does not reach the calls of [schedule] that are
    still waiting for the permission prompt. *)
Theorem clearPrevious_exact (w : World) (x : Timeout) :
  (In x (timeouts (clearPrevious w))
   <-> In x (timeouts w)
       /\ ~ (timeoutId x <> 0
             /\ exists k, timers_current w !! k = Some (timeoutId x)))
  /\ timers_current (clearPrevious w) = ∅
  /\ awaiting (clearPrevious w) = awaiting w.
Proof.
  split; [|split; reflexivity].
  unfold clearPrevious. cbn [timeouts]. rewrite clearAll_In.
  assert (Hids : In (timeoutId x) (map_to_list (timers_current w)).*2
                 <-> exists k, timers_current w !! k = Some (timeoutId x)).
  { rewrite <- list_elem_of_In, list_elem_of_fmap. split.
    - intros [[k id] [E Hin]]. cbn in E. subst id.
      exists k. apply elem_of_map_to_list. exact Hin.
    - intros [k Hk]. exists (k, timeoutId x). split; [reflexivity|].
      apply elem_of_map_to_list. exact Hk. }
  rewrite Hids. reflexivity.
Qed.

(** ** Delays longer than a timer waits for *)



(** ** Toasts *)

Lemma applyToastUpdate_length (l : list Toast) (u : ToastUpdate) :
  (length l <= 4)%nat -> (length (applyToastUpdate l u) <= 4)%nat.
Proof.
  intros H. destruct u as [t|id]; cbn [applyToastUpdate].
  - unfold pushToast. apply firstn_le_length.
  - unfold dismissToast.
    eapply Nat.le_trans; [apply filter_length_le|exact H].
Qed.

(** X18.  However many reminders fire and whatever is dismissed, at most
    four toasts are on the screen.  A new toast is put first and the ones
    after it keep their order; on a full list the oldest is dropped.
    Dismissing removes every toast of that id and no other. *)
Theorem toasts_at_most_four (updates : list ToastUpdate) (t : Toast)
  (l : list Toast) (id : string) :
  (length (fold_left applyToastUpdate updates []) <= 4)%nat
  /\ pushToast t l = t :: firstn 3 l
  /\ (forall t', In t' (dismissToast id l) <-> In t' l /\ toastId t' <> id).
Proof.
  split; [|split].
  - assert (H : forall l0 : list Toast, (length l0 <= 4)%nat ->
                  (length (fold_left applyToastUpdate updates l0) <= 4)%nat).
    { induction updates as [|u updates IH]; intros l0 Hl; cbn [fold_left].
      - exact Hl.
      - apply IH. apply applyToastUpdate_length. exact Hl. }
    apply H. cbn. lia.
  - reflexivity.
  - intros t'. unfold dismissToast. rewrite List.filter_In.
    destruct (String.eqb_spec (toastId t') id); cbn [negb];
      intuition congruence.
Qed.

(** ** The rotating tip *)

Lemma useRotatingTip_index (n : nat) :
  Nat.iter n useRotatingTip_tick 0%nat = Nat.modulo n 6.
Proof.
  induction n as [|n IH].
  - reflexivity.
  - cbn [Nat.iter nat_rect]. change (Nat.iter n useRotatingTip_tick 0%nat)
      with (nat_rect (fun _ => nat) 0%nat (fun _ => useRotatingTip_tick) n) in IH.
    rewrite IH. unfold useRotatingTip_tick. change (length TIPS) with 6%nat.
    rewrite Nat.Div0.add_mod_idemp_l. replace (n + 1)%nat with (S n) by lia.
    reflexivity.
Qed.

(** X19.  The rotating tip never runs off the list: after any number of
    ticks the hook returns one of the six tips, the one at the number of
    ticks modulo six; so the tips come round in order. *)
Theorem useRotatingTip_cycles (n : nat) :
  useRotatingTip n = nth_error TIPS (Nat.modulo n 6)
  /\ (exists tip, useRotatingTip n = Some tip)
  /\ useRotatingTip (n + 6) = useRotatingTip n.
Proof.
  unfold useRotatingTip. rewrite !useRotatingTip_index.
  split; [reflexivity|]. split.
  - pose proof (Nat.mod_upper_bound n 6 ltac:(discriminate)) as Hlt.
    destruct (nth_error TIPS (Nat.modulo n 6)) as [tip|] eqn:E; [eauto|].
    apply nth_error_None in E. change (length TIPS) with 6%nat in E. lia.
  - replace (n + 6)%nat with (n + 1 * 6)%nat by lia.
    rewrite Nat.Div0.mod_add. reflexivity.
Qed.

(** ** The QA clock *)

(** X20.  In QA mode the component's clock does not read the wall clock:
    after [n] runs of the interval it stands [n] seconds after the instant
    it started from, whatever the wall clock showed.  Outside QA mode it
    stands at the last reading of the wall clock. *)
Theorem useNowTick_run_clock (init : DateTime) (walls : list Z) (wall : Z) :
  toMillis (useNowTick_run true init walls)
  = toMillis init + 1000 * Z.of_nat (length walls)
  /\ toMillis (useNowTick_run false init (walls ++ [wall])) = wall.
Proof.
  unfold useNowTick_run. split.
  - revert init. induction walls as [|x walls IH]; intros init; cbn [fold_left].
    + cbn [length]. lia.
    + rewrite IH. unfold useNowTick_tick, toMillis.
      rewrite adjustTime_clock. cbn [length]. lia.
  - rewrite fold_left_app. reflexivity.
Qed.

(** ** The calendar strip *)

Lemma localTSToObj_timeOfDay (l : Z) :
  timeOfDay (localTSToObj l) = l mod MS_PER_DAY.
Proof. unfold localTSToObj. cbn [timeOfDay]. reflexivity. Qed.

Lemma objToLocalTS_midnight (y m d tod : Z) :
  objToLocalTS {| year := y; month := m; day := d; timeOfDay := 0 |}
  = objToLocalTS {| year := y; month := m; day := d; timeOfDay := tod |} - tod.
Proof. unfold objToLocalTS. cbn [year month day timeOfDay]. lia. Qed.

Lemma fields_eta (c : Fields) :
  {| year := year c; month := month c; day := day c; timeOfDay := timeOfDay c |}
  = c.
Proof. destruct c. reflexivity. Qed.

Lemma startOf_day_fixed (off : Z) (dt : DateTime) :
  startOf_day (fixedZone off) dt
  = {| ts := localDay off dt * MS_PER_DAY - off * 60 * 1000 |}.
Proof.
  unfold startOf_day, offsetOf, tsToObj, localDay, toMillis.
  cbn [fixedZone offset].
  generalize (ts dt + off * 60 * 1000). intros l.
  rewrite fixOffset_fixedZone. f_equal.
  pose proof (localTSToObj_day l) as Hday.
  rewrite Z.min_r by lia.
  rewrite (objToLocalTS_midnight _ _ _ (timeOfDay (localTSToObj l))).
  rewrite fields_eta, objToLocalTS_localTSToObj, localTSToObj_timeOfDay.
  pose proof (Z.div_mod l MS_PER_DAY ltac:(discriminate)) as E.
  lia.
Qed.

Lemma plus_days_fixed (off : Z) (dt : DateTime) :
  plus_days (fixedZone off) dt 1 = {| ts := ts dt + MS_PER_DAY |}.
Proof.
  unfold plus_days, adjustTime, offsetOf, tsToObj. cbn [fixedZone offset].
  set (l := ts dt + off * 60 * 1000).
  rewrite Z.add_0_r.
  pose proof (localTSToObj_day l) as Hday.
  rewrite Z.min_l by lia. rewrite objToLocalTS_day.
  rewrite fields_eta, objToLocalTS_localTSToObj, fixOffset_fixedZone.
  change (0 =? 0) with true. cbn iota. f_equal. subst l. lia.
Qed.

Lemma CalendarStrip_loop_fixed (off : Z) (start0 now end0 endDay : DateTime) :
  forall (fuel : nat) (cursor : DateTime) (acc : list StripDay),
    (Z.to_nat ((ts endDay - ts cursor) / MS_PER_DAY + 1) <= fuel)%nat ->
    exists cells,
      CalendarStrip_loop fuel (fixedZone off) start0 now end0 endDay cursor acc
      = Some (acc ++ cells)
      /\ length cells = Z.to_nat ((ts endDay - ts cursor) / MS_PER_DAY + 1)
      /\ forall (i : nat) (d : StripDay),
           nth_error cells i = Some d ->
           d = stripDay (fixedZone off) start0 now end0
                 {| ts := ts cursor + Z.of_nat i * MS_PER_DAY |}.
Proof.
  induction fuel as [|fuel IH]; intros cursor acc Hfuel;
    cbn [CalendarStrip_loop]; unfold toMillis;
    destruct (Z.leb_spec (ts cursor) (ts endDay)) as [Hle|Hgt].
  - exfalso. unfold MS_PER_DAY, MS_PER_HOUR, MS_PER_MIN in Hfuel.
    revert Hfuel. Z.div_mod_to_equations. lia.
  - exists []. rewrite app_nil_r. split; [reflexivity|]. split.
    + unfold MS_PER_DAY, MS_PER_HOUR, MS_PER_MIN.
      cbn [length]. Z.div_mod_to_equations. lia.
    + intros [|i] d H; discriminate.
  - rewrite plus_days_fixed.
    assert (Hstep : (ts endDay - (ts cursor + MS_PER_DAY)) / MS_PER_DAY + 1
                    = (ts endDay - ts cursor) / MS_PER_DAY)
      by (unfold MS_PER_DAY, MS_PER_HOUR, MS_PER_MIN;
          Z.div_mod_to_equations; lia).
    assert (Hn : 0 <= (ts endDay - ts cursor) / MS_PER_DAY)
      by (apply Z.div_pos; [lia|reflexivity]).
    destruct (IH {| ts := ts cursor + MS_PER_DAY |}
                (acc ++ [stripDay (fixedZone off) start0 now end0 cursor]))
      as (cells & Hrun & Hlen & Hcells).
    { cbn [ts]. rewrite Hstep. lia. }
    exists (stripDay (fixedZone off) start0 now end0 cursor :: cells).
    split; [rewrite Hrun, <- app_assoc; reflexivity|]. split.
    + cbn [length]. rewrite Hlen. cbn [ts]. rewrite Hstep. lia.
    + intros [|i] d H; cbn [nth_error] in H.
      * injection H as <-. f_equal. destruct cursor as [t]. cbn [ts].
        f_equal. lia.
      * rewrite (Hcells i d H). cbn [ts]. f_equal. f_equal. lia.
  - exists []. rewrite app_nil_r. split; [reflexivity|]. split.
    + unfold MS_PER_DAY, MS_PER_HOUR, MS_PER_MIN.
      cbn [length]. Z.div_mod_to_equations. lia.
    + intros [|i] d H; discriminate.
Qed.

Lemma clampQ_range (x : Q) : (0 <= clampQ x 0 1 <= 1)%Q.
Proof.
  unfold clampQ. split.
  - apply Q.le_max_l.
  - apply Q.max_lub_iff. split; [lra|apply Q.le_min_l].
Qed.

Lemma clampQ_low (x : Q) : (x <= 0)%Q -> (clampQ x 0 1 == 0)%Q.
Proof.
  intros H. unfold clampQ. apply Q.max_l.
  apply Qle_trans with x; [apply Q.le_min_r|exact H].
Qed.

Lemma clampQ_high (x : Q) : (1 <= x)%Q -> (clampQ x 0 1 == 1)%Q.
Proof.
  intros H. unfold clampQ.
  rewrite Q.max_r by (apply Q.min_glb_iff; split; lra).
  apply Q.min_l. exact H.
Qed.

Lemma toMillis_DateTime_max (a b : DateTime) :
  toMillis (DateTime_max a b) = Z.max (toMillis a) (toMillis b).
Proof.
  unfold DateTime_max. destruct (Z.ltb_spec (toMillis a) (toMillis b)); lia.
Qed.

Lemma toMillis_DateTime_min (a b : DateTime) :
  toMillis (DateTime_min a b) = Z.min (toMillis a) (toMillis b).
Proof.
  unfold DateTime_min. destruct (Z.ltb_spec (toMillis b) (toMillis a)); lia.
Qed.

(** The fill of one day, in a zone of fixed offset. *)
Lemma stripDay_fill (off : Z) (start0 now end0 cursor : DateTime) :
  (0 <= fill (stripDay (fixedZone off) start0 now end0 cursor) <= 1)%Q
  /\ (toMillis now <= toMillis cursor \/ toMillis end0 <= toMillis cursor ->
      (fill (stripDay (fixedZone off) start0 now end0 cursor) == 0)%Q)
  /\ (toMillis start0 < toMillis end0 -> toMillis cursor < toMillis end0 ->
      toMillis start0 < toMillis cursor + MS_PER_DAY ->
      Z.min (toMillis cursor + MS_PER_DAY) (toMillis end0) <= toMillis now ->
      (fill (stripDay (fixedZone off) start0 now end0 cursor) == 1)%Q).
Proof.
  unfold stripDay. cbn [fill]. rewrite plus_days_fixed.
  split; [apply clampQ_range|]. split.
  - intros H. apply clampQ_low.
    set (dayStart := DateTime_max cursor start0).
    set (dayEnd := DateTime_min _ end0).
    assert (Hnum : toMillis (DateTime_min dayEnd now) - toMillis dayStart <= 0).
    { subst dayStart dayEnd.
      rewrite !toMillis_DateTime_min, toMillis_DateTime_max.
      unfold toMillis in *. cbn [ts].
      unfold MS_PER_DAY, MS_PER_HOUR, MS_PER_MIN. lia. }
    assert (Hden : (0 < inject_Z (Z.max 1 (toMillis dayEnd - toMillis dayStart)))%Q)
      by (change 0%Q with (inject_Z 0); rewrite <- Zlt_Qlt; lia).
    apply Qle_shift_div_r; [exact Hden|].
    rewrite Qmult_0_l. change 0%Q with (inject_Z 0). rewrite <- Zle_Qle.
    exact Hnum.
  - intros Hwin Hin Hstart Hpast. apply clampQ_high.
    set (dayStart := DateTime_max cursor start0).
    set (dayEnd := DateTime_min _ end0).
    assert (Hlen : 0 < toMillis dayEnd - toMillis dayStart).
    { subst dayStart dayEnd.
      rewrite toMillis_DateTime_min, toMillis_DateTime_max.
      unfold toMillis in *. cbn [ts].
      unfold MS_PER_DAY, MS_PER_HOUR, MS_PER_MIN in *. lia. }
    assert (Hup : toMillis (DateTime_min dayEnd now) = toMillis dayEnd).
    { rewrite toMillis_DateTime_min. subst dayEnd.
      rewrite toMillis_DateTime_min. unfold toMillis in *. cbn [ts]. lia. }
    rewrite Hup, Z.max_r by lia.
    assert (Hden : (0 < inject_Z (toMillis dayEnd - toMillis dayStart))%Q)
      by (change 0%Q with (inject_Z 0); rewrite <- Zlt_Qlt; lia).
    apply Qle_shift_div_l; [exact Hden|]. rewrite Qmult_1_l. apply Qle_refl.
Qed.

(** X23.  [CalendarStrip] in a zone of fixed offset: the loop ends, with
    one entry for each local calendar day from the day of the start to the
    day of the end (none when the end lies on an earlier day), each dated
    at the local midnight that begins its day.  Every fill is between 0
    and 1; it is 0 for a day that begins at or after [now], and also for a
    day that begins at or after the end (the extra day of a window that
    ends at local midnight); it is 1 for a day whose part of the window lies
    before [now]. *)
Theorem CalendarStrip_fixed_zone (off : Z) (start0 now end0 : DateTime)
  (fuel : nat) :
  (Z.to_nat (localDay off end0 - localDay off start0 + 1) <= fuel)%nat ->
  exists days,
    CalendarStrip fuel (fixedZone off) start0 now end0 = Some days
    /\ length days = Z.to_nat (localDay off end0 - localDay off start0 + 1)
    /\ forall (i : nat) (d : StripDay),
         nth_error days i = Some d ->
         toMillis (date d)
         = (localDay off start0 + Z.of_nat i) * MS_PER_DAY - off * 60 * 1000
         /\ (0 <= fill d <= 1)%Q
         /\ (toMillis now <= toMillis (date d) \/ toMillis end0 <= toMillis (date d) ->
             (fill d == 0)%Q)
         /\ (toMillis start0 < toMillis end0 ->
             toMillis (date d) < toMillis end0 ->
             Z.min (toMillis (date d) + MS_PER_DAY) (toMillis end0) <= toMillis now ->
             (fill d == 1)%Q).
Proof.
  intros Hfuel. unfold CalendarStrip. rewrite !startOf_day_fixed.
  set (c0 := {| ts := localDay off start0 * MS_PER_DAY - off * 60 * 1000 |}).
  set (e0 := {| ts := localDay off end0 * MS_PER_DAY - off * 60 * 1000 |}).
  assert (Hcount : (ts e0 - ts c0) / MS_PER_DAY + 1
                   = localDay off end0 - localDay off start0 + 1).
  { subst c0 e0. cbn [ts].
    replace (localDay off end0 * MS_PER_DAY - off * 60 * 1000
             - (localDay off start0 * MS_PER_DAY - off * 60 * 1000))
      with ((localDay off end0 - localDay off start0) * MS_PER_DAY) by lia.
    rewrite Z.div_mul by discriminate. reflexivity. }
  destruct (CalendarStrip_loop_fixed off start0 now end0 e0 fuel c0 [])
    as (cells & Hrun & Hlen & Hcells).
  { rewrite Hcount. exact Hfuel. }
  exists cells. split; [exact Hrun|]. split; [rewrite Hlen, Hcount; reflexivity|].
  intros i d Hd. rewrite (Hcells i d Hd).
  set (cursor := {| ts := ts c0 + Z.of_nat i * MS_PER_DAY |}).
  destruct (stripDay_fill off start0 now end0 cursor) as (Hrange & Hzero & Hone).
  assert (Hdate : date (stripDay (fixedZone off) start0 now end0 cursor) = cursor)
    by reflexivity.
  rewrite Hdate.
  split; [subst cursor c0; unfold toMillis; cbn [ts]; lia|].
  split; [exact Hrange|]. split; [exact Hzero|].
  intros Hwin Hin Hpast. apply Hone; try assumption.
  subst cursor c0. unfold toMillis, localDay, toMillis. cbn [ts].
  pose proof (Z.mod_pos_bound (ts start0 + off * 60 * 1000) MS_PER_DAY
                ltac:(reflexivity)) as Hmod.
  pose proof (Z.div_mod (ts start0 + off * 60 * 1000) MS_PER_DAY
                ltac:(discriminate)) as E.
  assert (0 <= Z.of_nat i * MS_PER_DAY)
    by (apply Z.mul_nonneg_nonneg; [lia|discriminate]).
  lia.
Qed.

(** The default window on its fifth day: 32 entries, 4 of them full. *)
Lemma CalendarStrip_fixed_zone_witness :
  exists days,
    CalendarStrip 32 (fixedZone 345) (inZone DEFAULT_START DEFAULT_ZONE)
      (atInstant DEFAULT_ZONE (DEFAULT_START + 4 * MS_PER_DAY))
      (inZone DEFAULT_END DEFAULT_ZONE) = Some days
    /\ length days
       = Z.to_nat (localDay 345 (inZone DEFAULT_END DEFAULT_ZONE)
                   - localDay 345 (inZone DEFAULT_START DEFAULT_ZONE) + 1)
    /\ forall (i : nat) (d : StripDay),
         nth_error days i = Some d ->
         toMillis (date d)
         = (localDay 345 (inZone DEFAULT_START DEFAULT_ZONE) + Z.of_nat i)
           * MS_PER_DAY - 345 * 60 * 1000
         /\ (0 <= fill d <= 1)%Q
         /\ (toMillis (atInstant DEFAULT_ZONE (DEFAULT_START + 4 * MS_PER_DAY))
               <= toMillis (date d)
             \/ toMillis (inZone DEFAULT_END DEFAULT_ZONE) <= toMillis (date d) ->
             (fill d == 0)%Q)
         /\ (toMillis (inZone DEFAULT_START DEFAULT_ZONE)
               < toMillis (inZone DEFAULT_END DEFAULT_ZONE) ->
             toMillis (date d) < toMillis (inZone DEFAULT_END DEFAULT_ZONE) ->
             Z.min (toMillis (date d) + MS_PER_DAY)
                   (toMillis (inZone DEFAULT_END DEFAULT_ZONE))
               <= toMillis (atInstant DEFAULT_ZONE (DEFAULT_START + 4 * MS_PER_DAY)) ->
             (fill d == 1)%Q).
Proof.
  apply (CalendarStrip_fixed_zone 345 (inZone DEFAULT_START DEFAULT_ZONE)
           (atInstant DEFAULT_ZONE (DEFAULT_START + 4 * MS_PER_DAY))
           (inZone DEFAULT_END DEFAULT_ZONE) 32).
  vm_compute. lia.
Defined.

(** ** The day and the time of the renewal *)

Lemma monthAddCalendar_fixed_day (off : Z) (dt : DateTime) :
  timeOfDay (tsToObj (toMillis (monthAddCalendar (fixedZone off) dt 1)) off)
  = timeOfDay (tsToObj (toMillis dt) off)
  /\ day (tsToObj (toMillis (monthAddCalendar (fixedZone off) dt 1)) off)
     <= day (tsToObj (toMillis dt) off).
Proof.
  rewrite monthAddCalendar_fixed. unfold tsToObj, toMillis.
  pose proof (next_month_fields (ts dt + off * 60 * 1000)) as H.
  cbv zeta in H. destruct H as (Ht & _ & _ & _ & Hd). split; assumption.
Qed.

(** Through the loop of the resolver, in a zone of fixed offset, the end
    keeps its local time of day and its day of the month never grows. *)
Lemma roll_loop_fixed_fields (off now tod dom : Z) (fuel : nat) :
  forall (s e : DateTime) (r : bool) (w : Window),
    timeOfDay (tsToObj (toMillis e) off) = tod ->
    day (tsToObj (toMillis e) off) <= dom ->
    roll_loop fuel (fixedZone off) now s e r = Some w ->
    (timeOfDay (tsToObj (toMillis (end_ w)) off) = tod
     /\ day (tsToObj (toMillis (end_ w)) off) <= dom)
    /\ ((rolled w = r /\ start w = s)
        \/ (rolled w = true
            /\ timeOfDay (tsToObj (toMillis (start w)) off) = tod
            /\ day (tsToObj (toMillis (start w)) off) <= dom)).
Proof.
  induction fuel as [|fuel IH]; intros s e r w Htod Hdom H;
    cbn [roll_loop] in H;
    destruct (Z.ltb_spec now (toMillis e)) as [Hlt|Hge]; try discriminate.
  - injection H as <-. cbn [end_ rolled start]. auto.
  - injection H as <-. cbn [end_ rolled start]. auto.
  - destruct (monthAddCalendar_fixed_day off e) as [Ht Hd].
    destruct (IH e (monthAddCalendar (fixedZone off) e 1) true w
                ltac:(congruence) ltac:(lia) H) as [Hend [[Hr ->]|Hs]].
    + split; [exact Hend|]. right. auto.
    + split; [exact Hend|]. right. exact Hs.
Qed.

(** X24.  In a zone of fixed offset the resolved window always ends at the
    local time of day of the anchor end, on a day of the month that is not
    after the anchor end's; a rolled window also starts so.  The day of the
    month is kept from month to month and, once a shorter month has pulled
    it back, does not return (31 January, 28 February, 28 March). *)
Theorem rollCycleToNow_renewal_time (off s e : Z) (now : DateTime)
  (fuel : nat) (w : Window) :
  rollCycleToNow fuel {| timezone := fixedZone off; startISO := s; endISO := e |}
    now = Some w ->
  timeOfDay (tsToObj (toMillis (end_ w)) off) = timeOfDay (tsToObj e off)
  /\ day (tsToObj (toMillis (end_ w)) off) <= day (tsToObj e off)
  /\ (rolled w = true ->
      timeOfDay (tsToObj (toMillis (start w)) off) = timeOfDay (tsToObj e off)
      /\ day (tsToObj (toMillis (start w)) off) <= day (tsToObj e off)).
Proof.
  intros Hw. unfold rollCycleToNow in Hw.
  cbn [timezone startISO endISO] in Hw.
  destruct (toMillis now <? toMillis (inZone s (fixedZone off))).
  - injection Hw as <-. cbn [end_ rolled start].
    split; [reflexivity|]. split; [reflexivity|discriminate].
  - destruct (roll_loop_fixed_fields off (toMillis now)
                (timeOfDay (tsToObj e off)) (day (tsToObj e off)) fuel
                (inZone s (fixedZone off)) (inZone e (fixedZone off)) false w
                eq_refl (Z.le_refl _) Hw) as [[Ht Hd] Hstart].
    split; [exact Ht|]. split; [exact Hd|].
    intros Hr. destruct Hstart as [[Hr' _]|(_ & Ht' & Hd')]; [congruence|].
    split; assumption.
Qed.

(** A cycle that ends on 31 January 2025 at 07:18 (+05:45), seen on 10
    March: the window runs from 28 February to 28 March. *)
Lemma rollCycleToNow_renewal_time_witness :
  timeOfDay (tsToObj (toMillis (end_ {| start := {| ts := 1740706380000 |};
                                        end_ := {| ts := 1743125580000 |};
                                        rolled := true |})) 345)
  = timeOfDay (tsToObj 1738287180000 345)
  /\ day (tsToObj (toMillis (end_ {| start := {| ts := 1740706380000 |};
                                     end_ := {| ts := 1743125580000 |};
                                     rolled := true |})) 345)
     <= day (tsToObj 1738287180000 345)
  /\ (rolled {| start := {| ts := 1740706380000 |};
                end_ := {| ts := 1743125580000 |}; rolled := true |} = true ->
      timeOfDay (tsToObj (toMillis (start {| start := {| ts := 1740706380000 |};
                                             end_ := {| ts := 1743125580000 |};
                                             rolled := true |})) 345)
      = timeOfDay (tsToObj 1738287180000 345)
      /\ day (tsToObj (toMillis (start {| start := {| ts := 1740706380000 |};
                                          end_ := {| ts := 1743125580000 |};
                                          rolled := true |})) 345)
         <= day (tsToObj 1738287180000 345)).
Proof.
  apply (rollCycleToNow_renewal_time 345 1735608780000 1738287180000
           (atInstant DEFAULT_ZONE 1741570200000) 2
           {| start := {| ts := 1740706380000 |};
              end_ := {| ts := 1743125580000 |}; rolled := true |}).
  vm_compute. reflexivity.
Defined.

(** ** Unmounting *)

(** X25.  The cleanup of the effect of [useReminders] silences the page
    when every pending timeout is recorded in [timers.current] and no call
    of [schedule] is waiting for the permission prompt: no timeout is left,
    and no reminder of any kind is shown from then on. *)
Theorem useReminders_cleanup_silences (w : World) (k : string) :
  tracked w -> awaiting w = [] ->
  timeouts (useReminders_cleanup w) = []
  /\ timers_current (useReminders_cleanup w) = ∅
  /\ neverShown k (useReminders_cleanup w).
Proof.
  intros Htr Haw. unfold useReminders_cleanup.
  pose proof (clearPrevious_tracked w Htr) as Hnone.
  split; [exact Hnone|]. split; [reflexivity|].
  apply quietFor_neverShown. split.
  - rewrite Hnone. reflexivity.
  - change (awaiting (clearPrevious w)) with (awaiting w). rewrite Haw.
    reflexivity.
Qed.

Lemma tracked_rearm_default :
  tracked (rearm DEFAULT_ZONE DEFAULT_REMINDERS
             (inZone DEFAULT_START DEFAULT_ZONE) (inZone DEFAULT_END DEFAULT_ZONE)
             (still (DEFAULT_END - 2 * MS_PER_DAY))
             (freshWorld true PermissionGranted)).
Proof.
  intros x Hx. vm_compute in Hx.
  destruct Hx as [<-|[<-|[]]]; (split; [discriminate|]).
  - exists "lastDay". vm_compute. reflexivity.
  - exists "renewal". vm_compute. reflexivity.
Qed.

(** The default cycle armed two days before its end, then unmounted. *)
Lemma useReminders_cleanup_silences_witness :
  timeouts (useReminders_cleanup
              (rearm DEFAULT_ZONE DEFAULT_REMINDERS
                 (inZone DEFAULT_START DEFAULT_ZONE)
                 (inZone DEFAULT_END DEFAULT_ZONE)
                 (still (DEFAULT_END - 2 * MS_PER_DAY))
                 (freshWorld true PermissionGranted))) = []
  /\ timers_current (useReminders_cleanup
                       (rearm DEFAULT_ZONE DEFAULT_REMINDERS
                          (inZone DEFAULT_START DEFAULT_ZONE)
                          (inZone DEFAULT_END DEFAULT_ZONE)
                          (still (DEFAULT_END - 2 * MS_PER_DAY))
                          (freshWorld true PermissionGranted))) = ∅
  /\ neverShown "lastDay"
       (useReminders_cleanup
          (rearm DEFAULT_ZONE DEFAULT_REMINDERS
             (inZone DEFAULT_START DEFAULT_ZONE)
             (inZone DEFAULT_END DEFAULT_ZONE)
             (still (DEFAULT_END - 2 * MS_PER_DAY))
             (freshWorld true PermissionGranted))).
Proof.
  apply (useReminders_cleanup_silences
           (rearm DEFAULT_ZONE DEFAULT_REMINDERS
              (inZone DEFAULT_START DEFAULT_ZONE)
              (inZone DEFAULT_END DEFAULT_ZONE)
              (still (DEFAULT_END - 2 * MS_PER_DAY))
              (freshWorld true PermissionGranted))).
  - exact tracked_rearm_default.
  - vm_compute. reflexivity.
Defined.

(** ** Instances of two statements on the resolver and the effect *)

(** Two instants of the second window of the default cycle. *)
Lemma rollCycleToNow_same_window_witness :
  rollCycleToNow 1 defaultCycle (atInstant DEFAULT_ZONE 1758737701000)
  = Some {| start := {| ts := 1758331980000 |};
            end_ := {| ts := 1760923980000 |}; rolled := true |}.
Proof.
  apply (rollCycleToNow_same_window defaultCycle
           (atInstant DEFAULT_ZONE 1758737700000)
           (atInstant DEFAULT_ZONE 1758737701000) 1
           {| start := {| ts := 1758331980000 |};
              end_ := {| ts := 1760923980000 |}; rolled := true |}).
  - exact DEFAULT_ZONE_bounded.
  - vm_compute. discriminate.
  - vm_compute. discriminate.
  - vm_compute. reflexivity.
  - vm_compute. split; [discriminate|reflexivity].
Defined.

(** The default cycle armed twice, a day before its end, on a page that
    was granted the permission. *)
Lemma rearm_idempotent_settled_witness :
  List.map reminder
    (timeouts (rearm DEFAULT_ZONE DEFAULT_REMINDERS
                 (inZone DEFAULT_START DEFAULT_ZONE) (inZone DEFAULT_END DEFAULT_ZONE)
                 (still (DEFAULT_END - 2 * MS_PER_DAY))
                 (rearm DEFAULT_ZONE DEFAULT_REMINDERS
                    (inZone DEFAULT_START DEFAULT_ZONE)
                    (inZone DEFAULT_END DEFAULT_ZONE)
                    (still (DEFAULT_END - 2 * MS_PER_DAY))
                    (freshWorld true PermissionGranted))))
  = List.map reminder
      (timeouts (rearm DEFAULT_ZONE DEFAULT_REMINDERS
                   (inZone DEFAULT_START DEFAULT_ZONE)
                   (inZone DEFAULT_END DEFAULT_ZONE)
                   (still (DEFAULT_END - 2 * MS_PER_DAY))
                   (freshWorld true PermissionGranted)))
  /\ List.map reminder
       (timeouts (rearm DEFAULT_ZONE DEFAULT_REMINDERS
                    (inZone DEFAULT_START DEFAULT_ZONE)
                    (inZone DEFAULT_END DEFAULT_ZONE)
                    (still (DEFAULT_END - 2 * MS_PER_DAY))
                    (freshWorld true PermissionGranted)))
     = armedReminders DEFAULT_ZONE DEFAULT_REMINDERS
         (inZone DEFAULT_START DEFAULT_ZONE) (inZone DEFAULT_END DEFAULT_ZONE)
         (still (DEFAULT_END - 2 * MS_PER_DAY))
  /\ List.NoDup
       (List.map key
          (armedReminders DEFAULT_ZONE DEFAULT_REMINDERS
             (inZone DEFAULT_START DEFAULT_ZONE) (inZone DEFAULT_END DEFAULT_ZONE)
             (still (DEFAULT_END - 2 * MS_PER_DAY))))
  /\ tracked (rearm DEFAULT_ZONE DEFAULT_REMINDERS
                (inZone DEFAULT_START DEFAULT_ZONE)
                (inZone DEFAULT_END DEFAULT_ZONE)
                (still (DEFAULT_END - 2 * MS_PER_DAY))
                (freshWorld true PermissionGranted)).
Proof.
  apply (rearm_idempotent_settled DEFAULT_ZONE DEFAULT_REMINDERS
           (inZone DEFAULT_START DEFAULT_ZONE) (inZone DEFAULT_END DEFAULT_ZONE)
           (still (DEFAULT_END - 2 * MS_PER_DAY))
           (freshWorld true PermissionGranted)).
  - reflexivity.
  - apply tracked_freshWorld.
  - reflexivity.
Defined.
